(** * Screenshot-to-note bots: a shallow embedding and its properties

    The repository holds three bot programs built around one pipeline
    (ingest, extract, structure, persist, report):

    - [telegram_bot.py]          rules-based OCR (Yandex Vision) with
                                 heuristics for title and tags;
    - [telegram_bot_google.py]   vision API (Google) with keyword heuristics;
    - [telegram_bot_open_ai.py]  AI vision call returning the whole note.

    Pure functions of the source are Rocq functions over Python strings
    (lists of code points).  The handlers are functions from the outcomes
    of the external calls of one run to the list of external effects the
    run performs, in program order. *)

From Stdlib Require Import List String Ascii Bool NArith ZArith Lia.
From Stdlib Require Import DecimalString DecimalZ.
Import ListNotations.

Set Implicit Arguments.

(** ** Python strings *)

(** A Python [str] is a sequence of Unicode code points. *)
Definition char := N.
Definition pystr := list char.

Definition char_eqb (a b : char) : bool := N.eqb a b.

Fixpoint pystr_eqb (a b : pystr) : bool :=
  match a, b with
  | [], [] => true
  | x :: a', y :: b' => char_eqb x y && pystr_eqb a' b'
  | _, _ => false
  end.

Definition pystr_eq_dec : forall a b : pystr, {a = b} + {a <> b} :=
  list_eq_dec N.eq_dec.

(** String literals of the source are written as UTF-8 text and decoded to
    code points. *)
Fixpoint utf8_decode (bs : list N) : pystr :=
  match bs with
  | [] => []
  | b :: r =>
      if (b <? 128)%N then b :: utf8_decode r
      else if (b <? 224)%N then
        match r with
        | b1 :: r1 => ((b - 192) * 64 + (b1 - 128))%N :: utf8_decode r1
        | _ => []
        end
      else if (b <? 240)%N then
        match r with
        | b1 :: b2 :: r2 =>
            ((b - 224) * 4096 + (b1 - 128) * 64 + (b2 - 128))%N
              :: utf8_decode r2
        | _ => []
        end
      else
        match r with
        | b1 :: b2 :: b3 :: r3 =>
            ((b - 240) * 262144 + (b1 - 128) * 4096
             + (b2 - 128) * 64 + (b3 - 128))%N :: utf8_decode r3
        | _ => []
        end
  end.

Definition py (s : string) : pystr :=
  utf8_decode (map N_of_ascii (list_ascii_of_string s)).

(** [len(s)], as a Python int. *)
Definition len (s : pystr) : Z := Z.of_nat (List.length s).

(** Truth value of a string: [if s:] holds for the non-empty ones. *)
Definition truthy (s : pystr) : bool :=
  match s with [] => false | _ :: _ => true end.

(** [Py_UNICODE_ISSPACE]: the code points [str.strip()], [str.split()],
    [str.isspace()] and the pattern [\s] treat as white space. *)
Definition isspace (c : char) : bool :=
  ((9 <=? c) && (c <=? 13) || (28 <=? c) && (c <=? 32)
   || (c =? 133) || (c =? 160) || (c =? 5760)
   || (8192 <=? c) && (c <=? 8202)
   || (c =? 8232) || (c =? 8233) || (c =? 8239) || (c =? 8287)
   || (c =? 12288))%N.

Fixpoint lstrip (s : pystr) : pystr :=
  match s with
  | [] => []
  | c :: s' => if isspace c then lstrip s' else s
  end.

Definition rstrip (s : pystr) : pystr := rev (lstrip (rev s)).

(** [s.strip()] *)
Definition strip (s : pystr) : pystr := rstrip (lstrip s).

(** [s.startswith(p)] *)
Fixpoint startswith (p s : pystr) : bool :=
  match p, s with
  | [], _ => true
  | a :: p', b :: s' => char_eqb a b && startswith p' s'
  | _ :: _, [] => false
  end.

(** [s.endswith(p)] *)
Definition endswith (p s : pystr) : bool := startswith (rev p) (rev s).

(** [p in s] for strings: [p] occurs as a contiguous substring. *)
Fixpoint contains (p s : pystr) : bool :=
  startswith p s ||
  match s with
  | [] => false
  | _ :: s' => contains p s'
  end.

(** [s[:k]] for a Python int [k]: a negative bound counts from the end. *)
Definition slice_to (k : Z) (s : pystr) : pystr :=
  if (0 <=? k)%Z then firstn (Z.to_nat k) s
  else firstn (Z.to_nat (len s + k)) s.

(** [sep.join(parts)] *)
Fixpoint join (sep : pystr) (parts : list pystr) : pystr :=
  match parts with
  | [] => []
  | [p] => p
  | p :: rest => p ++ sep ++ join sep rest
  end.

(** ** Regular expressions of [NoteProcessor] *)

(** The class [[.!?\n]] *)
Definition is_sentence_end (c : char) : bool :=
  ((c =? 46) || (c =? 33) || (c =? 63) || (c =? 10))%N.

(** [re.split(r'[.!?\n]+', s)]: the pieces between the maximal runs of
    separators; [skipping] tells that the previous character was one. *)
Fixpoint re_split_from (skipping : bool) (s : pystr) : list pystr :=
  match s with
  | [] => [[]]
  | c :: s' =>
      if is_sentence_end c then
        if skipping then re_split_from true s'
        else [] :: re_split_from true s'
      else
        match re_split_from false s' with
        | p :: ps => (c :: p) :: ps
        | [] => [[c]]
        end
  end.

Definition re_split_sentences (s : pystr) : list pystr :=
  re_split_from false s.

(** [re.sub(r'\s+', ' ', s)]: every maximal run of white space becomes one
    space. *)
Fixpoint re_sub_ws_from (skipping : bool) (s : pystr) : pystr :=
  match s with
  | [] => []
  | c :: s' =>
      if isspace c then
        if skipping then re_sub_ws_from true s'
        else 32%N :: re_sub_ws_from true s'
      else c :: re_sub_ws_from false s'
  end.

Definition re_sub_ws (s : pystr) : pystr := re_sub_ws_from false s.

(** [re.findall(r'#\w+', s)] is defined below, once the class [\w] is
    available. *)

(** ** Unicode tables *)

(** [str.lower()] and the class [\w] are given by the Unicode tables of the
    interpreter; every function below takes them as an interface. *)
Class Unicode := {
  lower : pystr -> pystr;
  isword : char -> bool
}.

Definition is_ascii_upper (c : char) : bool := ((65 <=? c) && (c <=? 90))%N.
Definition is_ascii_lower (c : char) : bool := ((97 <=? c) && (c <=? 122))%N.
Definition is_ascii_digit (c : char) : bool := ((48 <=? c) && (c <=? 57))%N.

(** What the proofs about tags use of [str.lower()]. *)
Record LowerLaws (U : Unicode) : Prop := {
  lower_idempotent : forall s, lower (lower s) = lower s;
  lower_nonempty : forall s, s <> [] -> lower s <> [];
  lower_fixes_ascii_lower :
    forall s, forallb is_ascii_lower s = true -> lower s = s
}.

(** The tables restricted to ASCII: the instance used for concrete runs. *)
Definition ascii_lower_char (c : char) : char :=
  if is_ascii_upper c then (c + 32)%N else c.

Definition ascii_isword (c : char) : bool :=
  is_ascii_upper c || is_ascii_lower c || is_ascii_digit c || (c =? 95)%N.

Definition ascii_unicode : Unicode :=
  {| lower := map ascii_lower_char; isword := ascii_isword |}.

(** [re.findall(r'#\w+', s)]: [cur] is the run of word characters read
    since the last [#], when there is one. *)
Definition hash : char := 35%N.

Definition flush_hashtag (cur : option pystr) : list pystr :=
  match cur with
  | Some (c :: w) => [hash :: c :: w]
  | _ => []
  end.

Fixpoint findall_hashtags_from {U : Unicode} (cur : option pystr) (s : pystr)
  : list pystr :=
  match s with
  | [] => flush_hashtag cur
  | c :: s' =>
      let restart := if char_eqb c hash then Some [] else None in
      match cur with
      | Some w =>
          if isword c then findall_hashtags_from (Some (w ++ [c])) s'
          else flush_hashtag cur ++ findall_hashtags_from restart s'
      | None => findall_hashtags_from restart s'
      end
  end.

Definition findall_hashtags {U : Unicode} (s : pystr) : list pystr :=
  findall_hashtags_from None s.

(** [list(set(xs))]: the distinct elements; Python leaves their order
    unspecified, the model keeps the last occurrence of each. *)
Definition list_set (xs : list pystr) : list pystr := nodup pystr_eq_dec xs.

(** ** Clock readings and rendered numbers *)

(** [str(n)] for a Python int. *)
Definition ascii_codes (s : string) : pystr :=
  map N_of_ascii (list_ascii_of_string s).

Definition str_int (z : Z) : pystr :=
  ascii_codes (NilZero.string_of_int (Z.to_int z)).

Definition digit_char (d : N) : char := (48 + d)%N.

(** A field printed on two, or four, decimal digits with leading zeros. *)
Definition pad2 (n : N) : pystr :=
  [digit_char (n / 10 mod 10); digit_char (n mod 10)].

Definition pad4 (n : N) : pystr :=
  [digit_char (n / 1000 mod 10); digit_char (n / 100 mod 10);
   digit_char (n / 10 mod 10); digit_char (n mod 10)].

(** A reading of [datetime.now()]. *)
Record datetime := {
  year : N; month : N; day : N;
  hour : N; minute : N; second : N; microsecond : N
}.

(** The readings the clock can return; four-digit years, where [%Y] prints
    the same on every platform. *)
Definition valid_datetime (d : datetime) : Prop :=
  (1000 <= year d <= 9999 /\ 1 <= month d <= 12 /\ 1 <= day d <= 31 /\
   hour d <= 23 /\ minute d <= 59 /\ second d <= 59 /\
   microsecond d <= 999999)%N.

(** [d.strftime("%Y%m%d_%H%M%S")] *)
Definition strftime_underscore (d : datetime) : pystr :=
  pad4 (year d) ++ pad2 (month d) ++ pad2 (day d) ++ [95%N]
  ++ pad2 (hour d) ++ pad2 (minute d) ++ pad2 (second d).

(** [d.strftime("%Y%m%d%H%M%S")] *)
Definition strftime_compact (d : datetime) : pystr :=
  pad4 (year d) ++ pad2 (month d) ++ pad2 (day d)
  ++ pad2 (hour d) ++ pad2 (minute d) ++ pad2 (second d).

(** [str(uuid.UUID)]: the 128-bit value on 32 hexadecimal digits, grouped
    8-4-4-4-12. *)
Definition hex_char (d : N) : char :=
  if (d <? 10)%N then (48 + d)%N else (87 + d)%N.

Fixpoint hex_digits (width : nat) (n : N) : pystr :=
  match width with
  | O => []
  | S w => hex_digits w (n / 16) ++ [hex_char (n mod 16)]
  end.

Definition group_8_4_4_4_12 (h : pystr) : pystr :=
  firstn 8 h ++ [45%N] ++ firstn 4 (skipn 8 h) ++ [45%N]
  ++ firstn 4 (skipn 12 h) ++ [45%N] ++ firstn 4 (skipn 16 h) ++ [45%N]
  ++ skipn 20 h.

Definition str_uuid (u : N) : pystr := group_8_4_4_4_12 (hex_digits 32 u).

(** Raw bytes of an attachment. *)
Definition bytes := list Byte.byte.

(** ** External effects of one run *)

(** What a run does to its collaborators, in program order: texts on the
    Messaging Surface, the request to the extraction backend, the upload to
    the object store (AssetStore.put) and the inserts into the relational
    store (NoteRepository.save, and the tag rows of the normalised schema). *)
Inductive effect (msg row : Type) : Type :=
| Send (m : msg)
| BackendCall (mime_type : option pystr) (data : bytes)
| StorageUpload (filename : pystr) (data : bytes)
| NotesInsert (r : row)
| NoteTagsInsert (note_id : Z) (tags : list pystr).

Arguments Send {msg row} m.
Arguments BackendCall {msg row} mime_type data.
Arguments StorageUpload {msg row} filename data.
Arguments NotesInsert {msg row} r.
Arguments NoteTagsInsert {msg row} note_id tags.

Definition is_put {msg row} (e : effect msg row) : bool :=
  match e with StorageUpload _ _ => true | _ => false end.

Definition is_save {msg row} (e : effect msg row) : bool :=
  match e with NotesInsert _ | NoteTagsInsert _ _ => true | _ => false end.

Definition is_backend_call {msg row} (e : effect msg row) : bool :=
  match e with BackendCall _ _ => true | _ => false end.

(** The keys under which a run stores assets. *)
Definition put_keys {msg row} (t : list (effect msg row)) : list pystr :=
  flat_map (fun e => match e with StorageUpload k _ => [k] | _ => [] end) t.

(** The rows a run saves. *)
Definition saved_rows {msg row} (t : list (effect msg row)) : list row :=
  flat_map (fun e => match e with NotesInsert r => [r] | _ => [] end) t.

(** The last text shown to the user: the terminal result of the run. *)
Fixpoint last_message {msg row} (t : list (effect msg row)) : option msg :=
  match t with
  | [] => None
  | e :: t' =>
      match last_message t' with
      | Some m => Some m
      | None => match e with Send m => Some m | _ => None end
      end
  end.

(** Why a request to a backend raised, as far as the claims tell failures
    apart. *)
Inductive backend_error :=
| AuthenticationFailure
| NetworkFailure
| OtherFailure.

(** * telegram_bot.py: rules-based OCR *)

Module YandexVisionOCR.

(** The shape of the recognizeText response the code reads; every key can be
    missing, which is what [in] and [.get(key, default)] test. *)
Record line := { text : option pystr }.
Record block := { lines : option (list line) }.
Record text_annotation := {
  fullText : option pystr;
  blocks : option (list block)
}.
Record ocr_result := { textAnnotation : option text_annotation }.
Record ocr_json := { result : option ocr_result }.

(** The exceptions the [try] block can see.  [HTTPError] carries the status
    of its response, when it has one; [RequestsJSONDecodeError] is the decode
    error of the requests library, which is both a [RequestException] and a
    [json.JSONDecodeError]. *)
Inductive exn :=
| HTTPError (status : option Z)
| RequestException
| RequestsJSONDecodeError
| JSONDecodeError
| OtherException.

Definition isinstance_HTTPError (e : exn) : bool :=
  match e with HTTPError _ => true | _ => false end.

Definition isinstance_RequestException (e : exn) : bool :=
  match e with
  | HTTPError _ | RequestException | RequestsJSONDecodeError => true
  | _ => false
  end.

Definition isinstance_JSONDecodeError (e : exn) : bool :=
  match e with
  | RequestsJSONDecodeError | JSONDecodeError => true
  | _ => false
  end.

(** What [response.json()] and the reading of its value do: raise, or give
    a value of the expected shape. *)
Inductive json_outcome :=
| JsonRaises (e : exn)
| JsonValue (v : ocr_json).

(** What [requests.post] does. *)
Inductive post_outcome :=
| PostRaises (e : exn)
| PostReturns (status_code : Z) (body : json_outcome).

Definition err_token_expired : pystr :=
  Eval vm_compute in py "Error: IAM token expired. Please refresh your token.".
Definition err_authentication : pystr :=
  Eval vm_compute in
    py "Error: Authentication failed. Please check your IAM token.".
Definition err_access_denied : pystr :=
  Eval vm_compute in
    py "Error: Access denied. Please check your folder permissions.".
Definition err_failed : pystr :=
  Eval vm_compute in py "Error: Failed to process image with OCR service.".
Definition err_network : pystr :=
  Eval vm_compute in py "Error: Network error while processing image.".
Definition err_invalid_response : pystr :=
  Eval vm_compute in py "Error: Invalid response from OCR service.".
Definition err_unexpected : pystr :=
  Eval vm_compute in py "Error: Unexpected error during text extraction.".

Definition newline : pystr := [10%N].

(** The [except] clauses, tried in the order of the source. *)
Definition handle_exception (e : exn) : pystr :=
  if isinstance_HTTPError e then
    match e with
    | HTTPError (Some status) =>
        if (status =? 401)%Z then err_authentication
        else if (status =? 403)%Z then err_access_denied
        else err_failed
    | _ => err_failed
    end
  else if isinstance_RequestException e then err_network
  else if isinstance_JSONDecodeError e then err_invalid_response
  else err_unexpected.

(** The texts of the lines of one block, the empty ones left out. *)
Definition block_line_texts (b : block) : list pystr :=
  flat_map
    (fun l : line =>
       let line_text := match text l with Some t => t | None => [] end in
       if truthy line_text then [line_text] else [])
    (match lines b with Some ls => ls | None => [] end).

(** The body of the [try] after [response.json()]. *)
Definition read_result (v : ocr_json) : pystr :=
  match result v with
  | Some r =>
      match textAnnotation r with
      | Some text_annotation =>
          let full_text :=
            match fullText text_annotation with Some t => t | None => [] end in
          if truthy full_text then strip full_text
          else
            let text_blocks :=
              flat_map block_line_texts
                (match blocks text_annotation with
                 | Some bs => bs | None => [] end) in
            let combined_text := join newline text_blocks in
            if truthy combined_text then strip combined_text else []
      | None => []
      end
  | None => []
  end.

(** [response.raise_for_status()] raises for the 4xx and 5xx codes. *)
Definition raise_for_status (status_code : Z) : option exn :=
  if ((400 <=? status_code) && (status_code <? 600))%Z
  then Some (HTTPError (Some status_code)) else None.

Definition extract_text_from_image (post : post_outcome) : pystr :=
  match post with
  | PostRaises e => handle_exception e
  | PostReturns status_code body =>
      if (status_code =? 401)%Z then err_token_expired
      else
        match raise_for_status status_code with
        | Some e => handle_exception e
        | None =>
            match body with
            | JsonRaises e => handle_exception e
            | JsonValue v => read_result v
            end
        end
  end.

End YandexVisionOCR.

Module NoteProcessor.

Definition error_marker : pystr := Eval vm_compute in py "Error:".
Definition untitled_screenshot : pystr :=
  Eval vm_compute in py "Untitled Screenshot".
Definition screenshot_note : pystr := Eval vm_compute in py "Screenshot Note".
Definition ellipsis : pystr := Eval vm_compute in py "...".

(** The default of the parameter [max_length]. *)
Definition default_max_length : Z := 50.

(** The title before truncation: the first piece of the stripped content,
    stripped, with white space collapsed. *)
Definition first_sentence (content : pystr) (max_length : Z) : pystr :=
  let sentences := re_split_sentences (strip content) in
  let first :=
    match sentences with
    | s0 :: _ => strip s0
    | [] => slice_to max_length content
    end in
  re_sub_ws first.

Definition generate_title (content : pystr) (max_length : Z) : pystr :=
  if negb (truthy content) || startswith error_marker content then
    untitled_screenshot
  else
    let title := first_sentence content max_length in
    let title :=
      if (len title >? max_length)%Z
      then slice_to (max_length - 3) title ++ ellipsis
      else title in
    if truthy title then title else screenshot_note.

(** The table [tag_patterns], in the order of the source. *)
Definition tag_patterns : list (pystr * list pystr) :=
  Eval vm_compute in
  [ (py "email", map py ["email"; "@"; "mail"; "inbox"]);
    (py "auth", map py ["password"; "login"; "auth"; "signin"; "signup"]);
    (py "code", map py ["code"; "programming"; "function"; "class"; "def ";
                        "var "; "const "; "{"; "}"]);
    (py "meeting", map py ["meeting"; "call"; "zoom"; "teams"; "conference"]);
    (py "todo", map py ["todo"; "task"; "deadline"; "☐"; "□"; "checklist"]);
    (py "finance", map py ["invoice"; "payment"; "bill"; "$"; "€"; "₽";
                           "price"; "cost"]);
    (py "error", map py ["error"; "exception"; "bug"; "failed"; "warning"]);
    (py "document", map py ["document"; "report"; "pdf"; "doc"; "file"]);
    (py "web", map py ["http"; "www"; "url"; "website"; "browser"]);
    (py "mobile", map py ["phone"; "mobile"; "app"; "android"; "ios"]);
    (py "social", map py ["facebook"; "twitter"; "instagram"; "telegram";
                          "whatsapp"]);
    (py "date", map py ["today"; "tomorrow"; "yesterday"; "2024"; "2025";
                        "january"; "february"]) ]%string.

(** The categories one of whose patterns occurs in the lowered content. *)
Definition matched_categories (table : list (pystr * list pystr))
    (content_lower : pystr) : list pystr :=
  flat_map
    (fun entry : pystr * list pystr =>
       let (tag, patterns) := entry in
       if existsb (fun pattern => contains pattern content_lower) patterns
       then [tag] else [])
    table.

Definition extract_tags {U : Unicode} (content : pystr) : list pystr :=
  if negb (truthy content) || startswith error_marker content then []
  else
    let content_lower := lower content in
    let tags := matched_categories tag_patterns content_lower in
    let hashtags := findall_hashtags content in
    let tags := tags ++ map (fun tag => lower (tl tag)) hashtags in
    list_set tags.

End NoteProcessor.

Module TelegramOCRBot.

Import YandexVisionOCR NoteProcessor.

(** The row [SupabaseManager.save_note] inserts into the table notes;
    [created_at] holds the clock reading the source renders with
    [isoformat()]. *)
Record note_row := {
  user_id : Z;
  title : pystr;
  tags : list pystr;
  content : pystr;
  image_url : option pystr;
  created_at : datetime
}.

(** The texts of the handler; the data a text shows is kept, its layout
    belongs to the Messaging Surface. *)
Inductive message :=
| MsgProcessing
| MsgExtracting
| MsgCouldNotExtract
| MsgOcrError (extracted_text : pystr)
| MsgGenerating
| MsgNoteCreated (title : pystr) (tags : list pystr) (extracted_text : pystr)
| MsgSaveError
| MsgException.

(** The outcomes of the external calls of one run of [handle_photo]:
    [download] is [None] when [get_file] or [download_file] raises;
    [upload_result] is what [upload_image] returns, [None] on any failure;
    [insert_result] is the stored row's id, [None] when the insert raises or
    returns no data. *)
Record env := {
  from_user_id : Z;
  download : option (pystr * bytes);
  ocr_post : post_outcome;
  now_filename : datetime;
  upload_result : option pystr;
  now_created : datetime;
  insert_result : option Z
}.

Definition ext_png : pystr := Eval vm_compute in py ".png".
Definition ext_pdf : pystr := Eval vm_compute in py ".pdf".
Definition mime_jpeg : pystr := Eval vm_compute in py "JPEG".
Definition mime_png : pystr := Eval vm_compute in py "PNG".
Definition mime_pdf : pystr := Eval vm_compute in py "PDF".

(** [f"screenshot_{user_id}_{timestamp}.jpg"] with
    [timestamp = now.strftime("%Y%m%d_%H%M%S")]. *)
Definition filename (uid : Z) (now : datetime) : pystr :=
  py "screenshot_" ++ str_int uid ++ py "_" ++ strftime_underscore now
  ++ py ".jpg".

Definition trace := list (effect message note_row).

Definition handle_photo {U : Unicode} (e : env) : trace :=
  Send MsgProcessing ::
  match download e with
  | None => [Send MsgException]
  | Some (file_path, downloaded_file) =>
      let mime_type :=
        if endswith ext_png (lower file_path) then mime_png
        else if endswith ext_pdf (lower file_path) then mime_pdf
        else mime_jpeg in
      Send MsgExtracting ::
      BackendCall (Some mime_type) downloaded_file ::
      let extracted_text := extract_text_from_image (ocr_post e) in
      if negb (truthy extracted_text) then [Send MsgCouldNotExtract]
      else if startswith error_marker extracted_text
      then [Send (MsgOcrError extracted_text)]
      else
        Send MsgGenerating ::
        let title := generate_title extracted_text default_max_length in
        let tags := extract_tags extracted_text in
        let filename := filename (from_user_id e) (now_filename e) in
        StorageUpload filename downloaded_file ::
        NotesInsert {| user_id := from_user_id e;
                       title := title;
                       tags := tags;
                       content := extracted_text;
                       image_url := upload_result e;
                       created_at := now_created e |} ::
        match insert_result e with
        | Some _ => [Send (MsgNoteCreated title tags extracted_text)]
        | None => [Send MsgSaveError]
        end
  end.

End TelegramOCRBot.

(** * telegram_bot_google.py: vision API with keyword heuristics *)

(** [s.split(sep)] for a one-character separator. *)
Fixpoint split_char (sep : char) (s : pystr) : list pystr :=
  match s with
  | [] => [[]]
  | c :: s' =>
      if char_eqb c sep then [] :: split_char sep s'
      else
        match split_char sep s' with
        | p :: ps => (c :: p) :: ps
        | [] => [[c]]
        end
  end.

(** [s.split()]: the maximal runs without white space. *)
Fixpoint split_ws (s : pystr) : list pystr :=
  match s with
  | [] => []
  | c :: s' =>
      if isspace c then split_ws s'
      else
        match s' with
        | [] => [[c]]
        | d :: _ =>
            if isspace d then [c] :: split_ws s'
            else
              match split_ws s' with
              | p :: ps => (c :: p) :: ps
              | [] => [[c]]
              end
        end
  end.

Module GoogleNotesBot.

(** What [vision_client.text_detection] does: raise, or return the
    descriptions of [response.text_annotations]. *)
Inductive vision_outcome :=
| VisionRaises (why : backend_error)
| VisionReturns (text_annotations : list pystr).

(** Every exception is caught and gives the empty string. *)
Definition extract_text_from_image (v : vision_outcome) : pystr :=
  match v with
  | VisionReturns (description :: _) => description
  | VisionReturns [] => []
  | VisionRaises _ => []
  end.

Definition default_title : pystr := Eval vm_compute in py "Скриншот".

Definition topics : list (pystr * list pystr) :=
  Eval vm_compute in
  [ (py "ACID", map py ["acid"; "атомарность"; "consistency"; "isolation"]);
    (py "База данных", map py ["база данных"; "database"; "sql"; "таблица"]);
    (py "Код", map py ["def "; "function"; "import"; "class "; "код"]);
    (py "Настройки", map py ["настройки"; "settings"; "конфигурация"]);
    (py "Ошибка", map py ["error"; "exception"; "ошибка"; "failed"]);
    (py "Урок", map py ["урок"; "tutorial"; "гайд"; "обучение"]);
    (py "Чат", map py ["чат"; "сообщение"; "message"; "диалог"]);
    (py "Документ", map py ["документ"; "статья"; "document"]);
    (py "Сайт", map py ["http"; "www"; "сайт"; "website"]);
    (py "Деньги", map py ["рубль"; "деньги"; "цена"; "$"; "€"; "₽"]) ]%string.

(** The first topic one of whose keywords occurs in the lowered text. *)
Fixpoint first_topic (table : list (pystr * list pystr)) (text_lower : pystr)
  : option pystr :=
  match table with
  | [] => None
  | (topic, keywords) :: rest =>
      if existsb (fun keyword => contains keyword text_lower) keywords
      then Some topic else first_topic rest text_lower
  end.

Definition generate_title_from_text {U : Unicode} (text : pystr) : pystr :=
  if negb (truthy text) then default_title
  else
    match first_topic topics (lower text) with
    | Some topic => topic
    | None =>
        match split_char 10%N text with
        | first :: _ =>
            let first_line := strip first in
            let words := firstn 3 (split_ws first_line) in
            match words with
            | w0 :: _ =>
                let title := join [32%N] words in
                if (len title <=? 30)%Z then title else w0
            | [] => default_title
            end
        | [] => default_title
        end
    end.

Definition screenshot : pystr := Eval vm_compute in py "screenshot".

Definition tag_keywords : list (pystr * list pystr) :=
  Eval vm_compute in
  [ (py "code", map py ["def "; "function"; "import"; "class "; "код";
                        "программа"]);
    (py "database", map py ["database"; "sql"; "база данных"; "таблица";
                            "acid"]);
    (py "email", map py ["@"; "email"; "почта"; "письмо"]);
    (py "web", map py ["http"; "www"; "сайт"; "website"]);
    (py "document", map py ["документ"; "статья"; "document"]);
    (py "chat", map py ["чат"; "сообщение"; "message"; "диалог"]);
    (py "settings", map py ["настройки"; "settings"; "конфигурация"]);
    (py "error", map py ["error"; "ошибка"; "exception"; "failed"]);
    (py "tutorial", map py ["урок"; "tutorial"; "гайд"; "обучение"]);
    (py "financial", map py ["рубль"; "деньги"; "цена"; "$"; "€"; "₽"]);
    (py "education", map py ["школа"; "университет"; "студент"; "учеба"]);
    (py "business", map py ["работа"; "офис"; "проект"; "задача"]) ]%string.

Definition generate_tags_from_text {U : Unicode} (text : pystr)
  : list pystr :=
  if negb (truthy text) then [screenshot]
  else
    let tags := [screenshot] in
    let text_lower := lower text in
    let tags :=
      tags ++ NoteProcessor.matched_categories tag_keywords text_lower in
    list_set tags.

Record note_row := {
  user_id : Z;
  title : pystr;
  tags : list pystr;
  content : pystr;
  image_url : pystr;
  created_at : datetime
}.

Inductive message :=
| MsgAnalyzing
| MsgNoTextFound
| MsgUploadError
| MsgNoteSaved (title : pystr) (tags : list pystr) (extracted_text : pystr)
| MsgSaveError
| MsgProcessingError.

(** The outcomes of the external calls of one run of [handle_photo]:
    [uuid4] is the random 128-bit value of [uuid.uuid4()], [now_timestamp]
    is [int(datetime.now().timestamp())]. *)
Record env := {
  effective_user_id : Z;
  download : option bytes;
  vision : vision_outcome;
  uuid4 : N;
  now_timestamp : Z;
  upload_result : option pystr;
  now_created : datetime;
  insert_result : option Z
}.

(** [f"screenshot_{uuid.uuid4()}_{int(datetime.now().timestamp())}.jpg"] *)
Definition filename (uuid : N) (timestamp : Z) : pystr :=
  py "screenshot_" ++ str_uuid uuid ++ py "_" ++ str_int timestamp
  ++ py ".jpg".

Definition trace := list (effect message note_row).

Definition handle_photo {U : Unicode} (e : env) : trace :=
  Send MsgAnalyzing ::
  match download e with
  | None => [Send MsgProcessingError]
  | Some image_data =>
      BackendCall None image_data ::
      let extracted_text := extract_text_from_image (vision e) in
      if negb (truthy extracted_text) then [Send MsgNoTextFound]
      else
        let title := generate_title_from_text extracted_text in
        let tags := generate_tags_from_text extracted_text in
        let filename := filename (uuid4 e) (now_timestamp e) in
        StorageUpload filename image_data ::
        match upload_result e with
        | Some (c :: u) =>
            let image_url := c :: u in
            NotesInsert {| user_id := effective_user_id e;
                           title := title;
                           tags := tags;
                           content := extracted_text;
                           image_url := image_url;
                           created_at := now_created e |} ::
            match insert_result e with
            | Some _ => [Send (MsgNoteSaved title tags extracted_text)]
            | None => [Send MsgSaveError]
            end
        | _ => [Send MsgUploadError]
        end
  end.

End GoogleNotesBot.

(** * telegram_bot_open_ai.py: AI vision call returning the whole note *)

(** [s[i:j]] for Python ints [i] and [j]. *)
Definition clamp_index (k : Z) (s : pystr) : nat :=
  if (k <? 0)%Z then Z.to_nat (Z.max (len s + k) 0)
  else Z.to_nat (Z.min k (len s)).

Definition slice (i j : Z) (s : pystr) : pystr :=
  skipn (clamp_index i s) (firstn (clamp_index j s) s).

(** The values [json.loads] returns; numbers are kept as integers. *)
#[warnings="-register-all"]
Inductive json :=
| JNull
| JBool (b : bool)
| JNum (n : Z)
| JStr (s : pystr)
| JArr (items : list json)
| JObj (fields : list (pystr * json)).

(** Truth value of a parsed value. *)
Definition json_truthy (v : json) : bool :=
  match v with
  | JNull => false
  | JBool b => b
  | JNum n => negb (n =? 0)%Z
  | JStr s => truthy s
  | JArr items => match items with [] => false | _ => true end
  | JObj fields => match fields with [] => false | _ => true end
  end.

Fixpoint assoc (key : pystr) (fields : list (pystr * json)) : option json :=
  match fields with
  | [] => None
  | (k, v) :: rest => if pystr_eqb k key then Some v else assoc key rest
  end.

(** [v[key]] for a string key: [None] when it raises ([KeyError] on a dict
    without the key, [TypeError] on every other value). *)
Definition subscript (v : json) (key : pystr) : option json :=
  match v with
  | JObj fields => assoc key fields
  | _ => None
  end.

(** The strings a [for tag in v] loop whose body calls [tag.strip()] runs
    over: the items of a list when all are strings, the characters of a
    string, the keys of a dict; [None] when the loop raises. *)
Definition iter_strings (v : json) : option (list pystr) :=
  match v with
  | JArr items =>
      fold_right
        (fun item acc =>
           match item, acc with
           | JStr s, Some l => Some (s :: l)
           | _, _ => None
           end)
        (Some []) items
  | JStr s => Some (map (fun c => [c]) s)
  | JObj fields => Some (map fst fields)
  | _ => None
  end.

Module OpenAINotesBot.

Definition fence_json : pystr := Eval vm_compute in py "```json".
Definition fence : pystr := Eval vm_compute in py "```".
Definition key_title : pystr := Eval vm_compute in py "title".
Definition key_tags : pystr := Eval vm_compute in py "tags".
Definition key_content : pystr := Eval vm_compute in py "content".

(** What [chat.completions.create] does: raise, or return a first choice
    whose message content is a string or [None]. *)
Inductive completion_outcome :=
| CompletionRaises (why : backend_error)
| CompletionReturns (message_content : option pystr).

(** [json_loads] is the parser, [None] when it raises.  Every exception,
    also the one of [None.strip()], makes the function return [None]. *)
Definition analyze_image_with_openai (completion : completion_outcome)
    (json_loads : pystr -> option json) : option json :=
  match completion with
  | CompletionRaises _ => None
  | CompletionReturns None => None
  | CompletionReturns (Some raw) =>
      let content := strip raw in
      let content :=
        if startswith fence_json content then strip (slice 7 (-3) content)
        else if startswith fence content then strip (slice 3 (-3) content)
        else content in
      json_loads content
  end.

(** The row inserted into the table notes; the tags go to note_tags. *)
Record note_row := {
  user_id : Z;
  username : pystr;
  title : json;
  content : json;
  image_url : pystr;
  created_at : datetime
}.

(** The keys of the translation table the handler shows. *)
Inductive message :=
| processing
| uploading
| upload_failed
| analyzing
| analysis_failed
| saving
| save_failed
| success (title tags content : json) (image_url : pystr)
| error_processing.

Definition trace := list (effect message note_row).

(** [save_note_to_db]: the effects performed and the value returned.
    [insert_result] is the id of the stored row, [None] when the insert
    raises or returns no data; [tags_insert_ok] tells that the insert into
    note_tags does not raise. *)
Definition save_note_to_db (uid : Z) (uname : pystr) (note_data : json)
    (url : pystr) (now : datetime) (insert_result : option Z)
    (tags_insert_ok : bool) : trace * bool :=
  match subscript note_data key_title, subscript note_data key_content with
  | Some t, Some c =>
      let note_db_data :=
        {| user_id := uid; username := uname; title := t; content := c;
           image_url := url; created_at := now |} in
      match insert_result with
      | None => ([NotesInsert note_db_data], false)
      | Some note_id =>
          match subscript note_data key_tags with
          | Some tags_value =>
              if json_truthy tags_value then
                match iter_strings tags_value with
                | None => ([NotesInsert note_db_data], false)
                | Some tags =>
                    let tag_data :=
                      map strip (filter (fun tag => truthy (strip tag)) tags)
                    in
                    match tag_data with
                    | [] => ([NotesInsert note_db_data], true)
                    | _ :: _ =>
                        ([NotesInsert note_db_data;
                          NoteTagsInsert note_id tag_data], tags_insert_ok)
                    end
                end
              else ([NotesInsert note_db_data], true)
          | None => ([NotesInsert note_db_data], true)
          end
      end
  | _, _ => ([], false)
  end.

(** The outcomes of the external calls of one run of [handle_image]. *)
Record env := {
  effective_user_id : Z;
  effective_username : option pystr;
  download : option bytes;
  now_filename : datetime;
  upload_result : option pystr;
  completion : completion_outcome;
  json_loads : pystr -> option json;
  now_created : datetime;
  insert_result : option Z;
  tags_insert_ok : bool
}.

(** [f"{user_id}{timestamp}.jpg"] with
    [timestamp = now.strftime("%Y%m%d%H%M%S")]. *)
Definition filename (uid : Z) (now : datetime) : pystr :=
  str_int uid ++ strftime_compact now ++ py ".jpg".

(** The final text: building it raises when the content cannot be sliced or
    the tags cannot be joined, and the handler then shows the error text. *)
Definition report (analysis_result : json) (url : pystr) : message :=
  match subscript analysis_result key_content,
        subscript analysis_result key_title,
        subscript analysis_result key_tags with
  | Some c, Some t, Some tg =>
      let sliceable :=
        match c with JStr _ | JArr _ => true | _ => false end in
      let joinable :=
        match iter_strings tg with Some _ => true | None => false end in
      if sliceable && joinable then success t tg c url else error_processing
  | _, _, _ => error_processing
  end.

Definition handle_image (e : env) : trace :=
  let uid := effective_user_id e in
  let uname :=
    match effective_username e with
    | Some (c :: u) => c :: u
    | _ => py "user_" ++ str_int uid
    end in
  Send processing ::
  match download e with
  | None => [Send error_processing]
  | Some image_data =>
      Send uploading ::
      let filename := filename uid (now_filename e) in
      StorageUpload filename image_data ::
      match upload_result e with
      | Some (c :: u) =>
          let image_url := c :: u in
          Send analyzing ::
          BackendCall None image_data ::
          match analyze_image_with_openai (completion e) (json_loads e) with
          | Some analysis_result =>
              if json_truthy analysis_result then
                Send saving ::
                let (effects, saved) :=
                  save_note_to_db uid uname analysis_result image_url
                    (now_created e) (insert_result e) (tags_insert_ok e) in
                effects ++
                (if saved then [Send (report analysis_result image_url)]
                 else [Send save_failed])
              else [Send analysis_failed]
          | None => [Send analysis_failed]
          end
      | _ => [Send upload_failed]
      end
  end.

End OpenAINotesBot.

(** * telegram_bot.py: the handler of documents *)

Module TelegramOCRBotDocument.

Import YandexVisionOCR NoteProcessor.

(** The texts of [handle_document]. *)
Inductive message :=
| MsgProcessingPdf
| MsgExtractingPdf
| MsgCouldNotExtractPdf
| MsgPdfNoteCreated (title : pystr) (tags : list pystr)
    (extracted_text : pystr)
| MsgPdfError
| MsgOnlyPdf.

(** The outcomes of the external calls of one run of [handle_document];
    [mime_type] is [message.document.mime_type]. *)
Record env := {
  from_user_id : Z;
  mime_type : option pystr;
  download : option bytes;
  ocr_post : post_outcome;
  now_filename : datetime;
  upload_result : option pystr;
  now_created : datetime;
  insert_result : option Z
}.

Definition application_pdf : pystr := Eval vm_compute in py "application/pdf".

(** [f"pdf_{user_id}_{timestamp}.pdf"] with
    [timestamp = now.strftime("%Y%m%d_%H%M%S")]. *)
Definition filename (uid : Z) (now : datetime) : pystr :=
  py "pdf_" ++ str_int uid ++ py "_" ++ strftime_underscore now ++ py ".pdf".

Definition trace := list (effect message TelegramOCRBot.note_row).

Definition is_pdf (m : option pystr) : bool :=
  match m with
  | Some t => pystr_eqb t application_pdf
  | None => false
  end.

Definition handle_document {U : Unicode} (e : env) : trace :=
  if is_pdf (mime_type e) then
    Send MsgProcessingPdf ::
    match download e with
    | None => [Send MsgPdfError]
    | Some downloaded_file =>
        Send MsgExtractingPdf ::
        BackendCall (Some TelegramOCRBot.mime_pdf) downloaded_file ::
        let extracted_text := extract_text_from_image (ocr_post e) in
        if negb (truthy extracted_text)
           || startswith error_marker extracted_text
        then [Send MsgCouldNotExtractPdf]
        else
          let title := generate_title extracted_text default_max_length in
          let tags := extract_tags extracted_text in
          let filename := filename (from_user_id e) (now_filename e) in
          StorageUpload filename downloaded_file ::
          NotesInsert
            {| TelegramOCRBot.user_id := from_user_id e;
               TelegramOCRBot.title := title;
               TelegramOCRBot.tags := tags;
               TelegramOCRBot.content := extracted_text;
               TelegramOCRBot.image_url := upload_result e;
               TelegramOCRBot.created_at := now_created e |} ::
          match insert_result e with
          | Some _ => [Send (MsgPdfNoteCreated title tags extracted_text)]
          | None => []
          end
    end
  else [Send MsgOnlyPdf].

End TelegramOCRBotDocument.

(** * telegram_bot_open_ai.py: the language preference *)

Module UserSettings.

(** The rows of the table user_settings: user id and language. *)
Definition table := list (Z * pystr).

Definition ru : pystr := Eval vm_compute in py "ru".

(** [select(...).eq("user_id", user_id)] *)
Definition select_eq (t : table) (user_id : Z) : table :=
  filter (fun r => (fst r =? user_id)%Z) t.

(** [update({"language": language}).eq("user_id", user_id)] *)
Definition update_eq (t : table) (user_id : Z) (language : pystr) : table :=
  map (fun r => if (fst r =? user_id)%Z then (fst r, language) else r) t.

(** [insert({"user_id": user_id, "language": language})] *)
Definition insert (t : table) (user_id : Z) (language : pystr) : table :=
  t ++ [(user_id, language)].

(** [get_user_language]; [select_raises] tells that the request raises. *)
Definition get_user_language (select_raises : bool) (t : table)
    (user_id : Z) : pystr :=
  if select_raises then ru
  else
    match select_eq t user_id with
    | r :: _ => snd r
    | [] => ru
    end.

(** [set_user_language]: the table afterwards and the value returned;
    a request that raises leaves the table as it is. *)
Definition set_user_language (select_raises write_raises : bool) (t : table)
    (user_id : Z) (language : pystr) : table * bool :=
  if select_raises then (t, false)
  else
    match select_eq t user_id with
    | _ :: _ =>
        if write_raises then (t, false)
        else (update_eq t user_id language, true)
    | [] =>
        if write_raises then (t, false)
        else (insert t user_id language, true)
    end.

End UserSettings.

(** * yandex_iam_helper.py: the token in the .env file *)

Module YandexIamHelper.

(** Reading a file in text mode: the sequences CR LF and the lone CR become
    one newline.  Writing is modelled for a platform whose line separator is
    the newline, where the text is stored as it is. *)
Fixpoint universal_newlines (s : pystr) : pystr :=
  match s with
  | [] => []
  | c :: s' =>
      if char_eqb c 13%N then
        10%N ::
        match s' with
        | d :: s'' =>
            if char_eqb d 10%N then universal_newlines s''
            else universal_newlines s'
        | [] => []
        end
      else c :: universal_newlines s'
  end.

(** The lines a loop over a text file sees, each with its newline. *)
Fixpoint file_lines (s : pystr) : list pystr :=
  match s with
  | [] => []
  | c :: s' =>
      if char_eqb c 10%N then [c] :: file_lines s'
      else
        match file_lines s' with
        | l :: ls => (c :: l) :: ls
        | [] => [[c]]
        end
  end.

Definition equals_sign : char := 61%N.
Definition number_sign : pystr := [35%N].

(** [line.split('=', 1)] for a line that holds an equals sign; [None] when
    it holds none. *)
Fixpoint split_first_equals (line : pystr) : option (pystr * pystr) :=
  match line with
  | [] => None
  | c :: rest =>
      if char_eqb c equals_sign then Some ([], rest)
      else
        match split_first_equals rest with
        | Some (key, value) => Some (c :: key, value)
        | None => None
        end
  end.

(** A dict with string keys, in insertion order. *)
Definition dict := list (pystr * pystr).

(** [d[key] = value]: a key that is present keeps its place. *)
Fixpoint dict_set (key value : pystr) (d : dict) : dict :=
  match d with
  | [] => [(key, value)]
  | (k, v) :: rest =>
      if pystr_eqb k key then (k, value) :: rest
      else (k, v) :: dict_set key value rest
  end.

Fixpoint dict_get (key : pystr) (d : dict) : option pystr :=
  match d with
  | [] => None
  | (k, v) :: rest => if pystr_eqb k key then Some v else dict_get key rest
  end.

(** One turn of the loop that reads the file. *)
Definition read_line (env_vars : dict) (raw : pystr) : dict :=
  let line := strip raw in
  if truthy line && negb (startswith number_sign line) then
    match split_first_equals line with
    | Some (key, value) => dict_set key value env_vars
    | None => env_vars
    end
  else env_vars.

Definition read_env (content : pystr) : dict :=
  fold_left read_line (file_lines (universal_newlines content)) [].

(** The loop that writes [f"{key}={value}\n"] for every item. *)
Definition write_env (env_vars : dict) : pystr :=
  flat_map (fun item : pystr * pystr =>
              fst item ++ [equals_sign] ++ snd item ++ [10%N])
           env_vars.

Definition token_key : pystr := Eval vm_compute in py "YANDEX_IAM_TOKEN".

(** [save_token_to_env]: the new content of the file, given the content it
    had ([None] when the file does not exist). *)
Definition updated_vars (existing : option pystr) (iam_token : pystr)
  : dict :=
  dict_set token_key iam_token
    (match existing with Some content => read_env content | None => [] end).

Definition save_token_to_env (existing : option pystr) (iam_token : pystr)
  : pystr :=
  write_env (updated_vars existing iam_token).

End YandexIamHelper.

(** * telegram_bot_open_ai.py: the schema of setup_database *)

Module SetupDatabase.

(** [CREATE UNIQUE INDEX idx_note_tags_unique ON note_tags(note_id, tag)]:
    the rows of one note hold no tag twice, so the tag rows inserted for a
    new note are accepted only when its tags are pairwise different. *)
Definition idx_note_tags_unique (tags : list pystr) : Prop := NoDup tags.

End SetupDatabase.

(** * Notions of the specification *)

Module Spec.

Import YandexVisionOCR.

Definition annotation_of (v : ocr_json) : option text_annotation :=
  match result v with
  | Some r => textAnnotation r
  | None => None
  end.

(** A response whose result holds the annotation [a]. *)
Definition response_with (a : text_annotation) : ocr_json :=
  {| result := Some {| textAnnotation := Some a |} |}.

(** The consolidated full-text field, empty when absent. *)
Definition consolidated (a : text_annotation) : pystr :=
  match fullText a with Some t => t | None => [] end.

(** The texts of all lines, block by block, top to bottom. *)
Definition hierarchy_lines (a : text_annotation) : list pystr :=
  List.concat
    (map (fun b : block =>
            map (fun l : line => match text l with Some t => t | None => [] end)
                (match lines b with Some ls => ls | None => [] end))
         (match blocks a with Some bs => bs | None => [] end)).

(** The text the provider returned, before the extractor trims it: the
    consolidated field, or the non-empty lines joined by newlines. *)
Definition provider_text (a : text_annotation) : pystr :=
  if truthy (consolidated a) then consolidated a
  else join newline (filter truthy (hierarchy_lines a)).

(** The request failed: it raised, the status is 401 or another 4xx or 5xx
    code, or the body could not be read. *)
Definition extraction_failed (post : post_outcome) : bool :=
  match post with
  | PostRaises _ => true
  | PostReturns status_code body =>
      (status_code =? 401)%Z
      || ((400 <=? status_code) && (status_code <? 600))%Z
      || match body with JsonRaises _ => true | JsonValue _ => false end
  end.

(** The analysis of the AI variant gave nothing to save. *)
Definition analysis_failed (e : OpenAINotesBot.env) : Prop :=
  match OpenAINotesBot.analyze_image_with_openai
          (OpenAINotesBot.completion e) (OpenAINotesBot.json_loads e) with
  | None => True
  | Some v => json_truthy v = false
  end.

(** A status on which [requests] does not raise and that is not 401. *)
Definition status_ok (status_code : Z) : Prop :=
  (status_code < 400 \/ 600 <= status_code)%Z.

(** Tags without empty strings and without two entries equal up to case. *)
Definition tags_wellformed {U : Unicode} (tags : list pystr) : Prop :=
  NoDup (map lower tags) /\ ~ In [] tags.

(** No asset is stored and no row is saved. *)
Definition persists_nothing {msg row} (t : list (effect msg row)) : Prop :=
  forallb (fun e => negb (is_put e || is_save e)) t = true.

(** Two clock readings in the same second. *)
Definition same_second (a b : datetime) : Prop :=
  year a = year b /\ month a = month b /\ day a = day b /\
  hour a = hour b /\ minute a = minute b /\ second a = second b.

End Spec.

(** * Sample inputs *)

Module Samples.

(** A text made of one full stop. *)
Definition full_stop : pystr := Eval vm_compute in py ".".

(** Eighty characters without a sentence end, starting with the marker. *)
Definition error_text_80 : pystr :=
  Eval vm_compute in py "Error:" ++ repeat 97%N 74.

(** Eighty letters followed by a second sentence. *)
Definition long_sentence : pystr :=
  Eval vm_compute in repeat 98%N 80 ++ py ". Next".

Definition invoice : pystr :=
  Eval vm_compute in py "Invoice #4521
Total: $120.00
Due 2025-01-15".

(** A consolidated field that ends with a newline, over one block. *)
Definition hi_newline : pystr := Eval vm_compute in py "Hi
".

Definition hi_annotation : YandexVisionOCR.text_annotation :=
  {| YandexVisionOCR.fullText := Some hi_newline;
     YandexVisionOCR.blocks :=
       Some [ {| YandexVisionOCR.lines :=
                   Some [ {| YandexVisionOCR.text := Some (py "Hi") |} ] |} ] |}.

Definition clock : datetime :=
  {| year := 2025; month := 1; day := 15;
     hour := 10; minute := 30; second := 7; microsecond := 0 |}.

(** The same second, a little later. *)
Definition clock_later : datetime :=
  {| year := 2025; month := 1; day := 15;
     hour := 10; minute := 30; second := 7; microsecond := 250000 |}.

(** One second after [clock]. *)
Definition clock_next : datetime :=
  {| year := 2025; month := 1; day := 15;
     hour := 10; minute := 30; second := 8; microsecond := 0 |}.

Definition jpeg : bytes := [Byte.xff; Byte.xd8; Byte.xff; Byte.xe0].

Definition url : pystr :=
  Eval vm_compute in py "https://example.supabase.co/screenshots/a.jpg".

(** A run of the rules-based bot for user 42 in which every collaborator
    succeeds, around a given OCR outcome. *)
Definition rules_run (post : YandexVisionOCR.post_outcome)
  : TelegramOCRBot.env :=
  {| TelegramOCRBot.from_user_id := 42;
     TelegramOCRBot.download := Some (py "photos/file_1.jpg", jpeg);
     TelegramOCRBot.ocr_post := post;
     TelegramOCRBot.now_filename := clock;
     TelegramOCRBot.upload_result := Some url;
     TelegramOCRBot.now_created := clock;
     TelegramOCRBot.insert_result := Some 1%Z |}.

Definition invoice_response : YandexVisionOCR.post_outcome :=
  YandexVisionOCR.PostReturns 200
    (YandexVisionOCR.JsonValue
       (Spec.response_with
          {| YandexVisionOCR.fullText := Some invoice;
             YandexVisionOCR.blocks := None |})).

(** The run of user 42 on the invoice, with a given clock reading. *)
Definition rules_run_at (now : datetime) : TelegramOCRBot.env :=
  {| TelegramOCRBot.from_user_id := 42;
     TelegramOCRBot.download := Some (py "photos/file_1.jpg", jpeg);
     TelegramOCRBot.ocr_post := invoice_response;
     TelegramOCRBot.now_filename := now;
     TelegramOCRBot.upload_result := Some url;
     TelegramOCRBot.now_created := now;
     TelegramOCRBot.insert_result := Some 1%Z |}.

Definition google_run (v : GoogleNotesBot.vision_outcome)
  : GoogleNotesBot.env :=
  {| GoogleNotesBot.effective_user_id := 42;
     GoogleNotesBot.download := Some jpeg;
     GoogleNotesBot.vision := v;
     GoogleNotesBot.uuid4 := 0x123e4567e89b42d3a456426614174000;
     GoogleNotesBot.now_timestamp := 1736937007;
     GoogleNotesBot.upload_result := Some url;
     GoogleNotesBot.now_created := clock;
     GoogleNotesBot.insert_result := Some 1%Z |}.

Definition openai_run (c : OpenAINotesBot.completion_outcome)
    (parsed : option json) : OpenAINotesBot.env :=
  {| OpenAINotesBot.effective_user_id := 42;
     OpenAINotesBot.effective_username := None;
     OpenAINotesBot.download := Some jpeg;
     OpenAINotesBot.now_filename := clock;
     OpenAINotesBot.upload_result := Some url;
     OpenAINotesBot.completion := c;
     OpenAINotesBot.json_loads := fun _ => parsed;
     OpenAINotesBot.now_created := clock;
     OpenAINotesBot.insert_result := Some 1%Z;
     OpenAINotesBot.tags_insert_ok := true |}.

(** A structured note whose tags repeat. *)
Definition note_repeated_tags : json :=
  Eval vm_compute in
  JObj [ (py "title", JStr (py "Plan"));
         (py "tags", JArr [JStr (py "todo"); JStr (py "Todo");
                           JStr (py "todo")]);
         (py "content", JStr (py "Buy milk")) ].

(** A structured note with an empty content. *)
Definition note_empty_content : json :=
  Eval vm_compute in
  JObj [ (py "title", JStr (py "Blank"));
         (py "tags", JArr []);
         (py "content", JStr []) ].



End Samples.

(** * Further notions *)

Module Notions.

(** The string is empty or starts with a character that is not white
    space. *)
Definition starts_clean (s : pystr) : bool :=
  match s with
  | [] => true
  | c :: _ => negb (isspace c)
  end.

(** No white space at either end. *)
Definition is_trimmed (s : pystr) : bool :=
  starts_clean s && starts_clean (rev s).

(** Every white-space character of the string is a plain space: the string
    has no newline, tab or other separator. *)
Definition single_line (s : pystr) : bool :=
  forallb (fun c => negb (isspace c) || (c =? 32)%N) s.

(** [p] occurs in [s]. *)
Definition occurs_in (p s : pystr) : Prop :=
  exists before after, s = before ++ p ++ after.

(** The calls a run makes to its collaborators, without the texts. *)
Inductive stage := Extract | Put | Save | SaveTags.

Definition stages {msg row} (t : list (effect msg row)) : list stage :=
  flat_map (fun e => match e with
                     | Send _ => []
                     | BackendCall _ _ => [Extract]
                     | StorageUpload _ _ => [Put]
                     | NotesInsert _ => [Save]
                     | NoteTagsInsert _ _ => [SaveTags]
                     end) t.

(** The bytes a run sends to the backend, and the bytes it stores. *)
Definition backend_bytes {msg row} (t : list (effect msg row))
  : list bytes :=
  flat_map (fun e => match e with BackendCall _ d => [d] | _ => [] end) t.

Definition stored_bytes {msg row} (t : list (effect msg row))
  : list bytes :=
  flat_map (fun e => match e with StorageUpload _ d => [d] | _ => [] end) t.

(** The user name the AI handler stores: the sender's, or "user_" followed
    by the id when the sender has none. *)
Definition display_name (e : OpenAINotesBot.env) : pystr :=
  match OpenAINotesBot.effective_username e with
  | Some (c :: u) => c :: u
  | _ => py "user_" ++ str_int (OpenAINotesBot.effective_user_id e)
  end.

(** No newline in the string. *)
Definition no_newline (s : pystr) : bool :=
  forallb (fun c => negb (char_eqb c 10%N)) s.

(** Neither a newline nor a carriage return in the string. *)
Definition no_line_break (s : pystr) : bool :=
  forallb (fun c => negb (char_eqb c 10%N) && negb (char_eqb c 13%N)) s.

(** An item of the .env dict that is written and read back as it is: no
    equals sign in the key, no line break in key and value, and a line
    [key=value] that is trimmed and is not a comment. *)
Definition item_line (item : pystr * pystr) : pystr :=
  fst item ++ [YandexIamHelper.equals_sign] ++ snd item.

Definition wellformed_item (item : pystr * pystr) : Prop :=
  forallb (fun c => negb (char_eqb c YandexIamHelper.equals_sign)) (fst item)
  = true /\
  no_line_break (item_line item) = true /\
  is_trimmed (item_line item) = true /\
  startswith YandexIamHelper.number_sign (item_line item) = false.

(** A token without line break and without white space at its end. *)
Definition token_ok (iam_token : pystr) : bool :=
  no_line_break iam_token && starts_clean (rev iam_token).

End Notions.

Module MoreSamples.

Import Samples.

(** The run on the invoice in which the upload fails. *)
Definition rules_run_upload_fails : TelegramOCRBot.env :=
  {| TelegramOCRBot.from_user_id := 42;
     TelegramOCRBot.download := Some (py "photos/file_1.jpg", jpeg);
     TelegramOCRBot.ocr_post := invoice_response;
     TelegramOCRBot.now_filename := clock;
     TelegramOCRBot.upload_result := None;
     TelegramOCRBot.now_created := clock;
     TelegramOCRBot.insert_result := Some 1%Z |}.

(** A PDF of user 42 whose text is the invoice; the insert fails. *)
Definition pdf_run_insert_fails : TelegramOCRBotDocument.env :=
  {| TelegramOCRBotDocument.from_user_id := 42;
     TelegramOCRBotDocument.mime_type :=
       Some TelegramOCRBotDocument.application_pdf;
     TelegramOCRBotDocument.download := Some jpeg;
     TelegramOCRBotDocument.ocr_post := invoice_response;
     TelegramOCRBotDocument.now_filename := clock;
     TelegramOCRBotDocument.upload_result := Some url;
     TelegramOCRBotDocument.now_created := clock;
     TelegramOCRBotDocument.insert_result := None |}.

(** A structured note with three tags, two of them padded or blank. *)
Definition note_padded_tags : json :=
  Eval vm_compute in
  JObj [ (py "title", JStr (py "Plan"));
         (py "tags", JArr [JStr (py " todo "); JStr (py "   ");
                           JStr (py "shopping")]);
         (py "content", JStr (py "Buy milk")) ].

(** A structured note whose tags are not strings. *)
Definition note_numeric_tags : json :=
  Eval vm_compute in
  JObj [ (py "title", JStr (py "Plan"));
         (py "tags", JArr [JNum 1; JNum 2]);
         (py "content", JStr (py "Buy milk")) ].

(** A small .env file with a comment, a repeated key and an old token. *)
Definition dotenv : pystr :=
  Eval vm_compute in py "# settings
TELEGRAM_BOT_TOKEN=abc
YANDEX_IAM_TOKEN=old
TELEGRAM_BOT_TOKEN=def

YANDEX_FOLDER_ID = b1g
".

Definition new_token : pystr := Eval vm_compute in py "t1.9euelZ".

Definition settings : UserSettings.table :=
  [(7%Z, py "en"); (8%Z, py "kz")].

(** JSON text, written with ' for the double quote. *)
Definition json_text (s : string) : pystr :=
  map (fun c => if (c =? 39)%N then 34%N else c) (py s).

(** The run of user 42 in which the AI backend answers [answer], which
    [json.loads] reads as [note]; every other collaborator succeeds. *)
Definition openai_run_on (answer : pystr) (note : json)
  : OpenAINotesBot.env :=
  {| OpenAINotesBot.effective_user_id := 42;
     OpenAINotesBot.effective_username := None;
     OpenAINotesBot.download := Some jpeg;
     OpenAINotesBot.now_filename := clock;
     OpenAINotesBot.upload_result := Some url;
     OpenAINotesBot.completion :=
       OpenAINotesBot.CompletionReturns (Some answer);
     OpenAINotesBot.json_loads :=
       fun s => if pystr_eqb s answer then Some note else None;
     OpenAINotesBot.now_created := clock;
     OpenAINotesBot.insert_result := Some 1%Z;
     OpenAINotesBot.tags_insert_ok := true |}.

(** The answer of the AI backend for a picture without text. *)
Definition empty_content_answer : pystr :=
  Eval vm_compute in
  json_text "{'title': 'Blank', 'tags': [], 'content': ''}".

(** The answer for a picture of a list, with two tags equal up to case, and
    the note [json.loads] reads from it. *)
Definition case_tags_answer : pystr :=
  Eval vm_compute in
  json_text "{'title': 'Plan', 'tags': ['todo', 'Todo'], 'content': 'Buy milk'}".

Definition note_case_tags : json :=
  Eval vm_compute in
  JObj [ (py "title", JStr (py "Plan"));
         (py "tags", JArr [JStr (py "todo"); JStr (py "Todo")]);
         (py "content", JStr (py "Buy milk")) ].

End MoreSamples.

(** * Properties *)

Unset Implicit Arguments.

(** ** Strings *)

Lemma truthy_false_iff (s : pystr) : truthy s = false <-> s = [].
Proof. destruct s; simpl; split; congruence. Qed.

Lemma truthy_true_iff (s : pystr) : truthy s = true <-> s <> [].
Proof. destruct s; simpl; split; congruence. Qed.

Lemma len_nonneg (s : pystr) : (0 <= len s)%Z.
Proof. unfold len; lia. Qed.

Lemma len_app (a b : pystr) : len (a ++ b) = (len a + len b)%Z.
Proof. unfold len; rewrite length_app; lia. Qed.

Lemma len_nil_iff (s : pystr) : len s = 0%Z <-> s = [].
Proof.
  unfold len; destruct s; simpl; split; intro H; try reflexivity; try lia.
  discriminate.
Qed.

Lemma lstrip_whitespace_only (s : pystr) :
  forallb isspace s = true -> lstrip s = [].
Proof.
  induction s as [|c s IH]; simpl; intro H; [reflexivity|].
  apply andb_true_iff in H as [Hc Hs]. rewrite Hc. auto.
Qed.


Lemma strip_nil : strip [] = [].
Proof. reflexivity. Qed.

Lemma startswith_app (p s : pystr) : startswith p (p ++ s) = true.
Proof.
  induction p as [|a p IH]; simpl; [reflexivity|].
  unfold char_eqb. rewrite N.eqb_refl. exact IH.
Qed.

Lemma startswith_prefix (p s : pystr) :
  startswith p s = true -> exists r, s = p ++ r.
Proof.
  revert s; induction p as [|a p IH]; intros s H.
  - exists s; reflexivity.
  - destruct s as [|b s]; simpl in H; [discriminate|].
    apply andb_true_iff in H as [Hab Hp].
    apply N.eqb_eq in Hab; subst b.
    destruct (IH _ Hp) as [r ->]. exists r; reflexivity.
Qed.

Lemma endswith_app (p s : pystr) : endswith p (s ++ p) = true.
Proof. unfold endswith. rewrite rev_app_distr. apply startswith_app. Qed.

(** [s[:k]] has [k] characters when [s] has at least that many. *)
Lemma len_slice_to (k : Z) (s : pystr) :
  (0 <= k <= len s)%Z -> len (slice_to k s) = k.
Proof.
  intros [H0 Hk]. unfold slice_to.
  destruct (0 <=? k)%Z eqn:E; [|apply Z.leb_gt in E; lia].
  unfold len in *. rewrite length_firstn. lia.
Qed.

(** ** Titles *)

Section Titles.

Import NoteProcessor.

(** The branch of [generate_title] taken by a text that is neither empty
    nor an error marker. *)
Lemma generate_title_ordinary (content : pystr) (max_length : Z) :
  content <> [] ->
  startswith error_marker content = false ->
  generate_title content max_length =
    let title := first_sentence content max_length in
    let title :=
      if (len title >? max_length)%Z
      then slice_to (max_length - 3) title ++ ellipsis else title in
    if truthy title then title else screenshot_note.
Proof.
  intros Hne Herr. unfold generate_title.
  apply truthy_true_iff in Hne. rewrite Hne, Herr. reflexivity.
Qed.

Lemma generate_title_default (content : pystr) (max_length : Z) :
  content = [] \/ startswith error_marker content = true ->
  generate_title content max_length = untitled_screenshot.
Proof.
  intros [-> | H]; unfold generate_title; [reflexivity|].
  rewrite H, orb_true_r. reflexivity.
Qed.

(** A truncated title has exactly [max_length] characters and ends with the
    marker. *)
Lemma truncated_title (title : pystr) (max_length : Z) :
  (3 <= max_length < len title)%Z ->
  let t := slice_to (max_length - 3) title ++ ellipsis in
  len t = max_length /\ endswith ellipsis t = true /\ truthy t = true.
Proof.
  intros H t. subst t. repeat split.
  - rewrite len_app, len_slice_to by lia. change (len ellipsis) with 3%Z. lia.
  - apply endswith_app.
  - apply truthy_true_iff. intro E. apply app_eq_nil in E as [_ E].
    discriminate.
Qed.

Lemma ordinary_title_bounds (content : pystr) (max_length : Z) :
  content <> [] ->
  startswith error_marker content = false ->
  (15 <= max_length)%Z ->
  generate_title content max_length <> [] /\
  (len (generate_title content max_length) <= max_length)%Z.
Proof.
  intros Hne Herr Hmax.
  rewrite generate_title_ordinary by assumption. cbv zeta.
  set (title := first_sentence content max_length).
  destruct (len title >? max_length)%Z eqn:E.
  - apply Z.gtb_lt in E.
    destruct (truncated_title title max_length) as (Hl & _ & Ht);
      [lia|]. cbv zeta in *.
    rewrite Ht. split; [apply truthy_true_iff, Ht | lia].
  - assert (len title <= max_length)%Z.
    { destruct (Z.gtb_spec (len title) max_length); [discriminate | lia]. }
    destruct (truthy title) eqn:Ht.
    + split; [apply truthy_true_iff, Ht | assumption].
    + split; [discriminate|]. change (len screenshot_note) with 15%Z. lia.
Qed.

End Titles.

Section TitleClaims.

Import NoteProcessor Samples.

(** C4, as stated, fails: with a configured maximum of 10 the text ["."],
    which is neither empty nor an error marker, gets the 15-character
    fallback title "Screenshot Note". *)
Lemma C4_counterexample_small_maximum :
  ~ (forall content max_length,
        content <> [] ->
        startswith error_marker content = false ->
        generate_title content max_length <> [] /\
        (len (generate_title content max_length) <= max_length)%Z).
Proof.
  intro H.
  destruct (H full_stop 10%Z) as [_ Hlen];
    [discriminate | reflexivity |].
  vm_compute in Hlen. apply Hlen. reflexivity.
Qed.

(** C4, amended: for every non-empty extracted text that is not an error
    marker, [generate_title] returns a non-empty string of at most
    [max_length] characters, for every configured maximum of at least 15
    (the length of the fallback title), in particular for the default 50. *)
Theorem C4_title_nonempty_and_bounded (content : pystr) (max_length : Z) :
  content <> [] ->
  startswith error_marker content = false ->
  (15 <= max_length)%Z ->
  generate_title content max_length <> [] /\
  (len (generate_title content max_length) <= max_length)%Z.
Proof.
  intros Hne Herr Hmax. now apply ordinary_title_bounds.
Qed.

Lemma C4_witness_invoice :
  invoice <> [] /\ startswith error_marker invoice = false /\
  (15 <= default_max_length)%Z /\
  generate_title invoice default_max_length <> [] /\
  (len (generate_title invoice default_max_length) <= default_max_length)%Z.
Proof.
  split; [discriminate|]. split; [reflexivity|].
  split; [unfold default_max_length; lia|].
  apply (C4_title_nonempty_and_bounded invoice default_max_length);
    [discriminate | reflexivity | unfold default_max_length; lia].
Defined.

(** C5, as stated, fails: a text of 80 characters without a sentence end
    that starts with "Error:" has a first sentence of 80 characters, and
    its title is the default "Untitled Screenshot". *)
Lemma C5_counterexample_error_marker :
  ~ (forall content,
        len (first_sentence content 50) = 80%Z ->
        len (generate_title content 50) = 50%Z /\
        endswith ellipsis (generate_title content 50) = true).
Proof.
  intro H. destruct (H error_text_80) as [Hlen _]; [reflexivity|].
  vm_compute in Hlen. discriminate.
Qed.

Lemma first_sentence_nonempty_content (content : pystr) (max_length : Z) :
  first_sentence content max_length <> [] -> content <> [].
Proof. intros H ->. apply H. reflexivity. Qed.

(** C5, amended: for every input text that does not start with "Error:" and
    whose first sentence is 80 characters long, [generate_title] returns a
    title of exactly the configured maximum length (50, and every maximum
    from 19 to 79) ending in "..."; and for every input the title never
    exceeds that maximum. *)
Theorem C5_truncation_to_maximum (max_length : Z) :
  (19 <= max_length)%Z ->
  (forall content,
      (len (generate_title content max_length) <= max_length)%Z) /\
  (forall content,
      startswith error_marker content = false ->
      len (first_sentence content max_length) = 80%Z ->
      (max_length < 80)%Z ->
      len (generate_title content max_length) = max_length /\
      endswith ellipsis (generate_title content max_length) = true).
Proof.
  intro Hmax. split.
  - intro content.
    destruct (truthy content) eqn:Ht.
    + destruct (startswith error_marker content) eqn:Herr.
      * rewrite generate_title_default by (right; exact Herr).
        change (len untitled_screenshot) with 19%Z. lia.
      * apply ordinary_title_bounds;
          [apply truthy_true_iff, Ht | exact Herr | lia].
    + rewrite generate_title_default by (left; apply truthy_false_iff, Ht).
      change (len untitled_screenshot) with 19%Z. lia.
  - intros content Herr H80 Hlt.
    assert (Hne : content <> []).
    { apply first_sentence_nonempty_content with (max_length := max_length).
      intro E. rewrite E in H80. discriminate. }
    rewrite generate_title_ordinary by assumption. cbv zeta.
    destruct (truncated_title (first_sentence content max_length)
                max_length) as (Hl & He & Ht); [lia|].
    cbv zeta in Hl, He, Ht.
    replace (len (first_sentence content max_length) >? max_length)%Z
      with true by (symmetry; apply Z.gtb_lt; lia).
    rewrite Ht. split; assumption.
Qed.

Lemma C5_witness_long_sentence :
  (19 <= default_max_length)%Z /\
  startswith error_marker long_sentence = false /\
  len (first_sentence long_sentence default_max_length) = 80%Z /\
  len (generate_title long_sentence default_max_length) = default_max_length /\
  endswith ellipsis (generate_title long_sentence default_max_length) = true.
Proof.
  split; [unfold default_max_length; lia|].
  split; [reflexivity|]. split; [reflexivity|].
  apply (proj2 (C5_truncation_to_maximum default_max_length
                  ltac:(unfold default_max_length; lia)) long_sentence);
    [reflexivity | reflexivity | unfold default_max_length; lia].
Defined.

End TitleClaims.

(** ** Extraction *)

Section ExtractionClaims.

Import YandexVisionOCR NoteProcessor Spec Samples.

Lemma raise_for_status_ok (status_code : Z) :
  status_ok status_code -> raise_for_status status_code = None.
Proof.
  unfold status_ok, raise_for_status. intro H.
  destruct (400 <=? status_code)%Z eqn:E1;
    destruct (status_code <? 600)%Z eqn:E2; simpl; try reflexivity.
  apply Z.leb_le in E1. apply Z.ltb_lt in E2. lia.
Qed.

Lemma extract_ok_response (status_code : Z) (v : ocr_json) :
  status_ok status_code ->
  extract_text_from_image (PostReturns status_code (JsonValue v))
  = read_result v.
Proof.
  intro H. unfold extract_text_from_image.
  rewrite raise_for_status_ok by assumption.
  replace (status_code =? 401)%Z with false; [reflexivity|].
  symmetry. apply Z.eqb_neq. unfold status_ok in H. lia.
Qed.

Lemma flat_map_filter_map {A B} (f : A -> B) (p : B -> bool) (l : list A) :
  flat_map (fun x => if p (f x) then [f x] else []) l = filter p (map f l).
Proof.
  induction l as [|x l IH]; simpl; [reflexivity|].
  destruct (p (f x)); simpl; rewrite IH; reflexivity.
Qed.

Lemma filter_concat {A} (p : A -> bool) (ls : list (list A)) :
  filter p (List.concat ls) = List.concat (map (filter p) ls).
Proof.
  induction ls as [|l ls IH]; simpl; [reflexivity|].
  rewrite filter_app, IH. reflexivity.
Qed.

(** The loop over blocks and lines collects the non-empty line texts in
    block order. *)
Lemma collected_lines (a : text_annotation) :
  flat_map block_line_texts
    (match blocks a with Some bs => bs | None => [] end)
  = filter truthy (hierarchy_lines a).
Proof.
  unfold hierarchy_lines. rewrite filter_concat, map_map, flat_map_concat_map.
  f_equal. apply map_ext. intro b. unfold block_line_texts.
  apply (flat_map_filter_map
           (fun l : line => match text l with Some t => t | None => [] end)).
Qed.

(** The extractor returns the provider's text, trimmed. *)
Lemma read_result_strips (a : text_annotation) :
  read_result (response_with a) = strip (provider_text a).
Proof.
  unfold read_result, response_with, provider_text, consolidated. simpl.
  destruct (truthy match fullText a with Some t => t | None => [] end);
    [reflexivity|].
  rewrite collected_lines.
  destruct (truthy (join newline (filter truthy (hierarchy_lines a)))) eqn:E;
    [reflexivity|].
  apply truthy_false_iff in E. rewrite E. reflexivity.
Qed.

Lemma read_result_no_annotation (v : ocr_json) :
  annotation_of v = None -> read_result v = [].
Proof.
  unfold annotation_of, read_result. destruct (result v) as [r|];
    [|reflexivity].
  intros ->. reflexivity.
Qed.

(** C8, as stated, fails: the consolidated field "Hi\n" is present and not
    empty, and the extractor returns "Hi". *)
Lemma C8_counterexample_trimmed_field :
  fullText hi_annotation = Some hi_newline /\ hi_newline <> [] /\
  extract_text_from_image
    (PostReturns 200 (JsonValue (response_with hi_annotation)))
  <> hi_newline.
Proof.
  split; [reflexivity|]. split; [discriminate|].
  vm_compute. discriminate.
Qed.

(** C8, amended: for every response with an annotation, when the
    consolidated full-text field is present and not empty the extractor
    returns that field with leading and trailing white space removed,
    whatever the block structure holds; only when the field is absent or
    empty does it return the non-empty line texts of the hierarchy, in block
    order and line order, joined by newlines and trimmed. *)
Theorem C8_consolidated_field_preferred
    (status_code : Z) (a : text_annotation) :
  status_ok status_code ->
  let extracted :=
    extract_text_from_image
      (PostReturns status_code (JsonValue (response_with a))) in
  (forall t, fullText a = Some t -> t <> [] -> extracted = strip t) /\
  (fullText a = None \/ fullText a = Some [] ->
   extracted = strip (join newline (filter truthy (hierarchy_lines a)))).
Proof.
  intros Hs extracted. subst extracted.
  rewrite extract_ok_response by assumption.
  rewrite read_result_strips. unfold provider_text, consolidated.
  split.
  - intros t Ht Hne. rewrite Ht.
    apply truthy_true_iff in Hne. rewrite Hne. reflexivity.
  - intros [-> | ->]; reflexivity.
Qed.

Lemma C8_witness_hi :
  status_ok 200 /\
  extract_text_from_image
    (PostReturns 200 (JsonValue (response_with hi_annotation)))
  = strip hi_newline.
Proof.
  assert (Hs : status_ok 200) by (unfold status_ok; lia).
  split; [exact Hs|].
  apply (proj1 (C8_consolidated_field_preferred 200 hi_annotation Hs)
           hi_newline); [reflexivity | discriminate].
Defined.

End ExtractionClaims.

(** ** Pipelines *)

Section PipelineClaims.

Import YandexVisionOCR NoteProcessor Spec Samples.

Context {U : Unicode}.

Lemma handle_exception_marked (e : exn) :
  startswith error_marker (handle_exception e) = true.
Proof.
  destruct e as [[status|]| | | |]; try reflexivity.
  unfold handle_exception; simpl.
  destruct (status =? 401)%Z; [reflexivity|].
  destruct (status =? 403)%Z; reflexivity.
Qed.

(** Every failure of the request is a string that starts with "Error:". *)
Lemma failures_in_band (post : post_outcome) :
  extraction_failed post = true ->
  startswith error_marker (extract_text_from_image post) = true.
Proof.
  destruct post as [e | status_code body]; simpl; intro H.
  - apply handle_exception_marked.
  - destruct (status_code =? 401)%Z; [reflexivity|]. simpl in H.
    unfold raise_for_status.
    destruct ((400 <=? status_code) && (status_code <? 600))%Z.
    + apply handle_exception_marked.
    + simpl in H. destruct body; [apply handle_exception_marked | discriminate].
Qed.

(** The rules-based handler on a text that is empty or an error marker. *)
Lemma rules_stops_on_failure (e : TelegramOCRBot.env) :
  let text := extract_text_from_image (TelegramOCRBot.ocr_post e) in
  text = [] \/ startswith error_marker text = true ->
  persists_nothing (TelegramOCRBot.handle_photo e) /\
  (TelegramOCRBot.download e <> None ->
   last_message (TelegramOCRBot.handle_photo e)
   = Some (if truthy text then TelegramOCRBot.MsgOcrError text
           else TelegramOCRBot.MsgCouldNotExtract)).
Proof.
  intros text H. unfold persists_nothing, TelegramOCRBot.handle_photo.
  fold text.
  destruct (TelegramOCRBot.download e) as [[file_path data]|].
  - destruct (truthy text) eqn:Ht; cbn [negb].
    + destruct H as [H | H]; [rewrite H in Ht; discriminate|].
      rewrite H. split; [reflexivity | intros _; reflexivity].
    + split; [reflexivity | intros _; reflexivity].
  - split; [reflexivity | intro C; contradiction].
Qed.

Lemma google_stops_on_empty (e : GoogleNotesBot.env) :
  GoogleNotesBot.extract_text_from_image (GoogleNotesBot.vision e) = [] ->
  persists_nothing (GoogleNotesBot.handle_photo e) /\
  (GoogleNotesBot.download e <> None ->
   last_message (GoogleNotesBot.handle_photo e)
   = Some GoogleNotesBot.MsgNoTextFound).
Proof.
  intro H. unfold persists_nothing, GoogleNotesBot.handle_photo.
  destruct (GoogleNotesBot.download e) as [data|].
  - rewrite H. split; [reflexivity | intros _; reflexivity].
  - split; [reflexivity | intro C; contradiction].
Qed.

(** The AI handler when the analysis gives nothing: the asset has been
    stored under the run's key, and no row is saved. *)
Lemma openai_stops_after_upload (e : OpenAINotesBot.env) :
  analysis_failed e ->
  forallb (fun x => negb (is_save x)) (OpenAINotesBot.handle_image e) = true /\
  (forall data, OpenAINotesBot.download e = Some data ->
     put_keys (OpenAINotesBot.handle_image e)
     = [OpenAINotesBot.filename (OpenAINotesBot.effective_user_id e)
          (OpenAINotesBot.now_filename e)]) /\
  (forall data image_url,
     OpenAINotesBot.download e = Some data ->
     OpenAINotesBot.upload_result e = Some image_url -> image_url <> [] ->
     last_message (OpenAINotesBot.handle_image e)
     = Some OpenAINotesBot.analysis_failed).
Proof.
  unfold analysis_failed, OpenAINotesBot.handle_image. intro H.
  destruct (OpenAINotesBot.download e) as [data|].
  - destruct (OpenAINotesBot.upload_result e) as [[|c u]|].
    + repeat split; try reflexivity.
      intros d url0 _ E C. exfalso. apply C. congruence.
    + destruct (OpenAINotesBot.analyze_image_with_openai
                  (OpenAINotesBot.completion e) (OpenAINotesBot.json_loads e))
        as [v|].
      * rewrite H. repeat split; reflexivity.
      * repeat split; reflexivity.
    + repeat split; try reflexivity.
      intros d url0 _ E. discriminate.
  - repeat split; try reflexivity; intros; discriminate.
Qed.

End PipelineClaims.
(** ** Lemmas shared by the properties below *)

Section SharedTagLemmas.

Import NoteProcessor.

Lemma matched_categories_iff (table : list (pystr * list pystr))
    (content_lower x : pystr) :
  In x (matched_categories table content_lower) <->
  exists patterns pattern,
    In (x, patterns) table /\ In pattern patterns /\
    contains pattern content_lower = true.
Proof.
  unfold matched_categories. rewrite in_flat_map. split.
  - intros ([tag patterns] & Hin & Hx).
    destruct (existsb _ patterns) eqn:E; [|contradiction].
    destruct Hx as [<- | []].
    apply existsb_exists in E as (pattern & Hp & Hc).
    exists patterns, pattern. auto.
  - intros (patterns & pattern & Hin & Hp & Hc).
    exists (x, patterns). split; [exact Hin|].
    replace (existsb _ patterns) with true; [left; reflexivity|].
    symmetry. apply existsb_exists. exists pattern. auto.
Qed.

End SharedTagLemmas.

Section SharedVisionLemmas.

Context {U : Unicode}.

(** The tags of the vision-API variant: "screenshot" and the categories one
    of whose keywords occurs in the lowered text. *)
Lemma generate_tags_from_text_iff (text x : pystr) :
  In x (GoogleNotesBot.generate_tags_from_text text) <->
  x = GoogleNotesBot.screenshot \/
  (text <> [] /\
   exists keywords keyword,
     In (x, keywords) GoogleNotesBot.tag_keywords /\
     In keyword keywords /\ contains keyword (lower text) = true).
Proof.
  unfold GoogleNotesBot.generate_tags_from_text.
  destruct (truthy text) eqn:Ht; cbn [negb].
  - apply truthy_true_iff in Ht.
    unfold list_set. rewrite nodup_In. cbn [app In].
    rewrite matched_categories_iff. split.
    + intros [<- | H]; [left; reflexivity | right; auto].
    + intros [-> | [_ H]]; [left; reflexivity | right; exact H].
  - apply truthy_false_iff in Ht. split.
    + intros [<- | []]. left. reflexivity.
    + intros [-> | [Hne _]]; [left; reflexivity | contradiction].
Qed.

(** A row the vision-API handler saves holds the extracted text, which is
    not empty, and the tags generated from it. *)
Lemma google_saved_row (e : GoogleNotesBot.env) (r : GoogleNotesBot.note_row) :
  In r (saved_rows (GoogleNotesBot.handle_photo e)) ->
  GoogleNotesBot.content r
  = GoogleNotesBot.extract_text_from_image (GoogleNotesBot.vision e) /\
  GoogleNotesBot.content r <> [] /\
  GoogleNotesBot.tags r
  = GoogleNotesBot.generate_tags_from_text (GoogleNotesBot.content r).
Proof.
  unfold GoogleNotesBot.handle_photo.
  set (text := GoogleNotesBot.extract_text_from_image _).
  set (tags := GoogleNotesBot.generate_tags_from_text text).
  set (title := GoogleNotesBot.generate_title_from_text text).
  destruct (GoogleNotesBot.download e) as [data|]; [|simpl; intros []].
  destruct (truthy text) eqn:Ht; [|simpl; intros []].
  apply truthy_true_iff in Ht.
  destruct (GoogleNotesBot.upload_result e) as [[|c u]|];
    [simpl; intros [] | | simpl; intros []].
  destruct (GoogleNotesBot.insert_result e);
    (simpl; intros [<- | []]; simpl; repeat split; assumption).
Qed.

End SharedVisionLemmas.

Section SharedRunLemmas.

Import Spec Notions OpenAINotesBot.

(** The row [save_note_to_db] builds. *)
Lemma save_note_to_db_rows uid uname note_data url now insert_result
    tags_insert_ok (r : note_row) :
  In r (saved_rows (fst (save_note_to_db uid uname note_data url now
                           insert_result tags_insert_ok))) ->
  subscript note_data key_title = Some (title r) /\
  subscript note_data key_content = Some (content r) /\
  user_id r = uid /\ username r = uname /\ image_url r = url /\
  created_at r = now.
Proof.
  unfold save_note_to_db.
  destruct (subscript note_data key_title) as [t|]; [|intros []].
  destruct (subscript note_data key_content) as [c|]; [|intros []].
  assert (Hrow : forall rest : trace,
             saved_rows rest = [] ->
             In r (saved_rows
                     (NotesInsert
                        {| user_id := uid; username := uname; title := t;
                           content := c; image_url := url;
                           created_at := now |} :: rest)) ->
             Some t = Some (title r) /\ Some c = Some (content r) /\
             user_id r = uid /\ username r = uname /\ image_url r = url /\
             created_at r = now).
  { intros rest Hrest. simpl. rewrite Hrest.
    intros [<- | []]. simpl. repeat split. }
  destruct insert_result as [id|]; [|apply (Hrow []); reflexivity].
  destruct (subscript note_data key_tags) as [tv|];
    [|apply (Hrow []); reflexivity].
  destruct (json_truthy tv); [|apply (Hrow []); reflexivity].
  destruct (iter_strings tv); [|apply (Hrow []); reflexivity].
  destruct (map strip _); [apply (Hrow []); reflexivity|].
  apply (Hrow [_]). reflexivity.
Qed.

Lemma saved_rows_app {msg row} (a b : list (effect msg row)) :
  saved_rows (a ++ b) = saved_rows a ++ saved_rows b.
Proof. unfold saved_rows. apply flat_map_app. Qed.

Lemma last_message_app_send {msg row} (a : list (effect msg row)) (m : msg) :
  last_message (a ++ [Send m]) = Some m.
Proof.
  induction a as [|x a IH]; simpl; [reflexivity|]. rewrite IH. reflexivity.
Qed.

(** The run that reaches the save stage. *)
Lemma handle_image_reaches_save (e : env) data image_url v :
  download e = Some data ->
  upload_result e = Some image_url -> image_url <> [] ->
  analyze_image_with_openai (completion e) (json_loads e) = Some v ->
  json_truthy v = true ->
  let result := save_note_to_db (effective_user_id e) (display_name e) v
                  image_url (now_created e) (insert_result e)
                  (tags_insert_ok e) in
  handle_image e
  = [Send processing; Send uploading;
     StorageUpload (filename (effective_user_id e) (now_filename e)) data;
     Send analyzing; BackendCall None data; Send saving]
    ++ fst result
    ++ [Send (if snd result then report v image_url else save_failed)].
Proof.
  intros Hd Hu Hne Ha Hv result. subst result.
  unfold handle_image. fold (display_name e).
  rewrite Hd, Hu. destruct image_url as [|c u]; [contradiction|].
  rewrite Ha, Hv.
  destruct (save_note_to_db _ _ v (c :: u) _ _ _) as [effects saved].
  simpl. destruct saved; reflexivity.
Qed.

(** A run whose analysis gave a truthy result: the asset is stored, and the
    note row is built from the keys "title" and "content" of the result,
    whatever they hold. *)
Lemma openai_saves_unchecked_content (e : env) data image_url v :
  download e = Some data ->
  upload_result e = Some image_url -> image_url <> [] ->
  analyze_image_with_openai (completion e) (json_loads e) = Some v ->
  json_truthy v = true ->
  existsb is_put (handle_image e) = true /\
  (subscript v key_title = None \/ subscript v key_content = None ->
   forallb (fun x => negb (is_save x)) (handle_image e) = true /\
   last_message (handle_image e) = Some save_failed) /\
  (forall t c,
      subscript v key_title = Some t -> subscript v key_content = Some c ->
      saved_rows (handle_image e)
      = [ {| user_id := effective_user_id e; username := display_name e;
             title := t; content := c; image_url := image_url;
             created_at := now_created e |} ]) /\
  (forall t s note_id,
      subscript v key_title = Some t ->
      subscript v key_content = Some (JStr s) ->
      subscript v key_tags = Some (JArr []) ->
      insert_result e = Some note_id ->
      last_message (handle_image e)
      = Some (success t (JArr []) (JStr s) image_url)).
Proof.
  intros Hd Hu Hne Ha Hv.
  rewrite (handle_image_reaches_save e data image_url v Hd Hu Hne Ha Hv).
  cbv zeta. split; [reflexivity|]. split; [|split].
  - intro H.
    assert (E : save_note_to_db (effective_user_id e) (display_name e) v
                  image_url (now_created e) (insert_result e)
                  (tags_insert_ok e) = ([], false)).
    { unfold save_note_to_db. destruct H as [H | H]; rewrite H;
        [reflexivity|].
      destruct (subscript v key_title); reflexivity. }
    rewrite E. split; reflexivity.
  - intros t c Ht Hc. unfold save_note_to_db. rewrite Ht, Hc.
    destruct (insert_result e) as [id|]; [|reflexivity].
    destruct (subscript v key_tags) as [tv|]; [|reflexivity].
    destruct (json_truthy tv); [|reflexivity].
    destruct (iter_strings tv); [|reflexivity].
    destruct (map strip _); reflexivity.
  - intros t s note_id Ht Hc Htags Hi.
    unfold save_note_to_db, report. rewrite Ht, Hc, Htags, Hi.
    reflexivity.
Qed.

(** The tag rows [save_note_to_db] inserts: under the id of the note row,
    the tags of the result in their order, each stripped, the blank ones
    left out, and only when one is left. *)
Lemma save_note_to_db_tag_rows uid uname note_data url now insert_result
    tags_insert_ok note_id tags :
  In (NoteTagsInsert note_id tags)
     (fst (save_note_to_db uid uname note_data url now insert_result
             tags_insert_ok)) <->
  subscript note_data key_title <> None /\
  subscript note_data key_content <> None /\
  insert_result = Some note_id /\
  exists tags_value l,
    subscript note_data key_tags = Some tags_value /\
    json_truthy tags_value = true /\
    iter_strings tags_value = Some l /\
    tags = map strip (filter (fun tag => truthy (strip tag)) l) /\
    tags <> [].
Proof.
  unfold save_note_to_db. split.
  - destruct (subscript note_data key_title) as [t|]; [|intros []].
    destruct (subscript note_data key_content) as [c|]; [|intros []].
    destruct insert_result as [id|];
      [|simpl; intros [H | []]; discriminate].
    destruct (subscript note_data key_tags) as [tv|];
      [|simpl; intros [H | []]; discriminate].
    destruct (json_truthy tv) eqn:Htv;
      [|simpl; intros [H | []]; discriminate].
    destruct (iter_strings tv) as [l|] eqn:Hl;
      [|simpl; intros [H | []]; discriminate].
    destruct (map strip (filter (fun tag => truthy (strip tag)) l))
      as [|x xs] eqn:E; [simpl; intros [H | []]; discriminate|].
    simpl. intros [H | [H | []]]; [discriminate|].
    injection H as <- <-.
    split; [discriminate|]. split; [discriminate|].
    split; [reflexivity|].
    exists tv, l. rewrite E. repeat split; try assumption. discriminate.
  - intros (Ht & Hc & Hi & tv & l & Htags & Htv & Hl & Heq & Hne).
    destruct (subscript note_data key_title) as [t|]; [|contradiction].
    destruct (subscript note_data key_content) as [c|]; [|contradiction].
    rewrite Hi, Htags, Htv, Hl, <- Heq.
    destruct tags as [|x xs]; [contradiction|].
    right. left. reflexivity.
Qed.

(** The tag rows of a run of the AI handler are those [save_note_to_db]
    inserts for the result of the analysis. *)
Lemma handle_image_tag_rows (e : env) note_id tags :
  In (NoteTagsInsert note_id tags) (handle_image e) ->
  exists image_url v,
    analyze_image_with_openai (completion e) (json_loads e) = Some v /\
    In (NoteTagsInsert note_id tags)
       (fst (save_note_to_db (effective_user_id e) (display_name e) v
               image_url (now_created e) (insert_result e)
               (tags_insert_ok e))).
Proof.
  intro H.
  destruct (download e) as [data|] eqn:Hd;
    [|unfold handle_image in H; rewrite Hd in H;
      destruct H as [H | [H | []]]; discriminate].
  destruct (upload_result e) as [[|c u]|] eqn:Hu;
    [unfold handle_image in H; rewrite Hd, Hu in H;
     destruct H as [H | [H | [H | [H | []]]]]; discriminate
    | | unfold handle_image in H; rewrite Hd, Hu in H;
        destruct H as [H | [H | [H | [H | []]]]]; discriminate].
  destruct (analyze_image_with_openai (completion e) (json_loads e))
    as [v|] eqn:Ha;
    [|unfold handle_image in H; rewrite Hd, Hu, Ha in H;
      repeat (destruct H as [H | H]; [discriminate|]); destruct H].
  destruct (json_truthy v) eqn:Hv;
    [|unfold handle_image in H; rewrite Hd, Hu, Ha, Hv in H;
      repeat (destruct H as [H | H]; [discriminate|]); destruct H].
  rewrite (handle_image_reaches_save e data (c :: u) v Hd Hu
             ltac:(discriminate) Ha Hv) in H.
  cbv zeta in H.
  apply in_app_or in H as [H | H];
    [repeat (destruct H as [H | H]; [discriminate|]); destruct H|].
  apply in_app_or in H as [H | [H | []]]; [|discriminate].
  exists (c :: u), v. split; [reflexivity | exact H].
Qed.

End SharedRunLemmas.


Section PipelineTheorems.

Import YandexVisionOCR NoteProcessor Spec Samples MoreSamples.

(** C1, as stated, fails in the AI variant.  In the first run the request
    to the AI backend raises: the run ends with the analysis failure, and
    the asset has been stored before.  In the second run the backend finds
    no text and answers with an empty content: the asset is stored, a note
    with an empty body is saved, and the run ends with the success text. *)
Lemma C1_counterexample_ai_uploads_and_saves :
  let failed :=
    openai_run (OpenAINotesBot.CompletionRaises NetworkFailure) None in
  let empty := openai_run_on empty_content_answer note_empty_content in
  (analysis_failed failed /\
   last_message (OpenAINotesBot.handle_image failed)
   = Some OpenAINotesBot.analysis_failed /\
   existsb is_put (OpenAINotesBot.handle_image failed) = true) /\
  (OpenAINotesBot.analyze_image_with_openai
     (OpenAINotesBot.completion empty) (OpenAINotesBot.json_loads empty)
   = Some note_empty_content /\
   subscript note_empty_content OpenAINotesBot.key_content
   = Some (JStr []) /\
   existsb is_put (OpenAINotesBot.handle_image empty) = true /\
   map OpenAINotesBot.content
     (saved_rows (OpenAINotesBot.handle_image empty)) = [JStr []] /\
   last_message (OpenAINotesBot.handle_image empty)
   = Some (OpenAINotesBot.success (JStr (py "Blank")) (JArr []) (JStr [])
             url)).
Proof. vm_compute. repeat split. Qed.

(** C1, amended: in the rules-based and the vision-API variants, every run
    in which extraction fails or yields an empty string ends with the
    extraction failure (no text found, or the error text) and invokes
    neither AssetStore.put nor NoteRepository.save.  In the AI variant the
    asset is stored before the analysis.  A run whose analysis gives no
    result or a falsy one ends with the analysis failure and never invokes
    NoteRepository.save, after its one AssetStore.put.  A run whose analysis
    gives a truthy result has stored the asset as well, and the content of
    the result is never tested: without the key "title" or "content" the
    run saves nothing and ends with the save failure; with both keys it
    invokes NoteRepository.save with that title and content, whatever they
    are, the empty string included; and when the content is a string, the
    tags are an empty list and the insert gives an id, the run ends with
    the success text. *)
Theorem C1_failed_extraction_saves_no_note {U : Unicode} :
  (forall e : TelegramOCRBot.env,
      let text := extract_text_from_image (TelegramOCRBot.ocr_post e) in
      text = [] \/ startswith error_marker text = true ->
      persists_nothing (TelegramOCRBot.handle_photo e) /\
      (TelegramOCRBot.download e <> None ->
       last_message (TelegramOCRBot.handle_photo e)
       = Some (if truthy text then TelegramOCRBot.MsgOcrError text
               else TelegramOCRBot.MsgCouldNotExtract))) /\
  (forall e : GoogleNotesBot.env,
      GoogleNotesBot.extract_text_from_image (GoogleNotesBot.vision e) = [] ->
      persists_nothing (GoogleNotesBot.handle_photo e) /\
      (GoogleNotesBot.download e <> None ->
       last_message (GoogleNotesBot.handle_photo e)
       = Some GoogleNotesBot.MsgNoTextFound)) /\
  (forall e : OpenAINotesBot.env,
      analysis_failed e ->
      forallb (fun x => negb (is_save x)) (OpenAINotesBot.handle_image e)
      = true /\
      (forall data, OpenAINotesBot.download e = Some data ->
         put_keys (OpenAINotesBot.handle_image e)
         = [OpenAINotesBot.filename (OpenAINotesBot.effective_user_id e)
              (OpenAINotesBot.now_filename e)]) /\
      (forall data image_url,
         OpenAINotesBot.download e = Some data ->
         OpenAINotesBot.upload_result e = Some image_url -> image_url <> [] ->
         last_message (OpenAINotesBot.handle_image e)
         = Some OpenAINotesBot.analysis_failed)) /\
  (forall (e : OpenAINotesBot.env) data image_url v,
      OpenAINotesBot.download e = Some data ->
      OpenAINotesBot.upload_result e = Some image_url -> image_url <> [] ->
      OpenAINotesBot.analyze_image_with_openai
        (OpenAINotesBot.completion e) (OpenAINotesBot.json_loads e)
      = Some v ->
      json_truthy v = true ->
      existsb is_put (OpenAINotesBot.handle_image e) = true /\
      (subscript v OpenAINotesBot.key_title = None \/
       subscript v OpenAINotesBot.key_content = None ->
       forallb (fun x => negb (is_save x)) (OpenAINotesBot.handle_image e)
       = true /\
       last_message (OpenAINotesBot.handle_image e)
       = Some OpenAINotesBot.save_failed) /\
      (forall t c,
          subscript v OpenAINotesBot.key_title = Some t ->
          subscript v OpenAINotesBot.key_content = Some c ->
          saved_rows (OpenAINotesBot.handle_image e)
          = [ {| OpenAINotesBot.user_id := OpenAINotesBot.effective_user_id e;
                 OpenAINotesBot.username := Notions.display_name e;
                 OpenAINotesBot.title := t;
                 OpenAINotesBot.content := c;
                 OpenAINotesBot.image_url := image_url;
                 OpenAINotesBot.created_at := OpenAINotesBot.now_created e
              |} ]) /\
      (forall t s note_id,
          subscript v OpenAINotesBot.key_title = Some t ->
          subscript v OpenAINotesBot.key_content = Some (JStr s) ->
          subscript v OpenAINotesBot.key_tags = Some (JArr []) ->
          OpenAINotesBot.insert_result e = Some note_id ->
          last_message (OpenAINotesBot.handle_image e)
          = Some (OpenAINotesBot.success t (JArr []) (JStr s) image_url))).
Proof.
  split; [|split; [|split]].
  - intros e. apply rules_stops_on_failure.
  - intros e. apply google_stops_on_empty.
  - intros e. apply openai_stops_after_upload.
  - intros e. apply openai_saves_unchecked_content.
Qed.

Lemma C1_witness_four_runs :
  persists_nothing
    (TelegramOCRBot.handle_photo (U := ascii_unicode)
       (rules_run (PostRaises RequestException))) /\
  persists_nothing
    (GoogleNotesBot.handle_photo (U := ascii_unicode)
       (google_run (GoogleNotesBot.VisionReturns []))) /\
  forallb (fun x => negb (is_save x))
    (OpenAINotesBot.handle_image
       (openai_run (OpenAINotesBot.CompletionRaises NetworkFailure) None))
  = true /\
  map OpenAINotesBot.content
    (saved_rows
       (OpenAINotesBot.handle_image
          (openai_run_on empty_content_answer note_empty_content)))
  = [JStr []].
Proof.
  pose proof (C1_failed_extraction_saves_no_note (U := ascii_unicode))
    as (Hrules & Hgoogle & Hai & Hsaves).
  split; [|split; [|split]].
  - apply (Hrules (rules_run (PostRaises RequestException))).
    right. reflexivity.
  - apply (Hgoogle (google_run (GoogleNotesBot.VisionReturns []))).
    reflexivity.
  - apply (Hai (openai_run (OpenAINotesBot.CompletionRaises NetworkFailure)
                  None)).
    exact I.
  - destruct (Hsaves (openai_run_on empty_content_answer note_empty_content)
                jpeg url note_empty_content eq_refl eq_refl
                ltac:(discriminate) eq_refl eq_refl)
      as (_ & _ & Hrows & _).
    rewrite (Hrows (JStr (py "Blank")) (JStr []) eq_refl eq_refl).
    reflexivity.
Defined.




(** C7, as stated, fails in the vision-API variant: an authentication
    failure, a network failure and a response without text all give the
    empty string. *)
Lemma C7_counterexample_vision_collapses_failures :
  GoogleNotesBot.extract_text_from_image
    (GoogleNotesBot.VisionRaises AuthenticationFailure)
  = GoogleNotesBot.extract_text_from_image
      (GoogleNotesBot.VisionRaises NetworkFailure) /\
  GoogleNotesBot.extract_text_from_image
    (GoogleNotesBot.VisionRaises AuthenticationFailure)
  = GoogleNotesBot.extract_text_from_image (GoogleNotesBot.VisionReturns []).
Proof. split; reflexivity. Qed.

(** C7, amended: the rules-based extractor gives pairwise different results
    for an authentication failure (status 401, as a response or as a raised
    HTTP error), for a network failure and for a response without text.
    The vision-API extractor gives the empty string in all three cases, and
    the AI analysis gives no result for every failure of its request. *)
Theorem C7_rules_based_tells_failures_apart :
  (forall body status_code v,
      status_ok status_code -> read_result v = [] ->
      let auth := extract_text_from_image (PostReturns 401 body) in
      let auth_raised :=
        extract_text_from_image (PostRaises (HTTPError (Some 401%Z))) in
      let network := extract_text_from_image (PostRaises RequestException) in
      let no_text :=
        extract_text_from_image (PostReturns status_code (JsonValue v)) in
      auth <> network /\ auth <> no_text /\
      auth_raised <> network /\ auth_raised <> no_text /\
      network <> no_text) /\
  (forall why,
      GoogleNotesBot.extract_text_from_image (GoogleNotesBot.VisionRaises why)
      = GoogleNotesBot.extract_text_from_image
          (GoogleNotesBot.VisionReturns [])) /\
  (forall why json_loads,
      OpenAINotesBot.analyze_image_with_openai
        (OpenAINotesBot.CompletionRaises why) json_loads = None).
Proof.
  split; [|split].
  - intros body status_code v Hs Hv. cbv zeta.
    rewrite extract_ok_response by assumption. rewrite Hv.
    repeat split; vm_compute; discriminate.
  - intros why. reflexivity.
  - intros why json_loads. reflexivity.
Qed.

Lemma C7_witness_empty_response :
  let v := {| result := None |} in
  status_ok 200 /\ read_result v = [] /\
  extract_text_from_image (PostReturns 401 (JsonValue v))
  <> extract_text_from_image (PostRaises RequestException) /\
  extract_text_from_image (PostRaises RequestException)
  <> extract_text_from_image (PostReturns 200 (JsonValue v)).
Proof.
  intro v.
  assert (Hs : status_ok 200) by (unfold status_ok; lia).
  split; [exact Hs|]. split; [reflexivity|].
  destruct (proj1 C7_rules_based_tells_failures_apart
              (JsonValue v) 200%Z v Hs eq_refl) as (H1 & _ & _ & _ & H5).
  split; assumption.
Defined.

(** C9: in the rules-based variant every failure of the OCR request is
    returned in-band as a string that starts with "Error:"; and for every
    extracted text that starts with "Error:", whether it reports a failure
    or is the text of the screenshot, [generate_title] returns "Untitled
    Screenshot", [extract_tags] returns the empty list, and a run that
    extracts it ends with the error text without storing an asset or saving
    a note. *)
Theorem C9_error_marker_aborts_run {U : Unicode} (text : pystr) :
  startswith error_marker text = true ->
  (forall post, extraction_failed post = true ->
     startswith error_marker (extract_text_from_image post) = true) /\
  (forall max_length, generate_title text max_length = untitled_screenshot) /\
  extract_tags text = [] /\
  (forall e : TelegramOCRBot.env,
      extract_text_from_image (TelegramOCRBot.ocr_post e) = text ->
      persists_nothing (TelegramOCRBot.handle_photo e) /\
      (TelegramOCRBot.download e <> None ->
       last_message (TelegramOCRBot.handle_photo e)
       = Some (TelegramOCRBot.MsgOcrError text))).
Proof.
  intro H. split; [|split; [|split]].
  - intros post. apply failures_in_band.
  - intros max_length. apply generate_title_default. right. exact H.
  - unfold extract_tags. rewrite H, orb_true_r. reflexivity.
  - intros e He.
    assert (Ht : truthy text = true).
    { destruct text; [discriminate | reflexivity]. }
    destruct (rules_stops_on_failure e) as [Hp Hm].
    { right. rewrite He. exact H. }
    split; [exact Hp|]. intro Hd. rewrite (Hm Hd), He, Ht. reflexivity.
Qed.

Lemma C9_witness_screenshot_of_an_error :
  let text := py "Error: disk full" in
  let a := {| fullText := Some text; blocks := None |} in
  let e := rules_run (PostReturns 200 (JsonValue (response_with a))) in
  startswith error_marker text = true /\
  generate_title text default_max_length = untitled_screenshot /\
  extract_tags (U := ascii_unicode) text = [] /\
  persists_nothing (TelegramOCRBot.handle_photo (U := ascii_unicode) e).
Proof.
  intros text a e.
  assert (H : startswith error_marker text = true) by reflexivity.
  destruct (C9_error_marker_aborts_run (U := ascii_unicode) text H)
    as (_ & Ht & Hg & He).
  split; [exact H|]. split; [apply Ht|]. split; [exact Hg|].
  apply (He e). reflexivity.
Defined.

(** C10: in the vision-API variant [generate_tags_from_text] returns a tag
    list that contains "screenshot" for every text, the empty one included;
    beside it the list holds exactly the categories of the keyword table
    one of whose keywords occurs in the lowered text, none for the empty
    text.  So every note row a run of this variant saves carries the tag
    "screenshot" and, in addition to it, exactly the categories whose
    keywords match its content. *)
Theorem C10_screenshot_tag_always_present {U : Unicode} :
  (forall text,
      In GoogleNotesBot.screenshot
         (GoogleNotesBot.generate_tags_from_text text)) /\
  (forall text x,
      In x (GoogleNotesBot.generate_tags_from_text text) <->
      x = GoogleNotesBot.screenshot \/
      (text <> [] /\
       exists keywords keyword,
         In (x, keywords) GoogleNotesBot.tag_keywords /\
         In keyword keywords /\ contains keyword (lower text) = true)) /\
  (forall (e : GoogleNotesBot.env) r,
      In r (saved_rows (GoogleNotesBot.handle_photo e)) ->
      In GoogleNotesBot.screenshot (GoogleNotesBot.tags r) /\
      (forall x,
          In x (GoogleNotesBot.tags r) <->
          x = GoogleNotesBot.screenshot \/
          exists keywords keyword,
            In (x, keywords) GoogleNotesBot.tag_keywords /\
            In keyword keywords /\
            contains keyword (lower (GoogleNotesBot.content r)) = true)).
Proof.
  split; [|split].
  - intro text. apply generate_tags_from_text_iff. left. reflexivity.
  - intros text x. apply generate_tags_from_text_iff.
  - intros e r Hr. destruct (google_saved_row e r Hr) as (_ & Hne & ->).
    split; [apply generate_tags_from_text_iff; left; reflexivity|].
    intro x. rewrite generate_tags_from_text_iff. split.
    + intros [H | [_ H]]; [left; exact H | right; exact H].
    + intros [H | H]; [left; exact H | right; split; assumption].
Qed.

Lemma C10_witness_saved_row :
  let e := google_run (GoogleNotesBot.VisionReturns [invoice]) in
  exists r,
    In r (saved_rows (GoogleNotesBot.handle_photo (U := ascii_unicode) e)) /\
    GoogleNotesBot.content r = invoice /\
    In GoogleNotesBot.screenshot (GoogleNotesBot.tags r) /\
    In (py "financial") (GoogleNotesBot.tags r).
Proof.
  intro e.
  destruct (saved_rows (GoogleNotesBot.handle_photo (U := ascii_unicode) e))
    as [|r rest] eqn:E; [discriminate E|].
  injection E as Hr _.
  exists r. split; [left; reflexivity|].
  assert (Hc : GoogleNotesBot.content r = invoice)
    by (rewrite <- Hr; reflexivity).
  split; [exact Hc|].
  assert (Hin : In r (saved_rows
                        (GoogleNotesBot.handle_photo (U := ascii_unicode) e))).
  { unfold e. simpl. left. exact Hr. }
  destruct (proj2 (proj2 (C10_screenshot_tag_always_present
                            (U := ascii_unicode))) e r Hin) as [Hs Hiff].
  split; [exact Hs|].
  apply (proj2 (Hiff (py "financial"))). right.
  exists (map py ["рубль"; "деньги"; "цена"; "$"; "€"; "₽"]%string),
         (py "$").
  rewrite Hc.
  split; [|split];
    [vm_compute; tauto | right; right; right; left; reflexivity
    | reflexivity].
Defined.

End PipelineTheorems.

(** ** Tags *)

Section TagLemmas.

Import NoteProcessor Spec.

Context {U : Unicode}.

Lemma matched_categories_names (table : list (pystr * list pystr))
    (content_lower x : pystr) :
  In x (matched_categories table content_lower) -> In x (map fst table).
Proof.
  unfold matched_categories. intro H.
  apply in_flat_map in H as ([tag patterns] & Hin & Hx).
  destruct (existsb _ patterns); [|contradiction].
  destruct Hx as [<- | []].
  apply (in_map fst) in Hin. exact Hin.
Qed.

(** Every match of [#\w+] is [#] followed by at least one character. *)
Lemma findall_hashtags_shape (s : pystr) :
  forall cur h,
    In h (findall_hashtags_from cur s) -> exists c w, h = hash :: c :: w.
Proof.
  assert (Hflush : forall cur h, In h (flush_hashtag cur) ->
                                 exists c w, h = hash :: c :: w).
  { intros [[|c w]|] h; simpl; try contradiction.
    intros [<- | []]. eauto. }
  induction s as [|c s IH]; intros cur h; simpl.
  - apply Hflush.
  - destruct cur as [w|].
    + destruct (isword c); [apply IH|].
      intro H. apply in_app_or in H as [H | H]; [eapply Hflush | eapply IH];
        eassumption.
    + apply IH.
Qed.

(** A list of distinct strings that [lower] leaves unchanged has no two
    entries equal up to case. *)
Lemma list_set_wellformed (tags : list pystr) :
  (forall x, In x tags -> lower x = x /\ x <> []) ->
  tags_wellformed (list_set tags).
Proof.
  intro H. unfold tags_wellformed, list_set. split.
  - rewrite (map_ext_in lower (fun x => x)).
    + rewrite map_id. apply NoDup_nodup.
    + intros x Hx. apply nodup_In in Hx. apply H, Hx.
  - intro Hin. apply nodup_In in Hin. destruct (H _ Hin) as [_ Hne].
    apply Hne. reflexivity.
Qed.

Lemma tag_patterns_names (x : pystr) :
  In x (map fst tag_patterns) ->
  forallb is_ascii_lower x = true /\ x <> [].
Proof.
  intro H. simpl in H.
  repeat (destruct H as [<- | H]; [split; [reflexivity | discriminate]|]).
  contradiction.
Qed.

Lemma tag_keywords_names (x : pystr) :
  In x (GoogleNotesBot.screenshot :: map fst GoogleNotesBot.tag_keywords) ->
  forallb is_ascii_lower x = true /\ x <> [].
Proof.
  intro H. simpl in H.
  repeat (destruct H as [<- | H]; [split; [reflexivity | discriminate]|]).
  contradiction.
Qed.

Hypothesis laws : LowerLaws U.

Lemma extract_tags_wellformed (content : pystr) :
  tags_wellformed (extract_tags content).
Proof.
  unfold extract_tags.
  destruct (negb (truthy content) || startswith error_marker content).
  - split; [constructor | intros []].
  - apply list_set_wellformed. intros x Hx.
    apply in_app_or in Hx as [Hx | Hx].
    + apply matched_categories_names, tag_patterns_names in Hx
        as [Hlow Hne].
      split; [apply (lower_fixes_ascii_lower laws), Hlow | exact Hne].
    + apply in_map_iff in Hx as (h & <- & Hh).
      apply findall_hashtags_shape in Hh as (c & w & ->). simpl.
      split; [apply (lower_idempotent laws)|].
      apply (lower_nonempty laws). discriminate.
Qed.

Lemma generate_tags_wellformed (text : pystr) :
  tags_wellformed (GoogleNotesBot.generate_tags_from_text text).
Proof.
  assert (Hs : lower GoogleNotesBot.screenshot = GoogleNotesBot.screenshot).
  { apply (lower_fixes_ascii_lower laws). reflexivity. }
  unfold GoogleNotesBot.generate_tags_from_text.
  destruct (negb (truthy text)).
  - split.
    + simpl. constructor; [intros [] | constructor].
    + intros [H | []]. discriminate.
  - apply list_set_wellformed. intros x Hx.
    assert (In x (GoogleNotesBot.screenshot
                    :: map fst GoogleNotesBot.tag_keywords)) as Hn.
    { destruct Hx as [<- | Hx]; [left; reflexivity|].
      right. eapply matched_categories_names, Hx. }
    apply tag_keywords_names in Hn as [Hlow Hne].
    split; [apply (lower_fixes_ascii_lower laws), Hlow | exact Hne].
Qed.

End TagLemmas.

Section TagRows.

Import Spec.

(** The tag rows [save_note_to_db] inserts hold no empty string. *)
Lemma save_note_to_db_tags_nonempty uid uname note_data url now
    insert_result tags_insert_ok note_id tags :
  In (NoteTagsInsert note_id tags)
     (fst (OpenAINotesBot.save_note_to_db uid uname note_data url now
             insert_result tags_insert_ok)) ->
  ~ In [] tags.
Proof.
  unfold OpenAINotesBot.save_note_to_db.
  destruct (subscript note_data OpenAINotesBot.key_title) as [t|];
    [|intros []].
  destruct (subscript note_data OpenAINotesBot.key_content) as [c|];
    [|intros []].
  destruct insert_result as [id|];
    [|simpl; intros [H | []]; discriminate].
  destruct (subscript note_data OpenAINotesBot.key_tags) as [tv|];
    [|simpl; intros [H | []]; discriminate].
  destruct (json_truthy tv); [|simpl; intros [H | []]; discriminate].
  destruct (iter_strings tv) as [l|];
    [|simpl; intros [H | []]; discriminate].
  destruct (map strip (filter (fun tag => truthy (strip tag)) l))
    as [|x xs] eqn:E; [simpl; intros [H | []]; discriminate|].
  simpl. intros [H | [H | []]]; [discriminate|].
  injection H as _ <-. rewrite <- E. intro Hin.
  apply in_map_iff in Hin as (tag & Hs & Hf).
  apply filter_In in Hf as [_ Ht]. rewrite Hs in Ht. discriminate.
Qed.

End TagRows.

Section TagTheorems.

Import NoteProcessor Spec Samples MoreSamples.

Lemma ascii_lower_char_idempotent (c : char) :
  ascii_lower_char (ascii_lower_char c) = ascii_lower_char c.
Proof.
  unfold ascii_lower_char, is_ascii_upper.
  destruct ((65 <=? c)%N && (c <=? 90)%N) eqn:E; [|rewrite E; reflexivity].
  apply andb_true_iff in E as [E1 E2].
  apply N.leb_le in E1. apply N.leb_le in E2.
  replace (c + 32 <=? 90)%N with false; [rewrite andb_false_r; reflexivity|].
  symmetry. apply N.leb_gt. lia.
Qed.

Lemma ascii_lower_char_fixes (c : char) :
  is_ascii_lower c = true -> ascii_lower_char c = c.
Proof.
  unfold ascii_lower_char, is_ascii_lower, is_ascii_upper. intro H.
  apply andb_true_iff in H as [H1 H2]. apply N.leb_le in H1.
  replace (c <=? 90)%N with false; [rewrite andb_false_r; reflexivity|].
  symmetry. apply N.leb_gt. lia.
Qed.

(** The ASCII tables satisfy the laws of [str.lower()]. *)
Lemma ascii_lower_laws : LowerLaws ascii_unicode.
Proof.
  constructor; simpl.
  - intro s. rewrite map_map. apply map_ext. apply ascii_lower_char_idempotent.
  - intros [|c s] H; [contradiction | discriminate].
  - intros s H. rewrite <- (map_id s) at 2. apply map_ext_in.
    intros c Hc. apply ascii_lower_char_fixes.
    rewrite forallb_forall in H. apply H, Hc.
Qed.

Lemma rules_saved_tags {U : Unicode} (e : TelegramOCRBot.env) r :
  In r (saved_rows (TelegramOCRBot.handle_photo e)) ->
  exists text, TelegramOCRBot.tags r = extract_tags text.
Proof.
  unfold TelegramOCRBot.handle_photo.
  set (text := YandexVisionOCR.extract_text_from_image _).
  set (tags := extract_tags text).
  set (title := generate_title text default_max_length).
  destruct (TelegramOCRBot.download e) as [[file_path data]|];
    [|simpl; intros []].
  destruct (truthy text); [|simpl; intros []].
  destruct (startswith error_marker text); [simpl; intros []|].
  destruct (TelegramOCRBot.insert_result e);
    (simpl; intros [<- | []]; exists text; reflexivity).
Qed.

Lemma google_saved_tags {U : Unicode} (e : GoogleNotesBot.env) r :
  In r (saved_rows (GoogleNotesBot.handle_photo e)) ->
  exists text,
    GoogleNotesBot.tags r = GoogleNotesBot.generate_tags_from_text text.
Proof.
  unfold GoogleNotesBot.handle_photo.
  set (text := GoogleNotesBot.extract_text_from_image _).
  set (tags := GoogleNotesBot.generate_tags_from_text text).
  set (title := GoogleNotesBot.generate_title_from_text text).
  destruct (GoogleNotesBot.download e) as [data|]; [|simpl; intros []].
  destruct (truthy text); [|simpl; intros []].
  destruct (GoogleNotesBot.upload_result e) as [[|c u]|];
    [simpl; intros [] | | simpl; intros []].
  destruct (GoogleNotesBot.insert_result e);
    (simpl; intros [<- | []]; exists text; reflexivity).
Qed.

Lemma openai_tag_rows (e : OpenAINotesBot.env) note_id tags :
  In (NoteTagsInsert note_id tags) (OpenAINotesBot.handle_image e) ->
  ~ In [] tags.
Proof.
  unfold OpenAINotesBot.handle_image.
  set (uname := match OpenAINotesBot.effective_username e with
                | Some (c :: u) => c :: u
                | _ => _ end).
  destruct (OpenAINotesBot.download e) as [data|];
    [|simpl; intros [H | [H | []]]; discriminate].
  destruct (OpenAINotesBot.upload_result e) as [[|c u]|];
    try (simpl; intros [H | [H | [H | [H | []]]]]; discriminate).
  destruct (OpenAINotesBot.analyze_image_with_openai _ _) as [v|];
    [|simpl; intros H; decompose [or] H; try discriminate; contradiction].
  destruct (json_truthy v);
    [|simpl; intros H; decompose [or] H; try discriminate; contradiction].
  destruct (OpenAINotesBot.save_note_to_db _ uname v (c :: u) _ _ _)
    as [effects saved] eqn:E.
  intro H.
  repeat (destruct H as [H | H]; [discriminate|]).
  apply in_app_or in H as [H | H].
  - apply (save_note_to_db_tags_nonempty
             (OpenAINotesBot.effective_user_id e) uname v (c :: u)
             (OpenAINotesBot.now_created e)
             (OpenAINotesBot.insert_result e)
             (OpenAINotesBot.tags_insert_ok e) note_id tags).
    rewrite E. exact H.
  - destruct saved; destruct H as [H | []]; discriminate.
Qed.

Lemma document_saved_tags {U : Unicode} (e : TelegramOCRBotDocument.env) r :
  In r (saved_rows (TelegramOCRBotDocument.handle_document e)) ->
  exists text, TelegramOCRBot.tags r = extract_tags text.
Proof.
  unfold TelegramOCRBotDocument.handle_document.
  set (text := YandexVisionOCR.extract_text_from_image _).
  set (tags := extract_tags text).
  set (title := generate_title text default_max_length).
  destruct (TelegramOCRBotDocument.is_pdf _); [|simpl; intros []].
  destruct (TelegramOCRBotDocument.download e) as [data|];
    [|simpl; intros []].
  destruct (negb (truthy text) || startswith error_marker text);
    [simpl; intros []|].
  destruct (TelegramOCRBotDocument.insert_result e);
    (simpl; intros [<- | []]; exists text; reflexivity).
Qed.

(** C6, as stated, fails in the AI variant: the tags of the structured note
    are stored as they come, apart from stripping, so the tags todo and
    Todo give two rows that are equal up to case.  The two tags differ as
    strings, so the unique index of the schema accepts the rows. *)
Lemma C6_counterexample_ai_keeps_case_variants :
  let e := openai_run_on case_tags_answer note_case_tags in
  let tags := [py "todo"; py "Todo"] in
  OpenAINotesBot.analyze_image_with_openai
    (OpenAINotesBot.completion e) (OpenAINotesBot.json_loads e)
  = Some note_case_tags /\
  In (NoteTagsInsert 1%Z tags) (OpenAINotesBot.handle_image e) /\
  SetupDatabase.idx_note_tags_unique tags /\
  ~ tags_wellformed (U := ascii_unicode) tags.
Proof.
  split; [reflexivity|]. split; [vm_compute; tauto|]. split.
  - unfold SetupDatabase.idx_note_tags_unique.
    constructor; [intros [H | []]; discriminate|].
    constructor; [intros [] | constructor].
  - intros [Hnd _]. vm_compute in Hnd.
    inversion Hnd as [|x l Hnotin _]. apply Hnotin. left. reflexivity.
Qed.

(** C6, amended: in the rules-based variant, for photos and for documents,
    and in the vision-API variant, the tags of every note a run saves
    contain no empty string and no two entries equal up to case, as do the
    lists [extract_tags] and [generate_tags_from_text] return for every
    text.  In the AI variant the tag rows inserted for a note are the tags
    of the result of the analysis in their order, each stripped of
    surrounding white space, the blank ones left out: no stored tag is
    empty, and nothing is lowered or deduplicated. *)
Theorem C6_saved_tags_wellformed {U : Unicode} :
  LowerLaws U ->
  (forall content, tags_wellformed (extract_tags content)) /\
  (forall text,
      tags_wellformed (GoogleNotesBot.generate_tags_from_text text)) /\
  (forall (e : TelegramOCRBot.env) r,
      In r (saved_rows (TelegramOCRBot.handle_photo e)) ->
      tags_wellformed (TelegramOCRBot.tags r)) /\
  (forall (e : TelegramOCRBotDocument.env) r,
      In r (saved_rows (TelegramOCRBotDocument.handle_document e)) ->
      tags_wellformed (TelegramOCRBot.tags r)) /\
  (forall (e : GoogleNotesBot.env) r,
      In r (saved_rows (GoogleNotesBot.handle_photo e)) ->
      tags_wellformed (GoogleNotesBot.tags r)) /\
  (forall uid uname note_data url now insert_result tags_insert_ok
          note_id tags,
      In (NoteTagsInsert note_id tags)
         (fst (OpenAINotesBot.save_note_to_db uid uname note_data url now
                 insert_result tags_insert_ok)) <->
      subscript note_data OpenAINotesBot.key_title <> None /\
      subscript note_data OpenAINotesBot.key_content <> None /\
      insert_result = Some note_id /\
      exists tags_value l,
        subscript note_data OpenAINotesBot.key_tags = Some tags_value /\
        json_truthy tags_value = true /\
        iter_strings tags_value = Some l /\
        tags = map strip (filter (fun tag => truthy (strip tag)) l) /\
        tags <> []) /\
  (forall (e : OpenAINotesBot.env) note_id tags,
      In (NoteTagsInsert note_id tags) (OpenAINotesBot.handle_image e) ->
      ~ In [] tags /\
      exists v tags_value l,
        OpenAINotesBot.analyze_image_with_openai
          (OpenAINotesBot.completion e) (OpenAINotesBot.json_loads e)
        = Some v /\
        subscript v OpenAINotesBot.key_tags = Some tags_value /\
        iter_strings tags_value = Some l /\
        tags = map strip (filter (fun tag => truthy (strip tag)) l)).
Proof.
  intro laws. repeat apply conj.
  - intro content. now apply extract_tags_wellformed.
  - intro text. now apply generate_tags_wellformed.
  - intros e r Hr. destruct (rules_saved_tags e r Hr) as [text ->].
    now apply extract_tags_wellformed.
  - intros e r Hr. destruct (document_saved_tags e r Hr) as [text ->].
    now apply extract_tags_wellformed.
  - intros e r Hr. destruct (google_saved_tags e r Hr) as [text ->].
    now apply generate_tags_wellformed.
  - apply save_note_to_db_tag_rows.
  - intros e note_id tags H. split; [exact (openai_tag_rows e note_id tags H)|].
    destruct (handle_image_tag_rows e note_id tags H)
      as (image_url & v & Ha & Hin).
    apply save_note_to_db_tag_rows in Hin
      as (_ & _ & _ & tv & l & Htags & _ & Hl & Heq & _).
    exists v, tv, l. auto.
Qed.

Lemma C6_witness_invoice_run :
  let e := rules_run
             (YandexVisionOCR.PostReturns 200
                (YandexVisionOCR.JsonValue
                   (response_with
                      {| YandexVisionOCR.fullText := Some invoice;
                         YandexVisionOCR.blocks := None |}))) in
  let ai := openai_run_on case_tags_answer note_case_tags in
  LowerLaws ascii_unicode /\
  (exists r,
      In r (saved_rows (TelegramOCRBot.handle_photo (U := ascii_unicode) e))
      /\ tags_wellformed (U := ascii_unicode) (TelegramOCRBot.tags r)) /\
  In (NoteTagsInsert 1%Z [py "todo"; py "Todo"])
     (OpenAINotesBot.handle_image ai) /\
  ~ In [] [py "todo"; py "Todo"].
Proof.
  intros e ai.
  pose proof (C6_saved_tags_wellformed (U := ascii_unicode)
                ascii_lower_laws)
    as (_ & _ & Hrules & _ & _ & _ & Hai).
  split; [exact ascii_lower_laws|]. split.
  - assert (Hin : exists r,
               In r (saved_rows
                       (TelegramOCRBot.handle_photo (U := ascii_unicode) e))).
    { eexists. left. reflexivity. }
    destruct Hin as [r Hr]. exists r. split; [exact Hr|].
    exact (Hrules e r Hr).
  - assert (Hin : In (NoteTagsInsert 1%Z [py "todo"; py "Todo"])
                     (OpenAINotesBot.handle_image ai))
      by (vm_compute; tauto).
    split; [exact Hin|].
    exact (proj1 (Hai ai 1%Z [py "todo"; py "Todo"] Hin)).
Defined.

End TagTheorems.

(** ** Storage keys *)

Section KeyLemmas.

Import Spec.

Lemma app_inj_length_l {A} (a b c d : list A) :
  List.length a = List.length c -> a ++ b = c ++ d -> a = c /\ b = d.
Proof.
  revert c; induction a as [|x a IH]; intros [|y c] Hl H;
    try discriminate.
  - split; [reflexivity | exact H].
  - injection H as -> H. injection Hl as Hl.
    destruct (IH c Hl H) as [-> ->]. split; reflexivity.
Qed.

Lemma app_inj_length_r {A} (a b c d : list A) :
  List.length b = List.length d -> a ++ b = c ++ d -> a = c /\ b = d.
Proof.
  intros Hl H. apply app_inj_length_l; [|exact H].
  apply (f_equal (@List.length A)) in H. rewrite !length_app in H. lia.
Qed.

Lemma N_of_ascii_inj (a b : ascii) : N_of_ascii a = N_of_ascii b -> a = b.
Proof.
  intro H. rewrite <- (ascii_N_embedding a), <- (ascii_N_embedding b), H.
  reflexivity.
Qed.

Lemma ascii_codes_inj (s t : string) : ascii_codes s = ascii_codes t -> s = t.
Proof.
  unfold ascii_codes. intro H.
  rewrite <- (string_of_list_ascii_of_string s),
          <- (string_of_list_ascii_of_string t).
  f_equal. revert H.
  generalize (list_ascii_of_string s) (list_ascii_of_string t).
  induction l as [|a l IH]; intros [|b l'] H; try discriminate;
    [reflexivity|].
  injection H as Hab H. f_equal; [apply N_of_ascii_inj, Hab | apply IH, H].
Qed.

Lemma to_int_normal (z : Z) :
  Z.to_int z <> Decimal.Pos Decimal.Nil /\
  Z.to_int z <> Decimal.Neg Decimal.Nil.
Proof.
  pose proof (DecimalZ.to_of (Z.to_int z)) as H.
  rewrite DecimalZ.of_to in H.
  split; intro E; rewrite E in H; discriminate.
Qed.

(** [str(n)] tells the integers apart. *)
Lemma str_int_inj (a b : Z) : str_int a = str_int b -> a = b.
Proof.
  unfold str_int. intro H. apply ascii_codes_inj in H.
  apply DecimalZ.to_int_inj.
  destruct (to_int_normal a) as [Ha1 Ha2].
  destruct (to_int_normal b) as [Hb1 Hb2].
  pose proof (NilZero.isi _ Ha1 Ha2) as Ia.
  pose proof (NilZero.isi _ Hb1 Hb2) as Ib.
  rewrite H in Ia. congruence.
Qed.

Lemma digit_char_inj (a b : N) : digit_char a = digit_char b -> a = b.
Proof. unfold digit_char. lia. Qed.

Lemma digits_step (a b : N) :
  (a / 10 = b / 10)%N -> (a mod 10 = b mod 10)%N -> a = b.
Proof.
  intros Hq Hr. rewrite (N.div_mod a 10), (N.div_mod b 10) by discriminate.
  rewrite Hq, Hr. reflexivity.
Qed.

Lemma pad2_inj (n m : N) :
  (n <= 99)%N -> (m <= 99)%N -> pad2 n = pad2 m -> n = m.
Proof.
  unfold pad2. intros Hn Hm H. injection H as H1 H2.
  apply digit_char_inj in H1, H2.
  apply digits_step; [|exact H2].
  rewrite !N.mod_small in H1; [exact H1| |];
    apply N.Div0.div_lt_upper_bound; lia.
Qed.

Lemma pad4_inj (n m : N) :
  (n <= 9999)%N -> (m <= 9999)%N -> pad4 n = pad4 m -> n = m.
Proof.
  unfold pad4. intros Hn Hm H. injection H as H1 H2 H3 H4.
  apply digit_char_inj in H1, H2, H3, H4.
  apply digits_step; [|exact H4].
  apply digits_step; [|exact H3].
  rewrite !N.Div0.div_div. change (10 * 10)%N with 100%N.
  apply digits_step; [|exact H2].
  rewrite !N.Div0.div_div. change (100 * 10)%N with 1000%N.
  rewrite !N.mod_small in H1; [exact H1| |];
    apply N.Div0.div_lt_upper_bound; lia.
Qed.

Lemma length_strftime_underscore (d : datetime) :
  List.length (strftime_underscore d) = 15%nat.
Proof. reflexivity. Qed.

Lemma length_strftime_compact (d : datetime) :
  List.length (strftime_compact d) = 14%nat.
Proof. reflexivity. Qed.

Ltac split_pad H :=
  apply app_inj_length_l in H; [|reflexivity];
  let E := fresh "E" in destruct H as [E H].

(** Two valid readings are printed alike exactly when they fall in the same
    second. *)
Lemma strftime_compact_inj (a b : datetime) :
  valid_datetime a -> valid_datetime b ->
  strftime_compact a = strftime_compact b -> same_second a b.
Proof.
  unfold valid_datetime, strftime_compact, same_second.
  intros Va Vb H.
  split_pad H. split_pad H. split_pad H. split_pad H. split_pad H.
  repeat split;
    first [ apply pad4_inj; [lia | lia | assumption]
          | apply pad2_inj; [lia | lia | assumption] ].
Qed.

Lemma strftime_underscore_inj (a b : datetime) :
  valid_datetime a -> valid_datetime b ->
  strftime_underscore a = strftime_underscore b -> same_second a b.
Proof.
  unfold valid_datetime, strftime_underscore, same_second.
  intros Va Vb H.
  split_pad H. split_pad H. split_pad H.
  apply app_inv_head in H.
  split_pad H. split_pad H.
  repeat split;
    first [ apply pad4_inj; [lia | lia | assumption]
          | apply pad2_inj; [lia | lia | assumption] ].
Qed.

Lemma same_second_strftime (a b : datetime) :
  same_second a b ->
  strftime_underscore a = strftime_underscore b /\
  strftime_compact a = strftime_compact b.
Proof.
  unfold same_second, strftime_underscore, strftime_compact.
  intros (-> & -> & -> & -> & -> & ->). split; reflexivity.
Qed.

Lemma hex_char_inj (a b : N) :
  (a < 16)%N -> (b < 16)%N -> hex_char a = hex_char b -> a = b.
Proof.
  unfold hex_char. intros Ha Hb.
  destruct (N.ltb_spec a 10), (N.ltb_spec b 10); lia.
Qed.

Lemma length_hex_digits (w : nat) (n : N) :
  List.length (hex_digits w n) = w.
Proof.
  revert n; induction w as [|w IH]; intro n; simpl; [reflexivity|].
  rewrite length_app, IH. simpl. lia.
Qed.

Lemma hex_digits_inj (w : nat) :
  forall n m,
    (n < 16 ^ N.of_nat w)%N -> (m < 16 ^ N.of_nat w)%N ->
    hex_digits w n = hex_digits w m -> n = m.
Proof.
  induction w as [|w IH]; intros n m Hn Hm H.
  - simpl in Hn, Hm. lia.
  - rewrite Nat2N.inj_succ, N.pow_succ_r' in Hn, Hm.
    simpl in H. apply app_inj_tail in H as [Hq Hr].
    apply hex_char_inj in Hr; try (apply N.mod_lt; discriminate).
    apply IH in Hq; try (apply N.Div0.div_lt_upper_bound; assumption).
    rewrite (N.div_mod n 16), (N.div_mod m 16) by discriminate.
    rewrite Hq, Hr. reflexivity.
Qed.

Lemma group_inj (h1 h2 : pystr) :
  List.length h1 = 32%nat -> List.length h2 = 32%nat ->
  group_8_4_4_4_12 h1 = group_8_4_4_4_12 h2 -> h1 = h2.
Proof.
  intros L1 L2.
  do 32 (destruct h1 as [|? h1]; [discriminate L1|]).
  destruct h1; [|discriminate L1].
  do 32 (destruct h2 as [|? h2]; [discriminate L2|]).
  destruct h2; [|discriminate L2].
  cbn. intro H. injection H. intros. subst. reflexivity.
Qed.

Lemma length_group (h : pystr) :
  List.length h = 32%nat -> List.length (group_8_4_4_4_12 h) = 36%nat.
Proof.
  intros L.
  do 32 (destruct h as [|? h]; [discriminate L|]).
  destruct h; [|discriminate L]. reflexivity.
Qed.

Lemma length_str_uuid (u : N) : List.length (str_uuid u) = 36%nat.
Proof. apply length_group, length_hex_digits. Qed.

(** [str(uuid)] tells the 128-bit values apart. *)
Lemma str_uuid_inj (u v : N) :
  (u < 2 ^ 128)%N -> (v < 2 ^ 128)%N -> str_uuid u = str_uuid v -> u = v.
Proof.
  intros Hu Hv H. unfold str_uuid in H.
  apply group_inj in H; try apply length_hex_digits.
  apply hex_digits_inj in H; [exact H| |];
    change (16 ^ N.of_nat 32)%N with (2 ^ 128)%N; assumption.
Qed.

Lemma rules_filename_eq_iff (u1 u2 : Z) (d1 d2 : datetime) :
  valid_datetime d1 -> valid_datetime d2 ->
  (TelegramOCRBot.filename u1 d1 = TelegramOCRBot.filename u2 d2
   <-> u1 = u2 /\ same_second d1 d2).
Proof.
  intros V1 V2. unfold TelegramOCRBot.filename. split.
  - intro H. apply app_inv_head in H.
    apply app_inj_length_r in H; [|reflexivity].
    destruct H as [Hu H]. apply str_int_inj in Hu.
    apply app_inv_head, app_inv_tail in H.
    split; [exact Hu | now apply strftime_underscore_inj].
  - intros [-> Hs]. apply same_second_strftime in Hs as [-> _].
    reflexivity.
Qed.

Lemma openai_filename_eq_iff (u1 u2 : Z) (d1 d2 : datetime) :
  valid_datetime d1 -> valid_datetime d2 ->
  (OpenAINotesBot.filename u1 d1 = OpenAINotesBot.filename u2 d2
   <-> u1 = u2 /\ same_second d1 d2).
Proof.
  intros V1 V2. unfold OpenAINotesBot.filename. split.
  - intro H. apply app_inj_length_r in H; [|reflexivity].
    destruct H as [Hu H]. apply str_int_inj in Hu.
    apply app_inv_tail in H.
    split; [exact Hu | now apply strftime_compact_inj].
  - intros [-> Hs]. apply same_second_strftime in Hs as [_ ->].
    reflexivity.
Qed.

Lemma google_filename_eq_iff (g1 g2 : N) (t1 t2 : Z) :
  (g1 < 2 ^ 128)%N -> (g2 < 2 ^ 128)%N ->
  (GoogleNotesBot.filename g1 t1 = GoogleNotesBot.filename g2 t2
   <-> g1 = g2 /\ t1 = t2).
Proof.
  intros B1 B2. unfold GoogleNotesBot.filename. split.
  - intro H. apply app_inv_head in H.
    apply app_inj_length_l in H;
      [|rewrite !length_str_uuid; reflexivity].
    destruct H as [Hg H]. apply str_uuid_inj in Hg; try assumption.
    apply app_inv_head, app_inv_tail, str_int_inj in H.
    split; assumption.
  - intros [-> ->]. reflexivity.
Qed.

(** The key of the one upload a run can make. *)
Lemma rules_put_key {U : Unicode} (e : TelegramOCRBot.env) (k : pystr) :
  In k (put_keys (TelegramOCRBot.handle_photo e)) ->
  k = TelegramOCRBot.filename (TelegramOCRBot.from_user_id e)
        (TelegramOCRBot.now_filename e).
Proof.
  unfold TelegramOCRBot.handle_photo.
  set (text := YandexVisionOCR.extract_text_from_image _).
  set (tags := NoteProcessor.extract_tags text).
  set (title := NoteProcessor.generate_title text _).
  set (name := TelegramOCRBot.filename _ _).
  destruct (TelegramOCRBot.download e) as [[file_path data]|];
    [|simpl; intros []].
  destruct (truthy text); [|simpl; intros []].
  destruct (startswith NoteProcessor.error_marker text);
    [simpl; intros []|].
  destruct (TelegramOCRBot.insert_result e);
    (simpl; intros [<- | []]; reflexivity).
Qed.

Lemma google_put_key {U : Unicode} (e : GoogleNotesBot.env) (k : pystr) :
  In k (put_keys (GoogleNotesBot.handle_photo e)) ->
  k = GoogleNotesBot.filename (GoogleNotesBot.uuid4 e)
        (GoogleNotesBot.now_timestamp e).
Proof.
  unfold GoogleNotesBot.handle_photo.
  set (text := GoogleNotesBot.extract_text_from_image _).
  set (tags := GoogleNotesBot.generate_tags_from_text text).
  set (title := GoogleNotesBot.generate_title_from_text text).
  set (name := GoogleNotesBot.filename _ _).
  destruct (GoogleNotesBot.download e) as [data|]; [|simpl; intros []].
  destruct (truthy text); [|simpl; intros []].
  destruct (GoogleNotesBot.upload_result e) as [[|c u]|];
    [simpl; intros [<- | []]; reflexivity
    | | simpl; intros [<- | []]; reflexivity].
  destruct (GoogleNotesBot.insert_result e);
    (simpl; intros [<- | []]; reflexivity).
Qed.

Lemma put_keys_app {msg row} (a b : list (effect msg row)) :
  put_keys (a ++ b) = put_keys a ++ put_keys b.
Proof. unfold put_keys. apply flat_map_app. Qed.

Lemma save_note_to_db_puts_nothing uid uname note_data url now
    insert_result tags_insert_ok :
  put_keys (fst (OpenAINotesBot.save_note_to_db uid uname note_data url now
                   insert_result tags_insert_ok)) = [].
Proof.
  unfold OpenAINotesBot.save_note_to_db.
  destruct (subscript note_data OpenAINotesBot.key_title);
    [|reflexivity].
  destruct (subscript note_data OpenAINotesBot.key_content);
    [|reflexivity].
  destruct insert_result; [|reflexivity].
  destruct (subscript note_data OpenAINotesBot.key_tags) as [tv|];
    [|reflexivity].
  destruct (json_truthy tv); [|reflexivity].
  destruct (iter_strings tv); [|reflexivity].
  destruct (map strip _); reflexivity.
Qed.

Lemma openai_put_key (e : OpenAINotesBot.env) (k : pystr) :
  In k (put_keys (OpenAINotesBot.handle_image e)) ->
  k = OpenAINotesBot.filename (OpenAINotesBot.effective_user_id e)
        (OpenAINotesBot.now_filename e).
Proof.
  unfold OpenAINotesBot.handle_image.
  set (uname := match OpenAINotesBot.effective_username e with
                | Some (c :: u) => c :: u
                | _ => _ end).
  set (name := OpenAINotesBot.filename _ _).
  destruct (OpenAINotesBot.download e) as [data|]; [|simpl; intros []].
  destruct (OpenAINotesBot.upload_result e) as [[|c u]|];
    try (simpl; intros [<- | []]; reflexivity).
  destruct (OpenAINotesBot.analyze_image_with_openai _ _) as [v|];
    [|simpl; intros [<- | []]; reflexivity].
  destruct (json_truthy v); [|simpl; intros [<- | []]; reflexivity].
  pose proof (save_note_to_db_puts_nothing
                (OpenAINotesBot.effective_user_id e) uname v (c :: u)
                (OpenAINotesBot.now_created e)
                (OpenAINotesBot.insert_result e)
                (OpenAINotesBot.tags_insert_ok e)) as Hs.
  destruct (OpenAINotesBot.save_note_to_db _ uname v (c :: u) _ _ _)
    as [effects saved].
  simpl in Hs.
  change (put_keys (?a :: ?b :: StorageUpload name data :: ?c :: ?d :: ?f
                      :: effects ++ ?g))
    with (name :: put_keys (effects ++ g)).
  rewrite put_keys_app, Hs.
  destruct saved; simpl; intros [<- | []]; reflexivity.
Qed.

End KeyLemmas.

Section KeyTheorems.

Import Spec Samples.

(** C2, as stated, fails in the rules-based variant: two runs of user 42
    whose clock readings differ by a quarter of a second are distinct runs
    and generate the same storage key. *)
Lemma C2_counterexample_same_second_same_key :
  let e1 := rules_run_at clock in
  let e2 := rules_run_at clock_later in
  e1 <> e2 /\
  put_keys (TelegramOCRBot.handle_photo (U := ascii_unicode) e1)
  = [py "screenshot_42_20250115_103007.jpg"] /\
  put_keys (TelegramOCRBot.handle_photo (U := ascii_unicode) e2)
  = [py "screenshot_42_20250115_103007.jpg"].
Proof.
  split; [|split; vm_compute; reflexivity].
  intro H. apply (f_equal TelegramOCRBot.now_filename) in H.
  discriminate H.
Qed.

(** C2, amended: two runs of the rules-based variant, and two runs of the
    AI variant, generate the same asset storage key exactly when they are
    for the same user id and their clock readings fall in the same second,
    so the keys are distinct whenever the users or the seconds differ; two
    runs of the vision-API variant generate the same key exactly when they
    drew the same random UUID in the same epoch second. *)
Theorem C2_keys_distinct_across_users_and_seconds {U : Unicode} :
  (forall (e1 e2 : TelegramOCRBot.env) k1 k2,
      valid_datetime (TelegramOCRBot.now_filename e1) ->
      valid_datetime (TelegramOCRBot.now_filename e2) ->
      In k1 (put_keys (TelegramOCRBot.handle_photo e1)) ->
      In k2 (put_keys (TelegramOCRBot.handle_photo e2)) ->
      (k1 = k2 <->
       TelegramOCRBot.from_user_id e1 = TelegramOCRBot.from_user_id e2 /\
       same_second (TelegramOCRBot.now_filename e1)
                   (TelegramOCRBot.now_filename e2))) /\
  (forall (e1 e2 : OpenAINotesBot.env) k1 k2,
      valid_datetime (OpenAINotesBot.now_filename e1) ->
      valid_datetime (OpenAINotesBot.now_filename e2) ->
      In k1 (put_keys (OpenAINotesBot.handle_image e1)) ->
      In k2 (put_keys (OpenAINotesBot.handle_image e2)) ->
      (k1 = k2 <->
       OpenAINotesBot.effective_user_id e1
       = OpenAINotesBot.effective_user_id e2 /\
       same_second (OpenAINotesBot.now_filename e1)
                   (OpenAINotesBot.now_filename e2))) /\
  (forall (e1 e2 : GoogleNotesBot.env) k1 k2,
      (GoogleNotesBot.uuid4 e1 < 2 ^ 128)%N ->
      (GoogleNotesBot.uuid4 e2 < 2 ^ 128)%N ->
      In k1 (put_keys (GoogleNotesBot.handle_photo e1)) ->
      In k2 (put_keys (GoogleNotesBot.handle_photo e2)) ->
      (k1 = k2 <->
       GoogleNotesBot.uuid4 e1 = GoogleNotesBot.uuid4 e2 /\
       GoogleNotesBot.now_timestamp e1 = GoogleNotesBot.now_timestamp e2)).
Proof.
  split; [|split].
  - intros e1 e2 k1 k2 V1 V2 H1 H2.
    apply rules_put_key in H1, H2. subst k1 k2.
    now apply rules_filename_eq_iff.
  - intros e1 e2 k1 k2 V1 V2 H1 H2.
    apply openai_put_key in H1, H2. subst k1 k2.
    now apply openai_filename_eq_iff.
  - intros e1 e2 k1 k2 B1 B2 H1 H2.
    apply google_put_key in H1, H2. subst k1 k2.
    now apply google_filename_eq_iff.
Qed.

Lemma C2_witness_next_second :
  let e1 := rules_run_at clock in
  let e2 := rules_run_at clock_next in
  let k1 := py "screenshot_42_20250115_103007.jpg" in
  let k2 := py "screenshot_42_20250115_103008.jpg" in
  valid_datetime clock /\ valid_datetime clock_next /\
  In k1 (put_keys (TelegramOCRBot.handle_photo (U := ascii_unicode) e1)) /\
  In k2 (put_keys (TelegramOCRBot.handle_photo (U := ascii_unicode) e2)) /\
  (k1 = k2 <-> 42%Z = 42%Z /\ same_second clock clock_next).
Proof.
  intros e1 e2 k1 k2.
  assert (V1 : valid_datetime clock)
    by (unfold valid_datetime; simpl; lia).
  assert (V2 : valid_datetime clock_next)
    by (unfold valid_datetime; simpl; lia).
  assert (H1 : In k1 (put_keys (TelegramOCRBot.handle_photo
                                  (U := ascii_unicode) e1)))
    by (left; reflexivity).
  assert (H2 : In k2 (put_keys (TelegramOCRBot.handle_photo
                                  (U := ascii_unicode) e2)))
    by (left; reflexivity).
  split; [exact V1|]. split; [exact V2|].
  split; [exact H1|]. split; [exact H2|].
  exact (proj1 (C2_keys_distinct_across_users_and_seconds
                  (U := ascii_unicode)) e1 e2 k1 k2 V1 V2 H1 H2).
Defined.

End KeyTheorems.

(** ** More about strings *)

Section MoreStrings.

Import Notions.

Lemma lstrip_split (s : pystr) :
  exists sp, s = sp ++ lstrip s /\ forallb isspace sp = true.
Proof.
  induction s as [|c s (sp & Hs & Hsp)]; [exists []; split; reflexivity|].
  simpl. destruct (isspace c) eqn:E.
  - exists (c :: sp). simpl. rewrite E, Hsp. split; [f_equal; exact Hs|].
    reflexivity.
  - exists []. split; reflexivity.
Qed.

Lemma lstrip_starts_clean (s : pystr) : starts_clean (lstrip s) = true.
Proof.
  induction s as [|c s IH]; [reflexivity|]. simpl.
  destruct (isspace c) eqn:E; [exact IH|]. simpl. rewrite E. reflexivity.
Qed.

Lemma lstrip_clean (s : pystr) : starts_clean s = true -> lstrip s = s.
Proof.
  destruct s as [|c s]; [reflexivity|]. simpl.
  destruct (isspace c); [discriminate | reflexivity].
Qed.

Lemma rstrip_split (s : pystr) :
  exists sp, s = rstrip s ++ sp /\ forallb isspace sp = true.
Proof.
  unfold rstrip. destruct (lstrip_split (rev s)) as (sp & Hs & Hsp).
  exists (rev sp). split.
  - rewrite <- (rev_involutive s), Hs at 1. rewrite rev_app_distr.
    reflexivity.
  - rewrite forallb_forall in *. intros c Hc. apply Hsp.
    apply in_rev. exact Hc.
Qed.

Lemma rstrip_ends_clean (s : pystr) : starts_clean (rev (rstrip s)) = true.
Proof.
  unfold rstrip. rewrite rev_involutive. apply lstrip_starts_clean.
Qed.

Lemma rstrip_keeps_start (s : pystr) :
  starts_clean s = true -> starts_clean (rstrip s) = true.
Proof.
  intro H. destruct (rstrip_split s) as (sp & Hs & _).
  destruct (rstrip s) as [|c r]; [reflexivity|].
  rewrite Hs in H. exact H.
Qed.

(** [s.strip()] has no white space at either end. *)
Lemma strip_is_trimmed (s : pystr) : is_trimmed (strip s) = true.
Proof.
  unfold is_trimmed, strip. apply andb_true_iff. split.
  - apply rstrip_keeps_start, lstrip_starts_clean.
  - apply rstrip_ends_clean.
Qed.

(** A string without white space at its ends is left as it is. *)
Lemma strip_trimmed (s : pystr) : is_trimmed s = true -> strip s = s.
Proof.
  unfold is_trimmed, strip. intro H.
  apply andb_true_iff in H as [H1 H2].
  rewrite (lstrip_clean s H1). unfold rstrip.
  rewrite (lstrip_clean (rev s) H2). apply rev_involutive.
Qed.

Lemma strip_idempotent (s : pystr) : strip (strip s) = strip s.
Proof. apply strip_trimmed, strip_is_trimmed. Qed.

(** What [strip] removes is white space. *)
Lemma strip_split (s : pystr) :
  exists l r, s = l ++ strip s ++ r /\
              forallb isspace l = true /\ forallb isspace r = true.
Proof.
  destruct (lstrip_split s) as (l & Hl & Hlsp).
  destruct (rstrip_split (lstrip s)) as (r & Hr & Hrsp).
  exists l, r. unfold strip. rewrite <- Hr. auto.
Qed.

Lemma strip_app_spaces (s sp : pystr) :
  forallb isspace sp = true -> strip (s ++ sp) = strip s.
Proof.
  intro Hsp. unfold strip.
  assert (Hr : forall t, rstrip (t ++ sp) = rstrip t).
  { intro t. unfold rstrip. rewrite rev_app_distr. f_equal.
    assert (Hrev : forallb isspace (rev sp) = true).
    { rewrite forallb_forall in *. intros c Hc. apply Hsp, in_rev, Hc. }
    revert Hrev. generalize (rev sp) as q.
    induction q as [|c q IH]; simpl; intro H; [reflexivity|].
    apply andb_true_iff in H as [Hc Hq]. rewrite Hc. apply IH, Hq. }
  destruct (lstrip_split s) as (l & Hl & Hlsp).
  destruct (lstrip s) as [|c t] eqn:E.
  - (* [s] is white space only *)
    rewrite app_nil_r in Hl. subst l.
    rewrite lstrip_whitespace_only.
    + reflexivity.
    + rewrite forallb_app, Hlsp, Hsp. reflexivity.
  - assert (Hls : lstrip (s ++ sp) = (c :: t) ++ sp).
    { rewrite Hl at 1. rewrite <- app_assoc.
      clear Hl. induction l as [|x l IH]; simpl in *.
      - assert (Hc : starts_clean (c :: t) = true)
          by (rewrite <- E; apply lstrip_starts_clean).
        simpl in Hc. destruct (isspace c); [discriminate | reflexivity].
      - apply andb_true_iff in Hlsp as [Hx Hlsp]. rewrite Hx.
        apply IH, Hlsp. }
    rewrite Hls. apply Hr.
Qed.

Lemma contains_startswith (p s : pystr) :
  startswith p s = true -> contains p s = true.
Proof. intro H. destruct s; simpl; rewrite H; reflexivity. Qed.

Lemma occurs_in_contains (p s : pystr) :
  occurs_in p s -> contains p s = true.
Proof.
  intros (before & after & ->).
  induction before as [|c before IH].
  - simpl app. apply contains_startswith, startswith_app.
  - simpl. rewrite IH. apply orb_true_r.
Qed.

Lemma contains_occurs_in (p s : pystr) :
  contains p s = true -> occurs_in p s.
Proof.
  induction s as [|c s IH]; simpl; intro H.
  - rewrite orb_false_r in H. apply startswith_prefix in H as [r Hr].
    exists [], r. exact Hr.
  - apply orb_true_iff in H as [H | H].
    + apply startswith_prefix in H as [r Hr]. exists [], r. exact Hr.
    + destruct (IH H) as (before & after & ->).
      exists (c :: before), after. reflexivity.
Qed.

End MoreStrings.

(** ** More about the rules-based structuring *)

Section ExtraRulesBased.

Import YandexVisionOCR NoteProcessor Spec Notions Samples.

Lemma handle_exception_trimmed (e : exn) :
  is_trimmed (handle_exception e) = true.
Proof.
  destruct e as [[status|]| | | |]; try reflexivity.
  unfold handle_exception; simpl.
  destruct (status =? 401)%Z; [reflexivity|].
  destruct (status =? 403)%Z; reflexivity.
Qed.

Lemma read_result_trimmed (v : ocr_json) : is_trimmed (read_result v) = true.
Proof.
  unfold read_result.
  destruct (result v) as [r|]; [|reflexivity].
  destruct (textAnnotation r) as [a|]; [|reflexivity].
  destruct (truthy _); [apply strip_is_trimmed|].
  destruct (truthy _); [apply strip_is_trimmed | reflexivity].
Qed.

(** X1: whatever the OCR request does, the string
    [extract_text_from_image] returns has no white space at its start or
    its end. *)
Theorem X1_extracted_text_is_trimmed (post : post_outcome) :
  is_trimmed (extract_text_from_image post) = true /\
  strip (extract_text_from_image post) = extract_text_from_image post.
Proof.
  assert (H : is_trimmed (extract_text_from_image post) = true).
  { destruct post as [e | status_code body]; simpl.
    - apply handle_exception_trimmed.
    - destruct (status_code =? 401)%Z; [reflexivity|].
      destruct (raise_for_status status_code);
        [apply handle_exception_trimmed|].
      destruct body; [apply handle_exception_trimmed
                     | apply read_result_trimmed]. }
  split; [exact H | apply strip_trimmed, H].
Qed.

Lemma forallb_firstn {A} (p : A -> bool) (n : nat) (l : list A) :
  forallb p l = true -> forallb p (firstn n l) = true.
Proof.
  revert n; induction l as [|x l IH]; intros [|n] H; try reflexivity.
  simpl in *. apply andb_true_iff in H as [Hx Hl].
  rewrite Hx, (IH n Hl). reflexivity.
Qed.

Lemma forallb_slice_to (p : char -> bool) (k : Z) (s : pystr) :
  forallb p s = true -> forallb p (slice_to k s) = true.
Proof.
  intro H. unfold slice_to. destruct (0 <=? k)%Z; now apply forallb_firstn.
Qed.

(** The characters of a collapsed string are plain spaces and the
    characters of the original that are not white space. *)
Lemma re_sub_ws_chars (s : pystr) :
  forall skipping c,
    In c (re_sub_ws_from skipping s) ->
    c = 32%N \/ (In c s /\ isspace c = false).
Proof.
  induction s as [|x s IH]; intros skipping c; simpl; [intros []|].
  destruct (isspace x) eqn:E.
  - destruct skipping.
    + intro H. destruct (IH _ _ H) as [-> | [Hin Hc]]; auto.
    + intros [<- | H]; [left; reflexivity|].
      destruct (IH _ _ H) as [-> | [Hin Hc]]; auto.
  - intros [<- | H]; [right; auto|].
    destruct (IH _ _ H) as [-> | [Hin Hc]]; auto.
Qed.

Lemma re_sub_ws_single_line (s : pystr) : single_line (re_sub_ws s) = true.
Proof.
  unfold single_line, re_sub_ws. apply forallb_forall. intros c Hc.
  apply re_sub_ws_chars in Hc as [-> | [_ Hc]]; [reflexivity|].
  rewrite Hc. reflexivity.
Qed.

(** X2: a title has no line break: every white-space character of the
    string [generate_title] returns is a plain space, for every content and
    every maximum. *)
Theorem X2_title_is_single_line (content : pystr) (max_length : Z) :
  single_line (generate_title content max_length) = true.
Proof.
  unfold generate_title.
  destruct (negb (truthy content) || startswith error_marker content);
    [reflexivity|].
  assert (Hf : single_line (first_sentence content max_length) = true)
    by apply re_sub_ws_single_line.
  set (title := first_sentence content max_length) in *.
  cbv zeta. destruct (len title >? max_length)%Z.
  - assert (Ht : single_line (slice_to (max_length - 3) title ++ ellipsis)
                 = true).
    { unfold single_line in *. rewrite forallb_app.
      rewrite (forallb_slice_to _ _ _ Hf). reflexivity. }
    destruct (truthy _); [exact Ht | reflexivity].
  - destruct (truthy title); [exact Hf | reflexivity].
Qed.

(** The pieces of [re.split] hold no separator. *)
Lemma re_split_pieces_clean (s : pystr) :
  forall skipping piece,
    In piece (re_split_from skipping s) ->
    forallb (fun c => negb (is_sentence_end c)) piece = true.
Proof.
  induction s as [|c s IH]; intros skipping piece; simpl.
  - intros [<- | []]. reflexivity.
  - destruct (is_sentence_end c) eqn:E.
    + destruct skipping; [apply IH|].
      intros [<- | H]; [reflexivity | eapply IH, H].
    + pose proof (IH false) as IHf.
      destruct (re_split_from false s) as [|p ps].
      * intros [<- | []]. simpl. rewrite E. reflexivity.
      * intros [<- | H].
        -- simpl. rewrite E. simpl. apply IHf. left. reflexivity.
        -- apply IHf. right. exact H.
Qed.

(** [re.split] returns at least one piece. *)
Lemma re_split_nonempty (s : pystr) :
  forall skipping, re_split_from skipping s <> [].
Proof.
  induction s as [|c s IH]; intro skipping; simpl; [discriminate|].
  destruct (is_sentence_end c);
    [destruct skipping; [apply IH | discriminate]|].
  destruct (re_split_from false s); discriminate.
Qed.

Lemma forallb_strip (p : char -> bool) (s : pystr) :
  forallb p s = true -> forallb p (strip s) = true.
Proof.
  intro H. destruct (strip_split s) as (l & r & Hs & _).
  rewrite Hs, !forallb_app in H.
  apply andb_true_iff in H as [_ H]. apply andb_true_iff in H as [H _].
  exact H.
Qed.

(** X3: the title stops at the first sentence: the title before
    truncation holds none of the characters . ! ? and newline, so a title
    that is not truncated holds none either. *)
Theorem X3_title_stops_at_first_sentence (content : pystr) (max_length : Z) :
  forallb (fun c => negb (is_sentence_end c))
          (first_sentence content max_length) = true /\
  (content <> [] -> startswith error_marker content = false ->
   (len (first_sentence content max_length) <= max_length)%Z ->
   forallb (fun c => negb (is_sentence_end c))
           (generate_title content max_length) = true).
Proof.
  assert (Hf : forallb (fun c => negb (is_sentence_end c))
                 (first_sentence content max_length) = true).
  { unfold first_sentence.
    pose proof (re_split_pieces_clean (strip content) false) as Hp.
    unfold re_split_sentences.
    destruct (re_split_from false (strip content)) as [|s0 rest] eqn:E.
    - exfalso. exact (re_split_nonempty _ _ E).
    - apply forallb_forall. intros c Hc.
      apply re_sub_ws_chars in Hc as [-> | [Hin _]]; [reflexivity|].
      assert (Hs0 : forallb (fun c => negb (is_sentence_end c)) (strip s0)
                    = true).
      { apply forallb_strip, Hp. left. reflexivity. }
      rewrite forallb_forall in Hs0. apply Hs0, Hin. }
  split; [exact Hf|].
  intros Hne Herr Hlen. rewrite generate_title_ordinary by assumption.
  cbv zeta.
  replace (len (first_sentence content max_length) >? max_length)%Z
    with false.
  - destruct (truthy _); [exact Hf | reflexivity].
  - symmetry. destruct (Z.gtb_spec (len (first_sentence content max_length))
                          max_length); [lia | reflexivity].
Qed.

Lemma X3_witness_invoice :
  invoice <> [] /\ startswith error_marker invoice = false /\
  (len (first_sentence invoice default_max_length) <= default_max_length)%Z /\
  forallb (fun c => negb (is_sentence_end c))
          (generate_title invoice default_max_length) = true.
Proof.
  assert (H1 : invoice <> []) by discriminate.
  assert (H2 : startswith error_marker invoice = false) by reflexivity.
  assert (H3 : (len (first_sentence invoice default_max_length)
                <= default_max_length)%Z) by (vm_compute; discriminate).
  split; [exact H1|]. split; [exact H2|]. split; [exact H3|].
  exact (proj2 (X3_title_stops_at_first_sentence invoice default_max_length)
           H1 H2 H3).
Defined.

Section Hashtags.

Context {U : Unicode}.

(** The matches of [#\w+], read off the scanner: each is [#] followed by
    word characters, at least one, and it occurs in the text. *)
Lemma findall_hashtags_from_spec (s : pystr) :
  forall cur h,
    match cur with Some w => forallb isword w = true | None => True end ->
    In h (findall_hashtags_from cur s) ->
    (exists w, h = hash :: w /\ w <> [] /\ forallb isword w = true) /\
    occurs_in h (match cur with Some w => hash :: w | None => [] end ++ s).
Proof.
  assert (Hflush : forall w rest h,
             forallb isword w = true ->
             In h (flush_hashtag (Some w)) ->
             (exists w', h = hash :: w' /\ w' <> [] /\
                         forallb isword w' = true) /\
             occurs_in h ((hash :: w) ++ rest)).
  { intros [|c w] rest h Hw; simpl; [intros []|]. intros [<- | []].
    split; [exists (c :: w); repeat split; [discriminate | exact Hw]|].
    exists [], rest. reflexivity. }
  induction s as [|c s IH]; intros cur h Hcur; simpl.
  - destruct cur as [w|]; [apply Hflush, Hcur | intros []].
  - assert (Hrestart :
      In h (findall_hashtags_from
              (if char_eqb c hash then Some [] else None) s) ->
      (exists w, h = hash :: w /\ w <> [] /\ forallb isword w = true) /\
      occurs_in h (c :: s)).
    { intro H. destruct (char_eqb c hash) eqn:E.
      - apply N.eqb_eq in E. subst c.
        apply IH in H; [exact H | reflexivity].
      - apply IH in H; [|exact I]. destruct H as [Hw (b & a & Hs)].
        split; [exact Hw|]. simpl in Hs. exists (c :: b), a.
        rewrite Hs. reflexivity. }
    assert (Hshift : forall pre,
      occurs_in h (c :: s) -> occurs_in h (pre ++ c :: s)).
    { intros pre (b & a & Hs). exists (pre ++ b), a.
      rewrite Hs, <- app_assoc. reflexivity. }
    destruct cur as [w|].
    + destruct (isword c) eqn:Ec.
      * intro H. apply IH in H.
        -- destruct H as [Hw Ho]. split; [exact Hw|].
           simpl in Ho. rewrite <- app_assoc in Ho. exact Ho.
        -- rewrite forallb_app, Hcur. simpl. rewrite Ec. reflexivity.
      * intro H. apply in_app_or in H as [H | H].
        -- apply Hflush; assumption.
        -- destruct (Hrestart H) as [Hw Ho]. split; [exact Hw|].
           apply (Hshift (hash :: w)), Ho.
    + intro H. apply Hrestart, H.
Qed.

End Hashtags.

End ExtraRulesBased.

(** ** More about tags and runs of the rules-based variant *)

Section ExtraTags.

Import NoteProcessor Spec Notions Samples.

Context {U : Unicode}.

(** X4: for a content that is neither empty nor an error marker, a tag is
    returned by [extract_tags] exactly when it is a category of the table
    one of whose patterns occurs in the lowered content, or the lowered
    word of a hashtag found in the content. *)
Theorem X4_tags_are_categories_and_hashtags (content x : pystr) :
  content <> [] ->
  startswith error_marker content = false ->
  (In x (extract_tags content) <->
   (exists patterns pattern,
       In (x, patterns) tag_patterns /\ In pattern patterns /\
       contains pattern (lower content) = true)
   \/ (exists w, In (hash :: w) (findall_hashtags content) /\ x = lower w)).
Proof.
  intros Hne Herr. unfold extract_tags.
  apply truthy_true_iff in Hne. rewrite Hne, Herr. cbn [negb orb].
  unfold list_set. rewrite nodup_In, in_app_iff, matched_categories_iff.
  apply or_iff_compat_l. rewrite in_map_iff. split.
  - intros (h & <- & Hh).
    destruct (findall_hashtags_from_spec content None h I Hh)
      as [(w & -> & _) _].
    exists w. split; [exact Hh | reflexivity].
  - intros (w & Hh & ->). exists (hash :: w). split; [reflexivity | exact Hh].
Qed.

(** X5: [re.findall(r'#\w+', content)] never invents a hashtag: every match
    is [#] followed by one or more word characters and occurs in the
    content. *)
Theorem X5_hashtags_occur_in_content (content h : pystr) :
  In h (findall_hashtags content) ->
  (exists w, h = hash :: w /\ w <> [] /\ forallb isword w = true) /\
  contains h content = true.
Proof.
  intro H.
  destruct (findall_hashtags_from_spec content None h I H) as [Hw Ho].
  split; [exact Hw | apply occurs_in_contains, Ho].
Qed.

End ExtraTags.

Section ExtraTagsWitnesses.

Import NoteProcessor Spec Notions Samples.

Lemma X4_witness_invoice :
  let finance := py "finance" in
  invoice <> [] /\ startswith error_marker invoice = false /\
  In finance (extract_tags (U := ascii_unicode) invoice).
Proof.
  intro finance.
  assert (H1 : invoice <> []) by discriminate.
  assert (H2 : startswith error_marker invoice = false) by reflexivity.
  split; [exact H1|]. split; [exact H2|].
  apply (proj2 (X4_tags_are_categories_and_hashtags (U := ascii_unicode)
                  invoice finance H1 H2)).
  left. exists (map py ["invoice"; "payment"; "bill"; "$"; "€"; "₽";
                        "price"; "cost"]%string), (py "invoice").
  split; [|split]; [vm_compute; tauto | left; reflexivity | reflexivity].
Defined.

Lemma X5_witness_invoice :
  let h := py "#4521" in
  In h (findall_hashtags (U := ascii_unicode) invoice) /\
  contains h invoice = true.
Proof.
  intro h.
  assert (H : In h (findall_hashtags (U := ascii_unicode) invoice))
    by (left; reflexivity).
  split; [exact H|].
  exact (proj2 (X5_hashtags_occur_in_content (U := ascii_unicode)
                  invoice h H)).
Defined.

End ExtraTagsWitnesses.

Section ExtraRulesRuns.

Import YandexVisionOCR NoteProcessor Spec Notions Samples.

Context {U : Unicode}.

(** X6: every row [handle_photo] saves holds the extracted text unchanged
    as its content, and that text is neither empty nor an error marker; the
    title is the generated one, non-empty and at most 50 characters long;
    the row belongs to the sender and carries what the upload returned. *)
Theorem X6_saved_row_holds_extracted_text (e : TelegramOCRBot.env)
    (r : TelegramOCRBot.note_row) :
  In r (saved_rows (TelegramOCRBot.handle_photo e)) ->
  TelegramOCRBot.content r
  = extract_text_from_image (TelegramOCRBot.ocr_post e) /\
  TelegramOCRBot.content r <> [] /\
  startswith error_marker (TelegramOCRBot.content r) = false /\
  TelegramOCRBot.title r
  = generate_title (TelegramOCRBot.content r) default_max_length /\
  TelegramOCRBot.title r <> [] /\
  (len (TelegramOCRBot.title r) <= 50)%Z /\
  TelegramOCRBot.tags r = extract_tags (TelegramOCRBot.content r) /\
  TelegramOCRBot.user_id r = TelegramOCRBot.from_user_id e /\
  TelegramOCRBot.image_url r = TelegramOCRBot.upload_result e.
Proof.
  unfold TelegramOCRBot.handle_photo.
  set (text := extract_text_from_image _).
  destruct (TelegramOCRBot.download e) as [[file_path data]|];
    [|simpl; intros []].
  destruct (truthy text) eqn:Ht; [|simpl; intros []].
  destruct (startswith error_marker text) eqn:He; [simpl; intros []|].
  apply truthy_true_iff in Ht.
  destruct (ordinary_title_bounds text default_max_length Ht He)
    as [Hn Hl]; [unfold default_max_length; lia|].
  set (tags := extract_tags text).
  set (title := generate_title text default_max_length) in *.
  destruct (TelegramOCRBot.insert_result e);
    (simpl; intros [<- | []]; simpl; repeat split; assumption).
Qed.

(** X7: a failed upload does not stop [handle_photo]: when the text was
    extracted and the upload returns nothing, the note is still saved,
    without an image URL. *)
Theorem X7_note_saved_without_image (e : TelegramOCRBot.env)
    (file_path : pystr) (data : bytes) :
  TelegramOCRBot.download e = Some (file_path, data) ->
  extract_text_from_image (TelegramOCRBot.ocr_post e) <> [] ->
  startswith error_marker
    (extract_text_from_image (TelegramOCRBot.ocr_post e)) = false ->
  TelegramOCRBot.upload_result e = None ->
  map TelegramOCRBot.image_url
      (saved_rows (TelegramOCRBot.handle_photo e)) = [None] /\
  map TelegramOCRBot.content
      (saved_rows (TelegramOCRBot.handle_photo e))
  = [extract_text_from_image (TelegramOCRBot.ocr_post e)].
Proof.
  unfold TelegramOCRBot.handle_photo.
  set (text := extract_text_from_image _).
  intros Hd Ht He Hu. rewrite Hd, He, Hu.
  apply truthy_true_iff in Ht. rewrite Ht.
  set (tags := extract_tags text).
  set (title := generate_title text default_max_length).
  destruct (TelegramOCRBot.insert_result e); split; reflexivity.
Qed.

End ExtraRulesRuns.

Section ExtraRulesRunsWitnesses.

Import YandexVisionOCR NoteProcessor Spec Notions Samples MoreSamples.

Lemma X7_witness_upload_fails :
  map TelegramOCRBot.image_url
      (saved_rows (TelegramOCRBot.handle_photo (U := ascii_unicode)
                     rules_run_upload_fails)) = [None].
Proof.
  apply (proj1 (X7_note_saved_without_image (U := ascii_unicode)
                  rules_run_upload_fails (py "photos/file_1.jpg") jpeg
                  eq_refl ltac:(discriminate) eq_refl eq_refl)).
Defined.

Lemma X6_witness_invoice_run :
  let e := rules_run_at clock in
  exists r,
    In r (saved_rows (TelegramOCRBot.handle_photo (U := ascii_unicode) e)) /\
    TelegramOCRBot.content r = invoice.
Proof.
  intro e.
  assert (Hin : exists r,
             In r (saved_rows
                     (TelegramOCRBot.handle_photo (U := ascii_unicode) e))).
  { eexists. left. reflexivity. }
  destruct Hin as [r Hr]. exists r. split; [exact Hr|].
  exact (proj1 (X6_saved_row_holds_extracted_text (U := ascii_unicode)
                  e r Hr)).
Defined.

End ExtraRulesRunsWitnesses.

(** ** The stages of a run *)

Section ExtraStages.

Import Spec Notions.

Context {U : Unicode}.

Lemma save_note_to_db_stages uid uname note_data url now
    insert_result tags_insert_ok :
  let effects :=
    fst (OpenAINotesBot.save_note_to_db uid uname note_data url now
           insert_result tags_insert_ok) in
  In (stages effects) [[]; [Save]; [Save; SaveTags]] /\
  backend_bytes effects = [] /\ stored_bytes effects = [].
Proof.
  unfold OpenAINotesBot.save_note_to_db.
  destruct (subscript note_data OpenAINotesBot.key_title);
    [|simpl; tauto].
  destruct (subscript note_data OpenAINotesBot.key_content);
    [|simpl; tauto].
  destruct insert_result; [|simpl; tauto].
  destruct (subscript note_data OpenAINotesBot.key_tags) as [tv|];
    [|simpl; tauto].
  destruct (json_truthy tv); [|simpl; tauto].
  destruct (iter_strings tv); [|simpl; tauto].
  destruct (map strip _); simpl; tauto.
Qed.

(** X8: no stage is repeated and none runs out of order.  A run of the
    rules-based handler extracts, then stores the asset and saves the note
    (always both, or neither); a run of the vision-API handler extracts,
    stores, saves, and may stop after each stage; a run of the AI handler
    stores first, then analyses, then saves the note and last its tags. *)
Theorem X8_stages_in_order_at_most_once :
  (forall e : TelegramOCRBot.env,
      In (stages (TelegramOCRBot.handle_photo e))
         [[]; [Extract]; [Extract; Put; Save]]) /\
  (forall e : GoogleNotesBot.env,
      In (stages (GoogleNotesBot.handle_photo e))
         [[]; [Extract]; [Extract; Put]; [Extract; Put; Save]]) /\
  (forall e : OpenAINotesBot.env,
      In (stages (OpenAINotesBot.handle_image e))
         [[]; [Put]; [Put; Extract]; [Put; Extract; Save];
          [Put; Extract; Save; SaveTags]]).
Proof.
  split; [|split].
  - intro e. unfold TelegramOCRBot.handle_photo.
    set (text := YandexVisionOCR.extract_text_from_image _).
    set (tags := NoteProcessor.extract_tags text).
    set (title := NoteProcessor.generate_title text _).
    destruct (TelegramOCRBot.download e) as [[file_path data]|];
      [|simpl; tauto].
    destruct (truthy text); [|simpl; tauto].
    destruct (startswith NoteProcessor.error_marker text); [simpl; tauto|].
    destruct (TelegramOCRBot.insert_result e); simpl; tauto.
  - intro e. unfold GoogleNotesBot.handle_photo.
    set (text := GoogleNotesBot.extract_text_from_image _).
    set (tags := GoogleNotesBot.generate_tags_from_text text).
    set (title := GoogleNotesBot.generate_title_from_text text).
    destruct (GoogleNotesBot.download e) as [data|]; [|simpl; tauto].
    destruct (truthy text); [|simpl; tauto].
    destruct (GoogleNotesBot.upload_result e) as [[|c u]|];
      try (simpl; tauto).
    destruct (GoogleNotesBot.insert_result e); simpl; tauto.
  - intro e. unfold OpenAINotesBot.handle_image.
    set (uname := match OpenAINotesBot.effective_username e with
                  | Some (c :: u) => c :: u
                  | _ => _ end).
    destruct (OpenAINotesBot.download e) as [data|]; [|simpl; tauto].
    destruct (OpenAINotesBot.upload_result e) as [[|c u]|];
      try (simpl; tauto).
    destruct (OpenAINotesBot.analyze_image_with_openai _ _) as [v|];
      [|simpl; tauto].
    destruct (json_truthy v); [|simpl; tauto].
    pose proof (save_note_to_db_stages
                  (OpenAINotesBot.effective_user_id e) uname v (c :: u)
                  (OpenAINotesBot.now_created e)
                  (OpenAINotesBot.insert_result e)
                  (OpenAINotesBot.tags_insert_ok e)) as (Hs & _ & _).
    destruct (OpenAINotesBot.save_note_to_db _ uname v (c :: u) _ _ _)
      as [effects saved].
    simpl in Hs.
    assert (Hst : forall tail : OpenAINotesBot.trace,
               stages tail = [] ->
               stages (Send OpenAINotesBot.processing
                       :: Send OpenAINotesBot.uploading
                       :: StorageUpload
                            (OpenAINotesBot.filename
                               (OpenAINotesBot.effective_user_id e)
                               (OpenAINotesBot.now_filename e)) data
                       :: Send OpenAINotesBot.analyzing
                       :: BackendCall None data
                       :: Send OpenAINotesBot.saving
                       :: effects ++ tail)
               = Put :: Extract :: stages effects).
    { intros tail Ht. unfold stages at 1. simpl.
      rewrite flat_map_app. fold (stages effects). fold (stages tail).
      rewrite Ht, app_nil_r. reflexivity. }
    rewrite Hst by (destruct saved; reflexivity).
    destruct Hs as [<- | [<- | [<- | []]]]; simpl; tauto.
Qed.

End ExtraStages.

(** ** More about the vision-API variant *)

Section ExtraSameBytes.

Import Spec Notions Samples.

Context {U : Unicode}.

(** X9: the bytes a run stores are the bytes it sent to the extraction
    backend: in each variant, whenever a run both calls the backend and
    uploads, the two byte strings are the same download. *)
Theorem X9_stored_bytes_are_extracted_bytes :
  (forall (e : TelegramOCRBot.env) d1 d2,
      In d1 (backend_bytes (TelegramOCRBot.handle_photo e)) ->
      In d2 (stored_bytes (TelegramOCRBot.handle_photo e)) -> d1 = d2) /\
  (forall (e : GoogleNotesBot.env) d1 d2,
      In d1 (backend_bytes (GoogleNotesBot.handle_photo e)) ->
      In d2 (stored_bytes (GoogleNotesBot.handle_photo e)) -> d1 = d2) /\
  (forall (e : OpenAINotesBot.env) d1 d2,
      In d1 (backend_bytes (OpenAINotesBot.handle_image e)) ->
      In d2 (stored_bytes (OpenAINotesBot.handle_image e)) -> d1 = d2).
Proof.
  split; [|split].
  - intros e d1 d2. unfold TelegramOCRBot.handle_photo.
    set (text := YandexVisionOCR.extract_text_from_image _).
    set (tags := NoteProcessor.extract_tags text).
    set (title := NoteProcessor.generate_title text _).
    destruct (TelegramOCRBot.download e) as [[file_path data]|];
      [|simpl; intros []].
    destruct (truthy text); [|simpl; intros _ []].
    destruct (startswith NoteProcessor.error_marker text);
      [simpl; intros _ []|].
    destruct (TelegramOCRBot.insert_result e);
      (simpl; intros [<- | []] [<- | []]; reflexivity).
  - intros e d1 d2. unfold GoogleNotesBot.handle_photo.
    set (text := GoogleNotesBot.extract_text_from_image _).
    set (tags := GoogleNotesBot.generate_tags_from_text text).
    set (title := GoogleNotesBot.generate_title_from_text text).
    destruct (GoogleNotesBot.download e) as [data|]; [|simpl; intros []].
    destruct (truthy text); [|simpl; intros _ []].
    destruct (GoogleNotesBot.upload_result e) as [[|c u]|];
      [simpl; intros [<- | []] [<- | []]; reflexivity
      | | simpl; intros [<- | []] [<- | []]; reflexivity].
    destruct (GoogleNotesBot.insert_result e);
      (simpl; intros [<- | []] [<- | []]; reflexivity).
  - intros e d1 d2. unfold OpenAINotesBot.handle_image.
    set (uname := match OpenAINotesBot.effective_username e with
                  | Some (c :: u) => c :: u
                  | _ => _ end).
    destruct (OpenAINotesBot.download e) as [data|]; [|simpl; intros []].
    destruct (OpenAINotesBot.upload_result e) as [[|c u]|];
      [simpl; intros [] | | simpl; intros []].
    destruct (OpenAINotesBot.analyze_image_with_openai _ _) as [v|];
      [|simpl; intros [<- | []] [<- | []]; reflexivity].
    destruct (json_truthy v);
      [|simpl; intros [<- | []] [<- | []]; reflexivity].
    pose proof (save_note_to_db_stages
                  (OpenAINotesBot.effective_user_id e) uname v (c :: u)
                  (OpenAINotesBot.now_created e)
                  (OpenAINotesBot.insert_result e)
                  (OpenAINotesBot.tags_insert_ok e)) as (_ & Hb & Hs).
    destruct (OpenAINotesBot.save_note_to_db _ uname v (c :: u) _ _ _)
      as [effects saved].
    simpl in Hb, Hs.
    unfold backend_bytes, stored_bytes in *. simpl.
    rewrite !flat_map_app, Hb, Hs.
    destruct saved; simpl; intros [<- | []] [<- | []]; reflexivity.
Qed.

End ExtraSameBytes.

Section ExtraGoogle.

Import Spec Notions Samples.

Context {U : Unicode}.

(** The words of [s.split()] are not empty and hold no white space. *)
Lemma split_ws_words (s : pystr) :
  forall w, In w (split_ws s) ->
            w <> [] /\ forallb (fun c => negb (isspace c)) w = true.
Proof.
  induction s as [|c s IH]; intros w; simpl; [intros []|].
  destruct (isspace c) eqn:Ec; [apply IH|].
  assert (Hc : forall p, forallb (fun c => negb (isspace c)) p = true ->
                         forallb (fun c => negb (isspace c)) (c :: p) = true).
  { intros p Hp. simpl. rewrite Ec, Hp. reflexivity. }
  destruct s as [|d s'].
  - intros [<- | []]. split; [discriminate | apply Hc; reflexivity].
  - destruct (isspace d) eqn:Ed.
    + intros [<- | H]; [split; [discriminate | apply Hc; reflexivity]|].
      apply IH, H.
    + destruct (split_ws (d :: s')) as [|p ps] eqn:E.
      * intros [<- | []]. split; [discriminate | apply Hc; reflexivity].
      * intros [<- | H].
        -- split; [discriminate|]. apply Hc, IH. left. reflexivity.
        -- apply IH. right. exact H.
Qed.

Lemma join_chars (sep : pystr) (parts : list pystr) (c : char) :
  In c (join sep parts) -> In c sep \/ exists p, In p parts /\ In c p.
Proof.
  induction parts as [|p rest IH]; simpl; [intros []|].
  destruct rest as [|q rest].
  - intro H. right. exists p. auto.
  - intro H. apply in_app_or in H as [H | H];
      [right; exists p; auto|].
    apply in_app_or in H as [H | H]; [left; exact H|].
    destruct (IH H) as [Hs | (p' & Hp & Hc)]; [left; exact Hs|].
    right. exists p'. split; [right; exact Hp | exact Hc].
Qed.

Lemma first_topic_names (table : list (pystr * list pystr))
    (text_lower topic : pystr) :
  GoogleNotesBot.first_topic table text_lower = Some topic ->
  In topic (map fst table).
Proof.
  induction table as [|[name keywords] rest IH]; simpl; [discriminate|].
  destruct (existsb _ keywords); [intros [= <-]; left; reflexivity|].
  intro H. right. apply IH, H.
Qed.

Lemma topics_names (x : pystr) :
  In x (map fst GoogleNotesBot.topics) ->
  x <> [] /\ single_line x = true /\ (len x <= 30)%Z.
Proof.
  intro H. simpl in H.
  repeat (destruct H as [<- | H];
          [split; [discriminate | split; [reflexivity | vm_compute; discriminate]]|]).
  contradiction.
Qed.

Lemma in_firstn {A} (n : nat) (l : list A) (x : A) :
  In x (firstn n l) -> In x l.
Proof.
  revert n; induction l as [|y l IH]; intros [|n]; simpl; try tauto.
  intros [H | H]; [left; exact H | right; eapply IH, H].
Qed.

(** X10: a title of the vision-API variant is never empty and has no line
    break, and it is longer than 30 characters only when it is one word of
    the text (a string without white space). *)
Theorem X10_vision_title_nonempty_single_line (text : pystr) :
  let title := GoogleNotesBot.generate_title_from_text text in
  title <> [] /\ single_line title = true /\
  ((len title <= 30)%Z \/
   forallb (fun c => negb (isspace c)) title = true).
Proof.
  assert (Hdef : GoogleNotesBot.default_title <> [] /\
                 single_line GoogleNotesBot.default_title = true /\
                 ((len GoogleNotesBot.default_title <= 30)%Z \/
                  forallb (fun c => negb (isspace c))
                          GoogleNotesBot.default_title = true)).
  { split; [discriminate|]. split; [reflexivity|].
    left. vm_compute. discriminate. }
  unfold GoogleNotesBot.generate_title_from_text.
  destruct (negb (truthy text)); [exact Hdef|].
  destruct (GoogleNotesBot.first_topic _ _) as [topic|] eqn:Et.
  { apply first_topic_names, topics_names in Et as (H1 & H2 & H3).
    cbv zeta. auto. }
  destruct (split_char 10%N text) as [|first rest]; [exact Hdef|].
  set (ws := split_ws (strip first)).
  assert (Hws : forall w, In w (firstn 3 ws) ->
                  w <> [] /\ forallb (fun c => negb (isspace c)) w = true).
  { intros w Hw. apply split_ws_words with (s := strip first).
    eapply in_firstn, Hw. }
  destruct (firstn 3 ws) as [|w0 more] eqn:Ew; [exact Hdef|].
  destruct (Hws w0 (or_introl eq_refl)) as [Hw0 Hc0].
  cbv zeta.
  assert (Hsl : forall s, forallb (fun c => negb (isspace c)) s = true ->
                          single_line s = true).
  { intros s Hs. unfold single_line. rewrite forallb_forall in *.
    intros c Hc. rewrite (Hs c Hc). reflexivity. }
  destruct (len (join [32%N] (w0 :: more)) <=? 30)%Z eqn:El.
  - apply Z.leb_le in El. split; [|split; [|left; exact El]].
    + simpl. destruct more; [exact Hw0|].
      destruct w0; [contradiction | discriminate].
    + unfold single_line. apply forallb_forall. intros c Hc.
      apply join_chars in Hc as [[<- | []] | (p & Hp & Hc)];
        [reflexivity|].
      destruct (Hws p Hp) as [_ Hpc]. rewrite forallb_forall in Hpc.
      rewrite (Hpc c Hc). reflexivity.
  - split; [exact Hw0|]. split; [apply Hsl, Hc0 | right; exact Hc0].
Qed.

Lemma length_nodup_le (l : list pystr) :
  (List.length (nodup pystr_eq_dec l) <= List.length l)%nat.
Proof.
  induction l as [|x l IH]; simpl; [lia|].
  destruct (in_dec pystr_eq_dec x l); simpl; lia.
Qed.

Lemma length_matched_categories (table : list (pystr * list pystr))
    (content_lower : pystr) :
  (List.length (NoteProcessor.matched_categories table content_lower)
   <= List.length table)%nat.
Proof.
  unfold NoteProcessor.matched_categories.
  induction table as [|[tag patterns] rest IH]; simpl; [lia|].
  destruct (existsb _ patterns); simpl; lia.
Qed.

(** X11: the tags of the vision-API variant are "screenshot" and exactly
    the categories of the table one of whose keywords occurs in the lowered
    text; there are at most 13 of them. *)
Theorem X11_vision_tags_are_matched_categories (text x : pystr) :
  (In x (GoogleNotesBot.generate_tags_from_text text) <->
   x = GoogleNotesBot.screenshot \/
   (text <> [] /\
    exists keywords keyword,
      In (x, keywords) GoogleNotesBot.tag_keywords /\
      In keyword keywords /\ contains keyword (lower text) = true)) /\
  (List.length (GoogleNotesBot.generate_tags_from_text text) <= 13)%nat.
Proof.
  unfold GoogleNotesBot.generate_tags_from_text.
  destruct (truthy text) eqn:Ht; cbn [negb].
  - apply truthy_true_iff in Ht. split.
    + unfold list_set. rewrite nodup_In. cbn [app In].
      rewrite matched_categories_iff. split.
      * intros [<- | H]; [left; reflexivity | right; auto].
      * intros [-> | [_ H]]; [left; reflexivity | right; exact H].
    + unfold list_set.
      etransitivity; [apply length_nodup_le|].
      cbn [app List.length].
      pose proof (length_matched_categories GoogleNotesBot.tag_keywords
                    (lower text)) as Hl.
      change (List.length GoogleNotesBot.tag_keywords) with 12%nat in Hl.
      lia.
  - apply truthy_false_iff in Ht. split.
    + split.
      * intros [<- | []]. left. reflexivity.
      * intros [-> | [Hne _]]; [left; reflexivity | contradiction].
    + simpl. lia.
Qed.

(** X12: the vision-API handler saves a note only after a successful
    upload: every saved row carries the non-empty URL the upload returned,
    and its content is the extracted text, unchanged and not empty. *)
Theorem X12_vision_row_needs_upload (e : GoogleNotesBot.env)
    (r : GoogleNotesBot.note_row) :
  In r (saved_rows (GoogleNotesBot.handle_photo e)) ->
  GoogleNotesBot.upload_result e = Some (GoogleNotesBot.image_url r) /\
  GoogleNotesBot.image_url r <> [] /\
  GoogleNotesBot.content r
  = GoogleNotesBot.extract_text_from_image (GoogleNotesBot.vision e) /\
  GoogleNotesBot.content r <> [] /\
  GoogleNotesBot.title r
  = GoogleNotesBot.generate_title_from_text (GoogleNotesBot.content r) /\
  GoogleNotesBot.tags r
  = GoogleNotesBot.generate_tags_from_text (GoogleNotesBot.content r) /\
  GoogleNotesBot.user_id r = GoogleNotesBot.effective_user_id e.
Proof.
  unfold GoogleNotesBot.handle_photo.
  set (text := GoogleNotesBot.extract_text_from_image _).
  set (tags := GoogleNotesBot.generate_tags_from_text text).
  set (title := GoogleNotesBot.generate_title_from_text text).
  destruct (GoogleNotesBot.download e) as [data|]; [|simpl; intros []].
  destruct (truthy text) eqn:Ht; [|simpl; intros []].
  apply truthy_true_iff in Ht.
  destruct (GoogleNotesBot.upload_result e) as [[|c u]|];
    [simpl; intros [] | | simpl; intros []].
  destruct (GoogleNotesBot.insert_result e);
    (simpl; intros [<- | []]; simpl; repeat split;
     try assumption; discriminate).
Qed.

End ExtraGoogle.

Section ExtraGoogleWitnesses.

Import Spec Notions Samples.

Lemma X9_witness_invoice_run :
  let t := TelegramOCRBot.handle_photo (U := ascii_unicode)
             (rules_run_at clock) in
  In jpeg (backend_bytes t) /\ In jpeg (stored_bytes t) /\ jpeg = jpeg.
Proof.
  intro t.
  assert (H1 : In jpeg (backend_bytes t)) by (left; reflexivity).
  assert (H2 : In jpeg (stored_bytes t)) by (left; reflexivity).
  split; [exact H1|]. split; [exact H2|].
  exact (proj1 (X9_stored_bytes_are_extracted_bytes (U := ascii_unicode))
           (rules_run_at clock) jpeg jpeg H1 H2).
Defined.

Lemma X11_witness_invoice :
  In (py "financial")
     (GoogleNotesBot.generate_tags_from_text (U := ascii_unicode) invoice).
Proof.
  apply (proj2 (proj1 (X11_vision_tags_are_matched_categories
                         (U := ascii_unicode) invoice (py "financial")))).
  right. split; [discriminate|].
  exists (map py ["рубль"; "деньги"; "цена"; "$"; "€"; "₽"]%string),
         (py "$").
  split; [|split];
    [vm_compute; tauto | right; right; right; left; reflexivity
    | reflexivity].
Defined.

Lemma X12_witness_invoice_run :
  let e := google_run (GoogleNotesBot.VisionReturns [invoice]) in
  exists r,
    In r (saved_rows (GoogleNotesBot.handle_photo (U := ascii_unicode) e)) /\
    GoogleNotesBot.upload_result e = Some (GoogleNotesBot.image_url r).
Proof.
  intro e.
  assert (Hin : exists r,
             In r (saved_rows
                     (GoogleNotesBot.handle_photo (U := ascii_unicode) e))).
  { eexists. left. reflexivity. }
  destruct Hin as [r Hr]. exists r. split; [exact Hr|].
  exact (proj1 (X12_vision_row_needs_upload (U := ascii_unicode) e r Hr)).
Defined.

End ExtraGoogleWitnesses.

(** ** More about the AI variant *)

Section ExtraOpenAI.

Import Spec Notions Samples MoreSamples OpenAINotesBot.

Lemma startswith_app_l (a b s : pystr) :
  startswith (a ++ b) s = true -> startswith a s = true.
Proof.
  revert s; induction a as [|x a IH]; intros s H; [reflexivity|].
  destruct s as [|y s]; simpl in *; [discriminate|].
  apply andb_true_iff in H as [Hxy H]. rewrite Hxy. apply IH, H.
Qed.

(** [s[n:-3]] of an opening of [n] characters, a body and three closing
    characters is the body. *)
Lemma slice_between (opening body closing : pystr) :
  List.length closing = 3%nat ->
  slice (len opening) (-3) (opening ++ body ++ closing) = body.
Proof.
  intro Hc. unfold slice, clamp_index.
  assert (Hlen : len (opening ++ body ++ closing)
                 = (len opening + len body + 3)%Z).
  { rewrite !len_app. unfold len at 3. rewrite Hc. lia. }
  pose proof (len_nonneg opening) as Ho.
  pose proof (len_nonneg body) as Hb.
  replace (len opening <? 0)%Z with false by (symmetry; apply Z.ltb_ge; lia).
  replace (-3 <? 0)%Z with true by reflexivity.
  rewrite Hlen.
  replace (Z.to_nat (Z.max (len opening + len body + 3 + -3) 0))
    with (List.length (opening ++ body))
    by (rewrite length_app; unfold len; lia).
  replace (Z.to_nat (Z.min (len opening) (len opening + len body + 3)))
    with (List.length opening) by (unfold len; lia).
  rewrite app_assoc, firstn_app, firstn_all, Nat.sub_diag, firstn_O,
    app_nil_r.
  rewrite skipn_app, skipn_all, Nat.sub_diag. reflexivity.
Qed.

(** X13: the fence of a fenced answer is removed before parsing.  When the
    answer, trimmed, is a body between "```json" and "```", or between
    "```" and "```", the parser receives the trimmed body; an answer that
    does not start with a fence is parsed as it is, trimmed. *)
Theorem X13_fence_removed_before_parsing (raw body : pystr)
    (json_loads : pystr -> option json) :
  (strip raw = fence_json ++ body ++ fence ->
   analyze_image_with_openai (CompletionReturns (Some raw)) json_loads
   = json_loads (strip body)) /\
  (strip raw = fence ++ body ++ fence ->
   startswith fence_json (strip raw) = false ->
   analyze_image_with_openai (CompletionReturns (Some raw)) json_loads
   = json_loads (strip body)) /\
  (startswith fence (strip raw) = false ->
   analyze_image_with_openai (CompletionReturns (Some raw)) json_loads
   = json_loads (strip raw)).
Proof.
  unfold analyze_image_with_openai. split; [|split].
  - intro H. rewrite H. rewrite startswith_app.
    pose proof (slice_between fence_json body fence eq_refl) as Hs.
    change (len fence_json) with 7%Z in Hs. rewrite Hs. reflexivity.
  - intros H Hj. rewrite Hj. rewrite H. rewrite startswith_app.
    pose proof (slice_between fence body fence eq_refl) as Hs.
    change (len fence) with 3%Z in Hs. rewrite Hs. reflexivity.
  - intro H. rewrite H.
    destruct (startswith fence_json (strip raw)) eqn:E; [|reflexivity].
    change fence_json with (fence ++ py "json") in E.
    apply startswith_app_l in E. congruence.
Qed.

Lemma X13_witness_fenced_answer :
  let raw := py "```json
{}
```
" in
  let body := py "
{}
" in
  strip raw = fence_json ++ body ++ fence /\
  analyze_image_with_openai (CompletionReturns (Some raw))
    (fun s => if pystr_eqb s (py "{}") then Some (JObj []) else None)
  = Some (JObj []).
Proof.
  intros raw body.
  assert (H : strip raw = fence_json ++ body ++ fence) by reflexivity.
  split; [exact H|].
  exact (proj1 (X13_fence_removed_before_parsing raw body
                  (fun s => if pystr_eqb s (py "{}") then Some (JObj [])
                            else None)) H).
Defined.

(** X14: what [save_note_to_db] stores.  Without a title or a content it
    stores nothing and returns False; it returns True only when the insert
    of the note row gave an id; and tag rows are inserted only after the
    note row, under the id that insert returned, each tag trimmed and not
    empty. *)
Theorem X14_save_note_to_db_effects uid uname note_data url now
    insert_result tags_insert_ok :
  let result := save_note_to_db uid uname note_data url now insert_result
                  tags_insert_ok in
  (subscript note_data key_title = None \/
   subscript note_data key_content = None -> result = ([], false)) /\
  (snd result = true ->
   insert_result <> None /\ exists row rest, fst result = NotesInsert row :: rest) /\
  (forall note_id tags,
      In (NoteTagsInsert note_id tags) (fst result) ->
      insert_result = Some note_id /\
      (exists row, fst result = [NotesInsert row; NoteTagsInsert note_id tags]) /\
      Forall (fun tag => tag <> [] /\ is_trimmed tag = true) tags).
Proof.
  cbv zeta. unfold save_note_to_db. split; [|split].
  - intros [H | H]; rewrite H; [reflexivity|].
    destruct (subscript note_data key_title); reflexivity.
  - destruct (subscript note_data key_title) as [t|]; [|discriminate].
    destruct (subscript note_data key_content) as [c|]; [|discriminate].
    destruct insert_result as [id|]; [|discriminate].
    intros _. split; [discriminate|].
    destruct (subscript note_data key_tags) as [tv|]; [|simpl; eauto].
    destruct (json_truthy tv); [|simpl; eauto].
    destruct (iter_strings tv); [|simpl; eauto].
    destruct (map strip _); simpl; eauto.
  - intros note_id tags.
    destruct (subscript note_data key_title) as [t|]; [|intros []].
    destruct (subscript note_data key_content) as [c|]; [|intros []].
    destruct insert_result as [id|];
      [|simpl; intros [H | []]; discriminate].
    destruct (subscript note_data key_tags) as [tv|];
      [|simpl; intros [H | []]; discriminate].
    destruct (json_truthy tv); [|simpl; intros [H | []]; discriminate].
    destruct (iter_strings tv) as [l|];
      [|simpl; intros [H | []]; discriminate].
    destruct (map strip (filter (fun tag => truthy (strip tag)) l))
      as [|x xs] eqn:E; [simpl; intros [H | []]; discriminate|].
    simpl. intros [H | [H | []]]; [discriminate|].
    injection H as <- <-. split; [reflexivity|]. split; [eauto|].
    rewrite <- E. apply Forall_forall. intros tag Hin.
    apply in_map_iff in Hin as (s & <- & Hs).
    apply filter_In in Hs as [_ Ht].
    split; [apply truthy_true_iff, Ht | apply strip_is_trimmed].
Qed.

Lemma X14_witness_padded_tags :
  let result := save_note_to_db 42 (py "user_42") note_padded_tags url
                  clock (Some 5%Z) true in
  snd result = true /\
  In (NoteTagsInsert 5%Z [py "todo"; py "shopping"]) (fst result) /\
  Forall (fun tag => tag <> [] /\ is_trimmed tag = true)
         [py "todo"; py "shopping"].
Proof.
  intro result.
  assert (H1 : snd result = true) by reflexivity.
  assert (H2 : In (NoteTagsInsert 5%Z [py "todo"; py "shopping"])
                  (fst result)) by (right; left; reflexivity).
  split; [exact H1|]. split; [exact H2|].
  exact (proj2 (proj2 (proj2 (proj2 (X14_save_note_to_db_effects 42
                                (py "user_42") note_padded_tags url clock
                                (Some 5%Z) true))
                         5%Z [py "todo"; py "shopping"] H2))).
Defined.

(** X15: a note can be stored and still be reported as not saved.  When
    the note row was inserted and then a tag turns out not to be a string,
    or the insert of the tag rows raises, the run ends with the text
    "save_failed" although the note row stays in the table. *)
Theorem X15_note_row_kept_when_tags_fail (e : env) data image_url v
    note_id tags_value :
  download e = Some data ->
  upload_result e = Some image_url -> image_url <> [] ->
  analyze_image_with_openai (completion e) (json_loads e) = Some v ->
  json_truthy v = true ->
  subscript v key_title <> None -> subscript v key_content <> None ->
  insert_result e = Some note_id ->
  subscript v key_tags = Some tags_value ->
  json_truthy tags_value = true ->
  (iter_strings tags_value = None \/
   (tags_insert_ok e = false /\
    exists l s, iter_strings tags_value = Some l /\ In s l /\
                strip s <> [])) ->
  List.length (saved_rows (handle_image e)) = 1%nat /\
  last_message (handle_image e) = Some save_failed.
Proof.
  intros Hd Hu Hne Ha Hv Ht Hc Hi Htags Htv Hfail.
  rewrite (handle_image_reaches_save e data image_url v Hd Hu Hne Ha Hv).
  cbv zeta. unfold save_note_to_db.
  destruct (subscript v key_title) as [t|]; [|contradiction].
  destruct (subscript v key_content) as [c|]; [|contradiction].
  rewrite Hi, Htags, Htv.
  destruct Hfail as [Hn | (Hok & l & s & Hl & Hs & Hne')].
  - rewrite Hn. split; reflexivity.
  - rewrite Hl, Hok.
    destruct (map strip (filter (fun tag => truthy (strip tag)) l))
      as [|x xs] eqn:E.
    + exfalso.
      assert (Hin : In (strip s)
                       (map strip
                          (filter (fun tag => truthy (strip tag)) l))).
      { apply in_map, filter_In. split; [exact Hs|].
        apply truthy_true_iff, Hne'. }
      rewrite E in Hin. exact Hin.
    + split; reflexivity.
Qed.

Lemma X15_witness_numeric_tags :
  let e := openai_run (CompletionReturns (Some (py "{}")))
             (Some note_numeric_tags) in
  List.length (saved_rows (handle_image e)) = 1%nat /\
  last_message (handle_image e) = Some save_failed.
Proof.
  intro e.
  apply (X15_note_row_kept_when_tags_fail e jpeg url note_numeric_tags 1%Z
           (JArr [JNum 1; JNum 2]));
    try reflexivity; try discriminate.
  left. reflexivity.
Defined.

(** X16: every note row the AI handler saves carries the non-empty URL the
    upload returned and a non-empty user name (the sender's, or "user_"
    followed by the id), and its title and content are the values of the
    keys "title" and "content" of the analysis result. *)
Theorem X16_ai_row_has_url_and_username (e : env) (r : note_row) :
  In r (saved_rows (handle_image e)) ->
  upload_result e = Some (image_url r) /\ image_url r <> [] /\
  username r = display_name e /\ username r <> [] /\
  user_id r = effective_user_id e /\
  exists v,
    analyze_image_with_openai (completion e) (json_loads e) = Some v /\
    subscript v key_title = Some (title r) /\
    subscript v key_content = Some (content r).
Proof.
  intro H.
  assert (Hname : display_name e <> []).
  { unfold display_name. destruct (effective_username e) as [[|c u]|];
      discriminate. }
  destruct (download e) as [data|] eqn:Hd;
    [|unfold handle_image in H; rewrite Hd in H; destruct H].
  destruct (upload_result e) as [[|c u]|] eqn:Hu;
    [unfold handle_image in H; rewrite Hd, Hu in H; destruct H
    | | unfold handle_image in H; rewrite Hd, Hu in H; destruct H].
  destruct (analyze_image_with_openai (completion e) (json_loads e))
    as [v|] eqn:Ha;
    [|unfold handle_image in H; rewrite Hd, Hu, Ha in H; destruct H].
  destruct (json_truthy v) eqn:Hv;
    [|unfold handle_image in H; rewrite Hd, Hu, Ha, Hv in H; destruct H].
  rewrite (handle_image_reaches_save e data (c :: u) v Hd Hu
             ltac:(discriminate) Ha Hv) in H.
  cbv zeta in H. rewrite !saved_rows_app in H.
  apply in_app_or in H as [[] | H].
  apply in_app_or in H as [H | []].
  apply save_note_to_db_rows in H as (Ht & Hc & Hid & Hn & Hurl & _).
  rewrite Hurl, Hn, Hid. repeat split; try assumption; try discriminate.
  exists v. auto.
Qed.

Lemma X16_witness_repeated_tags_run :
  let e := openai_run (CompletionReturns (Some (py "{}")))
             (Some note_repeated_tags) in
  exists r,
    In r (saved_rows (handle_image e)) /\
    upload_result e = Some (image_url r) /\
    username r = py "user_42".
Proof.
  intro e.
  assert (Hin : exists r, In r (saved_rows (handle_image e))).
  { eexists. left. reflexivity. }
  destruct Hin as [r Hr]. exists r.
  destruct (X16_ai_row_has_url_and_username e r Hr)
    as (H1 & _ & H3 & _).
  split; [exact Hr|]. split; [exact H1 | exact H3].
Defined.

(** X17: when the upload fails, the AI handler stops there: the AI backend
    is not called and nothing is saved, and the user is told that the
    upload failed. *)
Theorem X17_failed_upload_skips_analysis (e : env) :
  upload_result e = None \/ upload_result e = Some [] ->
  In (stages (handle_image e)) [[]; [Put]] /\
  (download e <> None ->
   last_message (handle_image e) = Some upload_failed).
Proof.
  unfold handle_image. intros [H | H]; rewrite H;
    (destruct (download e) as [data|];
     [split; [simpl; tauto | intros _; reflexivity]
     | split; [simpl; tauto | intro C; contradiction]]).
Qed.

Lemma X17_witness_upload_fails :
  let e := {| effective_user_id := 42;
              effective_username := None;
              download := Some jpeg;
              now_filename := clock;
              upload_result := None;
              completion := CompletionReturns (Some (py "{}"));
              json_loads := fun _ => Some note_repeated_tags;
              now_created := clock;
              insert_result := Some 1%Z;
              tags_insert_ok := true |} in
  In (stages (handle_image e)) [[]; [Put]] /\
  last_message (handle_image e) = Some upload_failed.
Proof.
  intro e.
  destruct (X17_failed_upload_skips_analysis e (or_introl eq_refl))
    as [H1 H2].
  split; [exact H1 | apply H2; discriminate].
Defined.

End ExtraOpenAI.

(** ** The handler of documents *)

Section ExtraDocuments.

Import YandexVisionOCR NoteProcessor Spec Notions Samples MoreSamples.
Import TelegramOCRBotDocument.

Context {U : Unicode}.

(** X18: a document that is not a PDF, or whose text cannot be extracted
    (no text, or an error text), is never stored: no asset is uploaded and
    no note is saved.  For a PDF that was downloaded the run then ends with
    the one text "could not extract", which does not show the error. *)
Theorem X18_document_without_text_not_stored (e : env) :
  is_pdf (mime_type e) = false \/
  extract_text_from_image (ocr_post e) = [] \/
  startswith error_marker (extract_text_from_image (ocr_post e)) = true ->
  persists_nothing (handle_document e) /\
  (is_pdf (mime_type e) = true -> download e <> None ->
   last_message (handle_document e) = Some MsgCouldNotExtractPdf).
Proof.
  unfold persists_nothing, handle_document.
  set (text := extract_text_from_image _).
  intros [H | H].
  - rewrite H. split; [reflexivity | discriminate].
  - destruct (is_pdf (mime_type e)); [|split; [reflexivity | discriminate]].
    destruct (download e) as [data|];
      [|split; [reflexivity | intros _ C; contradiction]].
    replace (negb (truthy text) || startswith error_marker text) with true.
    + split; [reflexivity | intros _ _; reflexivity].
    + symmetry. destruct H as [H | H].
      * rewrite H. reflexivity.
      * rewrite H. apply orb_true_r.
Qed.

(** X19: the document handler says nothing when the note cannot be saved:
    for a PDF whose text was extracted, a failing insert leaves the text
    "extracting" as the last one shown, after the asset was uploaded and the
    insert of the row was tried. *)
Theorem X19_document_save_failure_is_silent (e : env) (data : bytes) :
  is_pdf (mime_type e) = true ->
  download e = Some data ->
  extract_text_from_image (ocr_post e) <> [] ->
  startswith error_marker (extract_text_from_image (ocr_post e)) = false ->
  insert_result e = None ->
  last_message (handle_document e) = Some MsgExtractingPdf /\
  stages (handle_document e) = [Extract; Put; Save] /\
  put_keys (handle_document e)
  = [filename (from_user_id e) (now_filename e)].
Proof.
  unfold handle_document.
  set (text := extract_text_from_image _).
  intros Hp Hd Ht He Hi. rewrite Hp, Hd, He, Hi.
  apply truthy_true_iff in Ht. rewrite Ht.
  set (tags := extract_tags text).
  set (title := generate_title text default_max_length).
  repeat split.
Qed.

End ExtraDocuments.

Section ExtraDocumentKeys.

Import Spec Notions Samples MoreSamples.

(** X20: the keys of documents and the keys of photos never meet: a
    document key starts with "pdf_" and a photo key with "screenshot_"; and
    two document keys are equal exactly when they are for the same user id
    and the same second. *)
Theorem X20_document_keys (u1 u2 : Z) (d1 d2 : datetime) :
  TelegramOCRBotDocument.filename u1 d1 <> TelegramOCRBot.filename u2 d2 /\
  (valid_datetime d1 -> valid_datetime d2 ->
   (TelegramOCRBotDocument.filename u1 d1
    = TelegramOCRBotDocument.filename u2 d2
    <-> u1 = u2 /\ same_second d1 d2)).
Proof.
  split.
  - unfold TelegramOCRBotDocument.filename, TelegramOCRBot.filename.
    intro H. apply (f_equal (@hd char 0%N)) in H.
    vm_compute in H. discriminate.
  - intros V1 V2. unfold TelegramOCRBotDocument.filename. split.
    + intro H. apply app_inv_head in H.
      apply app_inj_length_r in H; [|reflexivity].
      destruct H as [Hu H]. apply str_int_inj in Hu.
      apply app_inv_head, app_inv_tail in H.
      split; [exact Hu | now apply strftime_underscore_inj].
    + intros [-> Hs]. apply same_second_strftime in Hs as [-> _].
      reflexivity.
Qed.

Lemma X18_witness_error_text :
  let e := {| TelegramOCRBotDocument.from_user_id := 42;
              TelegramOCRBotDocument.mime_type :=
                Some TelegramOCRBotDocument.application_pdf;
              TelegramOCRBotDocument.download := Some jpeg;
              TelegramOCRBotDocument.ocr_post :=
                YandexVisionOCR.PostRaises YandexVisionOCR.RequestException;
              TelegramOCRBotDocument.now_filename := clock;
              TelegramOCRBotDocument.upload_result := Some url;
              TelegramOCRBotDocument.now_created := clock;
              TelegramOCRBotDocument.insert_result := Some 1%Z |} in
  persists_nothing
    (TelegramOCRBotDocument.handle_document (U := ascii_unicode) e) /\
  last_message
    (TelegramOCRBotDocument.handle_document (U := ascii_unicode) e)
  = Some TelegramOCRBotDocument.MsgCouldNotExtractPdf.
Proof.
  intro e.
  destruct (X18_document_without_text_not_stored (U := ascii_unicode) e
              (or_intror (or_intror eq_refl))) as [H1 H2].
  split; [exact H1 | apply H2; [reflexivity | discriminate]].
Defined.

Lemma X19_witness_insert_fails :
  last_message
    (TelegramOCRBotDocument.handle_document (U := ascii_unicode)
       pdf_run_insert_fails)
  = Some TelegramOCRBotDocument.MsgExtractingPdf.
Proof.
  apply (proj1 (X19_document_save_failure_is_silent (U := ascii_unicode)
                  pdf_run_insert_fails jpeg eq_refl eq_refl
                  ltac:(discriminate) eq_refl eq_refl)).
Defined.

Lemma X20_witness_next_second :
  valid_datetime clock /\ valid_datetime clock_next /\
  (TelegramOCRBotDocument.filename 42 clock
   = TelegramOCRBotDocument.filename 42 clock_next
   <-> 42%Z = 42%Z /\ same_second clock clock_next).
Proof.
  assert (V1 : valid_datetime clock)
    by (unfold valid_datetime; simpl; lia).
  assert (V2 : valid_datetime clock_next)
    by (unfold valid_datetime; simpl; lia).
  split; [exact V1|]. split; [exact V2|].
  exact (proj2 (X20_document_keys 42 42 clock clock_next) V1 V2).
Defined.

End ExtraDocumentKeys.

(** ** The language preference *)

Section ExtraSettings.

Import UserSettings MoreSamples.

Lemma select_update_same (t : table) (user_id : Z) (language : pystr) :
  select_eq (update_eq t user_id language) user_id
  = map (fun r => (fst r, language)) (select_eq t user_id).
Proof.
  unfold select_eq, update_eq.
  induction t as [|[u l] t IH]; simpl; [reflexivity|].
  destruct (u =? user_id)%Z eqn:E; simpl; rewrite E; simpl;
    rewrite IH; reflexivity.
Qed.

Lemma select_update_other (t : table) (user_id other : Z)
    (language : pystr) :
  other <> user_id ->
  select_eq (update_eq t user_id language) other = select_eq t other.
Proof.
  intro Hne. unfold select_eq, update_eq.
  induction t as [|[u l] t IH]; simpl; [reflexivity|].
  destruct (u =? user_id)%Z eqn:E; simpl.
  - apply Z.eqb_eq in E. subst u.
    replace (user_id =? other)%Z with false
      by (symmetry; apply Z.eqb_neq; congruence).
    exact IH.
  - destruct (u =? other)%Z; rewrite IH; reflexivity.
Qed.

Lemma select_insert (t : table) (user_id other : Z) (language : pystr) :
  select_eq (insert t user_id language) other
  = select_eq t other
    ++ (if (user_id =? other)%Z then [(user_id, language)] else []).
Proof.
  unfold select_eq, insert. rewrite filter_app. simpl.
  destruct (user_id =? other)%Z; reflexivity.
Qed.

(** X21: the language that [set_user_language] stores is the one
    [get_user_language] returns afterwards for that user, the languages of
    the other users stay what they were, and a request that raises changes
    nothing and returns False. *)
Theorem X21_language_round_trip (t : table) (user_id : Z)
    (language : pystr) :
  let after := set_user_language false false t user_id language in
  snd after = true /\
  get_user_language false (fst after) user_id = language /\
  (forall other, other <> user_id ->
     get_user_language false (fst after) other
     = get_user_language false t other) /\
  (forall select_raises write_raises,
     select_raises = true \/ write_raises = true ->
     set_user_language select_raises write_raises t user_id language
     = (t, false)).
Proof.
  cbv zeta. unfold set_user_language, get_user_language.
  destruct (select_eq t user_id) as [|r rows] eqn:E; simpl.
  - split; [reflexivity|]. split; [|split].
    + rewrite select_insert, E, Z.eqb_refl. reflexivity.
    + intros other Hne. rewrite select_insert.
      replace (user_id =? other)%Z with false
        by (symmetry; apply Z.eqb_neq; congruence).
      rewrite app_nil_r. reflexivity.
    + intros [|] [|] [H | H]; try discriminate; reflexivity.
  - split; [reflexivity|]. split; [|split].
    + rewrite select_update_same, E. reflexivity.
    + intros other Hne. rewrite select_update_other by assumption.
      reflexivity.
    + intros [|] [|] [H | H]; try discriminate; reflexivity.
Qed.

(** X22: [set_user_language] keeps one row per user: when no user has more
    than one row in user_settings before the call, none has afterwards,
    whether the requests raise or not. *)
Theorem X22_one_row_per_user (select_raises write_raises : bool)
    (t : table) (user_id : Z) (language : pystr) :
  (forall u, (List.length (select_eq t u) <= 1)%nat) ->
  forall u,
    (List.length
       (select_eq
          (fst (set_user_language select_raises write_raises t user_id
                  language)) u) <= 1)%nat.
Proof.
  intros H u. unfold set_user_language.
  destruct select_raises; [apply H|].
  destruct (select_eq t user_id) as [|r rows] eqn:E.
  - destruct write_raises; [apply H|]. simpl fst.
    rewrite select_insert, length_app.
    destruct (user_id =? u)%Z eqn:Eu; simpl.
    + apply Z.eqb_eq in Eu. subst u. rewrite E. simpl. lia.
    + specialize (H u). lia.
  - destruct write_raises; [apply H|]. simpl fst.
    destruct (Z.eq_dec u user_id) as [-> | Hne].
    + rewrite select_update_same, length_map. apply H.
    + rewrite select_update_other by assumption. apply H.
Qed.

Lemma X21_witness_settings :
  let stored := set_user_language false false settings 7 (py "ru") in
  8%Z <> 7%Z /\
  get_user_language false (fst stored) 7 = py "ru" /\
  get_user_language false (fst stored) 8 = py "kz".
Proof.
  intro stored.
  assert (Hne : 8%Z <> 7%Z) by discriminate.
  destruct (X21_language_round_trip settings 7 (py "ru"))
    as (_ & Hsame & Hother & _).
  split; [exact Hne|]. split; [exact Hsame|].
  exact (eq_trans (Hother 8%Z Hne) eq_refl).
Defined.

Lemma X22_witness_settings :
  (forall u, (List.length (select_eq settings u) <= 1)%nat) /\
  (List.length
     (select_eq (fst (set_user_language false false settings 7 (py "ru")))
        7) <= 1)%nat.
Proof.
  assert (H : forall u, (List.length (select_eq settings u) <= 1)%nat).
  { intro u. unfold select_eq, settings, filter, fst.
    destruct (Z.eqb_spec 7 u); destruct (Z.eqb_spec 8 u); simpl; lia. }
  split; [exact H|].
  exact (X22_one_row_per_user false false settings 7 (py "ru") H 7%Z).
Defined.

End ExtraSettings.

(** ** The token in the .env file *)

Section ExtraDotenv.

Import Notions MoreSamples YandexIamHelper.

Lemma pystr_eqb_eq (a b : pystr) : pystr_eqb a b = true <-> a = b.
Proof.
  revert b; induction a as [|x a IH]; intros [|y b]; simpl;
    try (split; [discriminate | discriminate]); [tauto|].
  rewrite andb_true_iff, IH. unfold char_eqb. rewrite N.eqb_eq.
  split; [intros [-> ->]; reflexivity | intros [= -> ->]; auto].
Qed.

Lemma pystr_eqb_refl (a : pystr) : pystr_eqb a a = true.
Proof. apply pystr_eqb_eq. reflexivity. Qed.

Lemma pystr_eqb_neq (a b : pystr) : a <> b -> pystr_eqb a b = false.
Proof.
  intro H. destruct (pystr_eqb a b) eqn:E; [|reflexivity].
  apply pystr_eqb_eq in E. contradiction.
Qed.

Lemma dict_get_set_same (key value : pystr) (d : dict) :
  dict_get key (dict_set key value d) = Some value.
Proof.
  induction d as [|[k v] d IH]; simpl.
  - rewrite pystr_eqb_refl. reflexivity.
  - destruct (pystr_eqb k key) eqn:E; simpl; rewrite E; [reflexivity|].
    exact IH.
Qed.

Lemma dict_get_set_other (key other value : pystr) (d : dict) :
  other <> key ->
  dict_get other (dict_set key value d) = dict_get other d.
Proof.
  intro Hne. induction d as [|[k v] d IH]; simpl.
  - rewrite pystr_eqb_neq by congruence. reflexivity.
  - destruct (pystr_eqb k key) eqn:E; simpl.
    + apply pystr_eqb_eq in E. subst k.
      rewrite pystr_eqb_neq by congruence. reflexivity.
    + rewrite IH. reflexivity.
Qed.

Lemma dict_set_keys (key value : pystr) (d : dict) :
  map fst (dict_set key value d)
  = if in_dec pystr_eq_dec key (map fst d) then map fst d
    else map fst d ++ [key].
Proof.
  induction d as [|[k v] d IH]; simpl; [reflexivity|].
  destruct (pystr_eqb k key) eqn:E; simpl.
  - apply pystr_eqb_eq in E. subst k.
    destruct (pystr_eq_dec key key); [reflexivity | contradiction].
  - rewrite IH.
    destruct (pystr_eq_dec k key) as [-> | Hne];
      [rewrite pystr_eqb_refl in E; discriminate|].
    destruct (in_dec pystr_eq_dec key (map fst d)); reflexivity.
Qed.

Lemma dict_set_nodup (key value : pystr) (d : dict) :
  NoDup (map fst d) -> NoDup (map fst (dict_set key value d)).
Proof.
  intro H. rewrite dict_set_keys.
  destruct (in_dec pystr_eq_dec key (map fst d)) as [Hin | Hnin];
    [exact H|].
  apply NoDup_app; [exact H | constructor; [intros [] | constructor] |].
  intros x Hx [<- | []]. contradiction.
Qed.

Lemma read_line_nodup (env_vars : dict) (raw : pystr) :
  NoDup (map fst env_vars) -> NoDup (map fst (read_line env_vars raw)).
Proof.
  intro H. unfold read_line.
  destruct (truthy (strip raw) && negb (startswith number_sign (strip raw)));
    [|exact H].
  destruct (split_first_equals (strip raw)) as [[k v]|]; [|exact H].
  apply dict_set_nodup, H.
Qed.

Lemma read_env_nodup (content : pystr) : NoDup (map fst (read_env content)).
Proof.
  unfold read_env.
  assert (H : forall lines acc,
             NoDup (map fst acc) ->
             NoDup (map fst (fold_left read_line lines acc))).
  { induction lines as [|l lines IH]; intros acc Hacc; simpl;
      [exact Hacc|]. apply IH, read_line_nodup, Hacc. }
  apply H. constructor.
Qed.

Lemma updated_vars_nodup (existing : option pystr) (iam_token : pystr) :
  NoDup (map fst (updated_vars existing iam_token)).
Proof.
  unfold updated_vars. apply dict_set_nodup.
  destruct existing; [apply read_env_nodup | constructor].
Qed.

(** X23: after [save_token_to_env] the variables written to the file hold
    the new token under YANDEX_IAM_TOKEN, every other variable keeps the
    value read from the old file, and no variable is written twice,
    whatever the old file held (comments, blank lines, repeated keys). *)
Theorem X23_token_replaced_others_kept (existing : option pystr)
    (iam_token : pystr) :
  let old := match existing with
             | Some content => read_env content
             | None => []
             end in
  let new := updated_vars existing iam_token in
  save_token_to_env existing iam_token = write_env new /\
  dict_get token_key new = Some iam_token /\
  (forall key, key <> token_key -> dict_get key new = dict_get key old) /\
  NoDup (map fst new).
Proof.
  cbv zeta. unfold updated_vars. split; [reflexivity|].
  split; [apply dict_get_set_same|]. split.
  - intros key Hne. apply dict_get_set_other, Hne.
  - apply (updated_vars_nodup existing iam_token).
Qed.

Lemma X23_witness_dotenv :
  let new := updated_vars (Some dotenv) new_token in
  let key := py "TELEGRAM_BOT_TOKEN" in
  key <> token_key /\
  dict_get token_key new = Some new_token /\
  dict_get key new = Some (py "def").
Proof.
  intros new key.
  assert (Hne : key <> token_key) by discriminate.
  destruct (X23_token_replaced_others_kept (Some dotenv) new_token)
    as (_ & Ht & Hk & _).
  split; [exact Hne|]. split; [exact Ht|].
  exact (eq_trans (Hk key Hne) eq_refl).
Defined.

Lemma no_line_break_split (s : pystr) :
  no_line_break s = true <->
  no_newline s = true /\ forallb (fun c => negb (char_eqb c 13%N)) s = true.
Proof.
  unfold no_line_break, no_newline.
  induction s as [|c s IH]; simpl; [tauto|].
  rewrite !andb_true_iff, IH. tauto.
Qed.

(** A text without carriage return is read as it is. *)
Lemma universal_newlines_plain (s : pystr) :
  forallb (fun c => negb (char_eqb c 13%N)) s = true ->
  universal_newlines s = s.
Proof.
  induction s as [|c s IH]; simpl; intro H; [reflexivity|].
  apply andb_true_iff in H as [Hc Hs]. apply negb_true_iff in Hc.
  rewrite Hc, (IH Hs). reflexivity.
Qed.

(** A text that was read holds no carriage return. *)
Lemma universal_newlines_no_cr (s : pystr) :
  forallb (fun c => negb (char_eqb c 13%N)) (universal_newlines s) = true.
Proof.
  assert (H : forall n s, (List.length s <= n)%nat ->
             forallb (fun c => negb (char_eqb c 13%N))
                     (universal_newlines s) = true).
  { induction n as [|n IH]; intros [|c t] Hl; try reflexivity;
      simpl in Hl; [lia|].
    simpl. destruct (char_eqb c 13%N) eqn:E.
    - simpl. destruct t as [|d t']; [reflexivity|].
      destruct (char_eqb d 10%N); apply IH; simpl in *; lia.
    - simpl. rewrite E. simpl. apply IH. lia. }
  apply (H (List.length s)). lia.
Qed.

Lemma file_lines_chars (s : pystr) :
  forall l c, In l (file_lines s) -> In c l -> In c s.
Proof.
  induction s as [|x s IH]; intros l c; simpl; [intros []|].
  destruct (char_eqb x 10%N).
  - intros [<- | H] Hc.
    + destruct Hc as [<- | []]. left. reflexivity.
    + right. eapply IH; eassumption.
  - destruct (file_lines s) as [|l0 ls].
    + intros [<- | []] [<- | []]. left. reflexivity.
    + intros [<- | H] Hc.
      * destruct Hc as [<- | Hc]; [left; reflexivity|].
        right. apply (IH l0); [left; reflexivity | exact Hc].
      * right. apply (IH l); [right; exact H | exact Hc].
Qed.

(** A line without newline, followed by a newline, is the first line a
    loop over the file sees. *)
Lemma file_lines_first (l rest : pystr) :
  no_newline l = true ->
  file_lines (l ++ 10%N :: rest) = (l ++ [10%N]) :: file_lines rest.
Proof.
  unfold no_newline. induction l as [|c l IH]; simpl; intro H;
    [reflexivity|].
  apply andb_true_iff in H as [Hc Hl].
  apply negb_true_iff in Hc. rewrite Hc, (IH Hl). reflexivity.
Qed.

(** The lines of a file hold a newline at their end only. *)
Lemma file_lines_shape (s : pystr) :
  forall l, In l (file_lines s) ->
            exists body, no_newline body = true /\
                         (l = body \/ l = body ++ [10%N]).
Proof.
  induction s as [|c s IH]; intros l; simpl; [intros []|].
  destruct (char_eqb c 10%N) eqn:E.
  - intros [<- | H]; [|apply IH, H].
    exists []. split; [reflexivity|]. right.
    apply N.eqb_eq in E. subst c. reflexivity.
  - destruct (file_lines s) as [|l0 ls].
    + intros [<- | []]. exists [c]. split; [|left; reflexivity].
      unfold no_newline. simpl. rewrite E. reflexivity.
    + intros [<- | H].
      * destruct (IH l0 (or_introl eq_refl)) as (body & Hb & Hl).
        exists (c :: body). split.
        -- unfold no_newline in *. simpl. rewrite E, Hb. reflexivity.
        -- destruct Hl as [-> | ->]; [left | right]; reflexivity.
      * apply IH. right. exact H.
Qed.

Lemma split_first_equals_spec (line key value : pystr) :
  split_first_equals line = Some (key, value) ->
  line = key ++ [equals_sign] ++ value /\
  forallb (fun c => negb (char_eqb c equals_sign)) key = true.
Proof.
  revert key; induction line as [|c line IH]; intros key; simpl;
    [discriminate|].
  destruct (char_eqb c equals_sign) eqn:E.
  - intros [= <- <-]. apply N.eqb_eq in E. subst c.
    split; reflexivity.
  - destruct (split_first_equals line) as [[k v]|]; [|discriminate].
    intros [= <- <-]. destruct (IH k eq_refl) as [-> Hk].
    split; [reflexivity|]. simpl. rewrite E, Hk. reflexivity.
Qed.

Lemma split_first_equals_item (key value : pystr) :
  forallb (fun c => negb (char_eqb c equals_sign)) key = true ->
  split_first_equals (key ++ [equals_sign] ++ value) = Some (key, value).
Proof.
  change (key ++ [equals_sign] ++ value) with (key ++ equals_sign :: value).
  induction key as [|c key IH]; simpl; intro H.
  - reflexivity.
  - apply andb_true_iff in H as [Hc Hk].
    apply negb_true_iff in Hc. rewrite Hc, (IH Hk). reflexivity.
Qed.

(** Reading the line of a well-formed item sets that item. *)
Lemma read_line_item (env_vars : dict) (item : pystr * pystr) :
  wellformed_item item ->
  read_line env_vars (item_line item ++ [10%N])
  = dict_set (fst item) (snd item) env_vars.
Proof.
  intros (Hk & _ & Ht & Hc). unfold read_line.
  rewrite strip_app_spaces by reflexivity.
  rewrite (strip_trimmed _ Ht), Hc.
  replace (truthy (item_line item)) with true.
  - unfold item_line. rewrite (split_first_equals_item _ _ Hk).
    reflexivity.
  - symmetry. apply truthy_true_iff. unfold item_line.
    intro E. apply app_eq_nil in E as [_ E]. discriminate.
Qed.

Lemma dict_set_fresh (key value : pystr) (d : dict) :
  ~ In key (map fst d) -> dict_set key value d = d ++ [(key, value)].
Proof.
  induction d as [|[k v] d IH]; simpl; intro H; [reflexivity|].
  rewrite pystr_eqb_neq by (intro E; apply H; left; exact E).
  rewrite IH by (intro E; apply H; right; exact E). reflexivity.
Qed.

Lemma write_env_cons (item : pystr * pystr) (d : dict) :
  write_env (item :: d) = item_line item ++ 10%N :: write_env d.
Proof.
  unfold write_env, item_line. simpl. rewrite <- !app_assoc. simpl.
  rewrite <- app_assoc. reflexivity.
Qed.

Lemma write_env_lines (d : dict) (acc : dict) :
  Forall wellformed_item d ->
  NoDup (map fst (acc ++ d)) ->
  fold_left read_line (file_lines (write_env d)) acc = acc ++ d.
Proof.
  revert acc; induction d as [|item d IH]; intros acc Hwf Hnd.
  - simpl. rewrite app_nil_r. reflexivity.
  - inversion Hwf as [|? ? Hitem Hrest]; subst.
    rewrite write_env_cons.
    rewrite file_lines_first
      by (destruct Hitem as (_ & Hn & _);
          apply no_line_break_split in Hn; apply Hn).
    simpl fold_left. rewrite (read_line_item acc item Hitem).
    rewrite dict_set_fresh.
    + rewrite IH.
      * rewrite <- app_assoc. destruct item. reflexivity.
      * exact Hrest.
      * rewrite <- app_assoc. destruct item. exact Hnd.
    + rewrite map_app in Hnd. simpl in Hnd.
      apply NoDup_remove_2 in Hnd. intro Hin. apply Hnd.
      apply in_or_app. left. exact Hin.
Qed.

Lemma write_env_no_cr (d : dict) :
  Forall wellformed_item d ->
  forallb (fun c => negb (char_eqb c 13%N)) (write_env d) = true.
Proof.
  induction d as [|item d IH]; intro H; [reflexivity|].
  inversion H as [|? ? (_ & Hn & _) Hrest]; subst.
  rewrite write_env_cons, forallb_app.
  apply no_line_break_split in Hn as [_ Hn]. rewrite Hn. simpl.
  apply IH, Hrest.
Qed.

Lemma dict_set_wellformed (key value : pystr) (d : dict) :
  wellformed_item (key, value) ->
  Forall wellformed_item d ->
  Forall wellformed_item (dict_set key value d).
Proof.
  intros Hitem Hd. induction d as [|[k v] d IH]; simpl.
  - constructor; [exact Hitem | constructor].
  - inversion Hd as [|? ? Hkv Hrest]; subst.
    destruct (pystr_eqb k key) eqn:E.
    + apply pystr_eqb_eq in E. subst k. constructor; assumption.
    + constructor; [exact Hkv | apply IH, Hrest].
Qed.

Lemma no_line_break_strip (s : pystr) :
  no_line_break s = true -> no_line_break (strip s) = true.
Proof. apply forallb_strip. Qed.

Lemma read_line_wellformed (env_vars : dict) (raw : pystr) :
  (exists body, no_line_break body = true /\
                (raw = body \/ raw = body ++ [10%N])) ->
  Forall wellformed_item env_vars ->
  Forall wellformed_item (read_line env_vars raw).
Proof.
  intros (body & Hb & Hraw) Hd. unfold read_line.
  assert (Hs : strip raw = strip body).
  { destruct Hraw as [-> | ->]; [reflexivity|].
    apply strip_app_spaces. reflexivity. }
  rewrite Hs.
  destruct (truthy (strip body)); [|exact Hd]. cbn [andb].
  destruct (startswith number_sign (strip body)) eqn:Ec; [exact Hd|].
  cbn [negb].
  destruct (split_first_equals (strip body)) as [[k v]|] eqn:E;
    [|exact Hd].
  apply split_first_equals_spec in E as [Hline Hk].
  apply dict_set_wellformed; [|exact Hd].
  unfold wellformed_item, item_line. simpl fst. simpl snd.
  rewrite <- Hline. repeat split.
  - exact Hk.
  - apply no_line_break_strip, Hb.
  - apply strip_is_trimmed.
  - exact Ec.
Qed.

Lemma read_env_wellformed (content : pystr) :
  Forall wellformed_item (read_env content).
Proof.
  unfold read_env.
  assert (H : forall lines acc,
             (forall l, In l lines ->
                exists body, no_line_break body = true /\
                             (l = body \/ l = body ++ [10%N])) ->
             Forall wellformed_item acc ->
             Forall wellformed_item (fold_left read_line lines acc)).
  { induction lines as [|l lines IH]; intros acc Hl Hacc; simpl;
      [exact Hacc|].
    apply IH; [intros l' Hl'; apply Hl; right; exact Hl'|].
    apply read_line_wellformed; [apply Hl; left; reflexivity | exact Hacc]. }
  apply H; [|constructor].
  intros l Hl.
  destruct (file_lines_shape _ l Hl) as (body & Hb & Hshape).
  exists body. split; [|exact Hshape].
  apply no_line_break_split. split; [exact Hb|].
  apply forallb_forall. intros c Hc.
  pose proof (universal_newlines_no_cr content) as Hcr.
  rewrite forallb_forall in Hcr. apply Hcr.
  apply (file_lines_chars _ l c Hl).
  destruct Hshape as [-> | ->]; [exact Hc | apply in_or_app; left; exact Hc].
Qed.

Lemma token_item_wellformed (iam_token : pystr) :
  token_ok iam_token = true -> wellformed_item (token_key, iam_token).
Proof.
  unfold token_ok. intro H. apply andb_true_iff in H as [Hn Hc].
  unfold wellformed_item, item_line. simpl fst. simpl snd.
  repeat split.
  - unfold no_line_break in *. rewrite forallb_app. simpl.
    rewrite Hn. reflexivity.
  - unfold is_trimmed. apply andb_true_iff. split; [reflexivity|].
    rewrite !rev_app_distr.
    destruct (rev iam_token) as [|c r]; [reflexivity | exact Hc].
Qed.

Lemma dict_set_unchanged (key value : pystr) (d : dict) :
  dict_get key d = Some value -> dict_set key value d = d.
Proof.
  induction d as [|[k v] d IH]; simpl; [discriminate|].
  destruct (pystr_eqb k key); [intros [= ->]; reflexivity|].
  intro H. rewrite (IH H). reflexivity.
Qed.

(** X24: the file [save_token_to_env] writes is read back as the variables
    that were written, and saving the same token again rewrites the same
    file, provided the token holds no line break and does not end with
    white space. *)
Theorem X24_saved_file_round_trip (existing : option pystr)
    (iam_token : pystr) :
  token_ok iam_token = true ->
  read_env (save_token_to_env existing iam_token)
  = updated_vars existing iam_token /\
  save_token_to_env (Some (save_token_to_env existing iam_token)) iam_token
  = save_token_to_env existing iam_token.
Proof.
  intro Hok.
  assert (Hwf : Forall wellformed_item (updated_vars existing iam_token)).
  { unfold updated_vars. apply dict_set_wellformed.
    - apply token_item_wellformed, Hok.
    - destruct existing; [apply read_env_wellformed | constructor]. }
  assert (Hnd : NoDup (map fst (updated_vars existing iam_token))).
  { apply (updated_vars_nodup existing iam_token). }
  assert (Hread : read_env (save_token_to_env existing iam_token)
                  = updated_vars existing iam_token).
  { unfold save_token_to_env, read_env.
    rewrite universal_newlines_plain.
    - apply (write_env_lines (updated_vars existing iam_token) [] Hwf Hnd).
    - apply write_env_no_cr, Hwf. }
  split; [exact Hread|].
  unfold save_token_to_env at 1. unfold updated_vars at 1.
  rewrite Hread. rewrite dict_set_unchanged; [reflexivity|].
  unfold updated_vars. apply dict_get_set_same.
Qed.

Lemma X24_witness_dotenv :
  token_ok new_token = true /\
  save_token_to_env (Some (save_token_to_env (Some dotenv) new_token))
    new_token
  = save_token_to_env (Some dotenv) new_token.
Proof.
  assert (H : token_ok new_token = true) by reflexivity.
  split; [exact H|].
  exact (proj2 (X24_saved_file_round_trip (Some dotenv) new_token H)).
Defined.

End ExtraDotenv.
